(** * Webhook payload generation and App resolvers of saleor

    A shallow embedding of [saleor/webhook/payloads.py] and of the permission
    gate of [saleor/graphql/app/types.py].

    Conventions.
    - A Python value that can end up in a payload is a [pyval]; a [dict] is an
      insertion-ordered association list with unique keys ([dict_set]
      overwrites in place, as Python does).
    - A serialized JSON document (the [str] returned by [json.dumps] or by the
      serializer) is represented by the value it denotes, so [json.loads] of a
      payload is the payload itself.
    - Code that can raise returns a [result].
    - What the layer reads from its surroundings (clock, package version,
      graphene helpers, currency table, database queries) is gathered in
      [Env]. *)

From Stdlib Require Import ZArith List String Ascii Lia Bool.
From stdpp Require Import base option list strings pretty gmap sets.

Local Open Scope string_scope.
Local Open Scope list_scope.
Local Open Scope Z_scope.

(** ** Decimals *)

(** A [decimal.Decimal]: the number [coef * 10 ^ dexp]. *)
Record Decimal := mkDecimal { coef : Z; dexp : Z }.

Definition round_half_even (n d : Z) : Z :=
  let q := n / d in
  let r := n mod d in
  if 2 * r <? d then q
  else if d <? 2 * r then q + 1
  else if Z.even q then q else q + 1.

(** [Decimal.quantize]: the same number with exactly [places] digits after the
    point, rounded half to even (the rounding of the default decimal context)
    when digits are dropped. *)
Definition quantize (d : Decimal) (places : Z) : Decimal :=
  let shift := dexp d + places in
  if 0 <=? shift
  then mkDecimal (coef d * 10 ^ shift) (- places)
  else mkDecimal (round_half_even (coef d) (10 ^ (- shift))) (- places).

(** ** Python values and dicts *)

#[local] Set Warnings "-register-all".

Inductive pyval :=
| PNone
| PBool (b : bool)
| PInt (z : Z)
| PDec (d : Decimal)
| PStr (s : string)
| PList (l : list pyval)
| PDict (d : list (string * pyval)).

#[local] Set Warnings "register-all".

Abbreviation dict := (list (string * pyval)).

(** Python truthiness, as used by [if x] / [if not x]. *)
Definition truthy (v : pyval) : bool :=
  match v with
  | PNone => false
  | PBool b => b
  | PInt z => negb (z =? 0)
  | PDec d => negb (coef d =? 0)
  | PStr s => negb (String.eqb s "")
  | PList l => match l with [] => false | _ => true end
  | PDict d => match d with [] => false | _ => true end
  end.

Definition opt_str (o : option string) : pyval :=
  match o with Some s => PStr s | None => PNone end.

Section Dict.
Context {V : Type}.

Fixpoint dict_get (k : string) (d : list (string * V)) : option V :=
  match d with
  | [] => None
  | (k', v) :: d' => if String.eqb k k' then Some v else dict_get k d'
  end.

(** [d[k] = v] *)
Fixpoint dict_set (k : string) (v : V) (d : list (string * V)) : list (string * V) :=
  match d with
  | [] => [(k, v)]
  | (k', v') :: d' =>
      if String.eqb k k' then (k, v) :: d' else (k', v') :: dict_set k v d'
  end.

(** [d.update(other)] *)
Definition dict_update (d other : list (string * V)) : list (string * V) :=
  fold_left (fun acc kv => dict_set (fst kv) (snd kv) acc) other d.

Definition dict_keys (d : list (string * V)) : list string := map fst d.

Definition has_key (k : string) (d : list (string * V)) : bool :=
  match dict_get k d with Some _ => true | None => false end.

(** The binding a sequence of assignments leaves for [k]: the last one. *)
Fixpoint last_binding (k : string) (d : list (string * V)) : option V :=
  match d with
  | [] => None
  | (k', v) :: d' =>
      match last_binding k d' with
      | Some v' => Some v'
      | None => if String.eqb k k' then Some v else None
      end
  end.

(** The same for the last key that satisfies [p]. *)
Fixpoint last_binding_where (p : string -> bool) (d : list (string * V)) : option V :=
  match d with
  | [] => None
  | (k', v) :: d' =>
      match last_binding_where p d' with
      | Some v' => Some v'
      | None => if p k' then Some v else None
      end
  end.
End Dict.

(** ** Exceptions *)

Inductive Permission :=
| MANAGE_APPS                          (* AppPermission.MANAGE_APPS *)
| OWNER                                (* AuthorizationFilters.OWNER *)
| OtherPermission (codename : string).

Definition permission_eqb (a b : Permission) : bool :=
  match a, b with
  | MANAGE_APPS, MANAGE_APPS => true
  | OWNER, OWNER => true
  | OtherPermission x, OtherPermission y => String.eqb x y
  | _, _ => false
  end.

Inductive exn :=
| AttributeError (what : string)
| TypeError (what : string)
| IndexError
| KeyError (key : string)
| PermissionDenied (permissions : list Permission).

Inductive result (A : Type) :=
| Ok (a : A)
| Raise (e : exn).
Arguments Ok {A} a.
Arguments Raise {A} e.

Definition bind {A B} (r : result A) (k : A -> result B) : result B :=
  match r with
  | Ok a => k a
  | Raise e => Raise e
  end.

Notation "'let*' x ':=' r 'in' k" := (bind r (fun x => k))
  (at level 10, x name, r at level 100, k at level 200).

Fixpoint mapM {A B} (f : A -> result B) (l : list A) : result (list B) :=
  match l with
  | [] => Ok []
  | a :: l' => let* b := f a in let* bs := mapM f l' in Ok (b :: bs)
  end.

Definition is_ok {A} (r : result A) : bool :=
  match r with Ok _ => true | Raise _ => false end.

(** ** Rows and the entities the payloads read

    A Django model instance is a [Model]: the name of its class, its primary
    key and the columns of its row.  An entity that the code navigates
    (relations, computed attributes) is a record around its row. *)

Record Model := mkModel {
  object_name : string;
  pk : pyval;
  columns : dict;
}.

(** [obj.<name>] for a column; a column the row does not list reads as
    [None]. *)
Definition attr (m : Model) (name : string) : pyval :=
  match dict_get name (columns m) with
  | Some v => v
  | None => PNone
  end.

(** [obj.<name>] for an amount column, used where the code calls a Decimal
    method on the value: anything but a Decimal has no such method. *)
Definition decimal_attr (m : Model) (name : string) : result Decimal :=
  match attr m name with
  | PDec d => Ok d
  | _ => Raise (AttributeError "quantize")
  end.

Definition with_columns (m : Model) (cols : dict) : Model :=
  mkModel (object_name m) (pk m) cols.

Record Address := {
  address_row : Model;
  address_country_code : string;          (* address.country.code *)
}.

Record Warehouse := {
  warehouse_row : Model;
  warehouse_address : option Address;     (* warehouse.address *)
}.

Record ShippingMethodChannelListing := {
  smcl_channel : pyval;                   (* pk of listing.channel *)
  smcl_currency : string;
  smcl_price_amount : Decimal;
}.

Record ShippingMethod := {
  shipping_method_row : Model;
  shipping_method_channel_listings : list ShippingMethodChannelListing;
}.

Record Allocation := {
  quantity_allocated : Z;
  stock__warehouse_id : pyval;
}.

Record ProductMedia := {
  media_alt : pyval;
  media_is_image : bool;                  (* media.type == ProductMediaTypes.IMAGE *)
  media_image_url : string;
  media_external_url : pyval;
}.

Record ProductVariantChannelListing := {
  vcl_row : Model;
  vcl_channel : Model;
}.

Record StockRow := {
  stock_row : Model;
  stock_quantity : Z;
  stock_warehouse_id : pyval;
  stock_warehouse : Warehouse;
  stock_product_variant_id : pyval;
  stock_product_id : pyval;               (* stock.product_variant.product_id *)
  stock_product_slug : pyval;             (* stock.product_variant.product.slug *)
}.

Record ProductVariant := {
  variant_row : Model;
  variant_global_id : string;             (* variant.get_global_id() *)
  variant_product_id : pyval;
  variant_weight_g : pyval;               (* variant.get_weight().g *)
  variant_product_type_name : pyval;      (* variant.product.product_type.name *)
  variant_attributes : pyval;             (* serialize_product_or_variant_attributes(variant) *)
  variant_media : list ProductMedia;      (* m.media for m in variant.variant_media.all() *)
  variant_channel_listings : list ProductVariantChannelListing;
  variant_stocks : list StockRow;
}.

Record OrderLine := {
  order_line_row : Model;
  order_line_currency : string;
  order_line_allocations : list Allocation;
  order_line_variant : option ProductVariant;
}.

Record FulfillmentLine := {
  fulfillment_line_row : Model;
  fulfillment_line_quantity : Z;
  fulfillment_line_order_line : OrderLine;
  fulfillment_line_stock : option StockRow;
}.

Record Fulfillment := {
  fulfillment_row : Model;
  fulfillment_lines : list FulfillmentLine;
}.

Record Order := {
  order_row : Model;
  order_currency : string;
  order_customer_email : pyval;           (* order.get_customer_email() *)
  order_lines : list OrderLine;
  order_fulfillments : list Fulfillment;
  order_payments : list Model;
  order_discounts : list Model;
  order_channel : Model;
  order_shipping_address : option Address;
  order_billing_address : option Address;
  order_collection_point : option Warehouse;
  order_shipping_method : option ShippingMethod;
}.

Record Checkout := {
  checkout_row : Model;
  checkout_currency : string;
  checkout_channel : Model;
  checkout_user : option Model;
  checkout_billing_address : option Address;
  checkout_shipping_address : option Address;
  checkout_collection_point : option Warehouse;
  checkout_shipping_method : option ShippingMethod;
}.

Record User := {
  user_row : Model;
  user_default_shipping_address : option Address;
  user_default_billing_address : option Address;
  user_addresses : list Address;
  user_permissions : list Permission;     (* what user.has_perm answers *)
}.

Record App := {
  app_row : Model;
  app_name : pyval;
  app_permissions : list Permission;
  app_tokens : list Model;
  app_webhooks : list Model;
}.

Record Collection := {
  collection_row : Model;
  collection_background_image : option string;   (* its url, when there is an image *)
}.

Record ProductChannelListing := {
  pcl_row : Model;
  pcl_channel : Model;
}.

Record Product := {
  product_row : Model;
  product_category : option Model;
  product_collections : list Model;
  product_attributes : pyval;             (* serialize_product_or_variant_attributes(product) *)
  product_media : list ProductMedia;
  product_channel_listings : list ProductChannelListing;
  product_variants : list ProductVariant;
}.

Record Invoice := {
  invoice_row : Model;
  invoice_order : option Order;
}.

(** [PaymentData] is a dataclass; [asdict] lists its fields. *)
Record PaymentData := {
  payment_gateway : string;
  payment_amount : Decimal;
  payment_currency : string;
  payment_other_fields : dict;
}.

Record Translation := {
  translation_language_code : pyval;
  translated_object_id : string * pyval;  (* translation.get_translated_object_id() *)
  translated_keys : dict;                 (* translation.get_translated_keys() *)
  (* translation.get_translation_context(), for an AttributeValueTranslation *)
  attribute_value_translation_context : option dict;
}.

Record ShippingMethodData := {
  smd_graphql_id : pyval;
  smd_price_amount : Decimal;
  smd_price_currency : string;
  smd_name : pyval;
  smd_maximum_order_weight : pyval;
  smd_minimum_order_weight : pyval;
  smd_maximum_delivery_days : pyval;
  smd_minimum_delivery_days : pyval;
}.

Record TransactionItem := {
  transaction_status : pyval;
  transaction_type : pyval;
  transaction_reference : pyval;
  transaction_available_actions : pyval;
  transaction_currency : string;
  transaction_charged_value : Decimal;
  transaction_authorized_value : Decimal;
  transaction_refunded_value : Decimal;
  transaction_voided_value : Decimal;
  transaction_order_id : pyval;
  transaction_checkout_id : pyval;
  transaction_created_at : pyval;
  transaction_modified_at : pyval;
}.

Record TransactionActionData := {
  action_type : pyval;
  action_value : option Decimal;
  action_transaction : TransactionItem;
}.

(** The requestor of an event: a [User], the [AnonymousUser] or an [App]. *)
Inductive Requestor :=
| ReqUser (u : User)
| ReqAnonymousUser
| ReqApp (a : App).

(** ** What the layer reads from its surroundings *)

Record Env := {
  now_isoformat : string;                        (* timezone.now().isoformat() *)
  saleor_version : string;                       (* saleor.__version__ *)
  to_global_id : string -> pyval -> string;      (* graphene.Node.to_global_id *)
  to_camel_case : string -> string;              (* graphene.utils.str_converters *)
  get_currency_precision : string -> Z;          (* digits of the currency's minor unit *)
  build_absolute_uri : string -> string;
  (* plugins.webhook.utils.from_payment_app_id: the app's name when the
     gateway id is a payment-app id *)
  from_payment_app_id : string -> option string;
  warehouses_for_country : string -> list Warehouse;   (* Warehouse.objects.for_country *)
  get_order_country : Order -> string;
  (* serialize_checkout_lines(checkout, fetch_active_discounts()) *)
  serialize_checkout_lines : Checkout -> list pyval;
  py_str : pyval -> string;                      (* str(x) *)
}.

(** ** Small helpers for Python idioms *)

(** [json.loads(payload)[0]] *)
Definition first_item (payload : pyval) : result pyval :=
  match payload with
  | PList (x :: _) => Ok x
  | PList [] => Raise IndexError
  | PDict _ => Raise (KeyError "0")
  | _ => Raise (TypeError "object is not subscriptable")
  end.

(** Equality of primary keys, as a queryset filter compares them. *)
Definition pk_eqb (a b : pyval) : bool :=
  match a, b with
  | PInt x, PInt y => x =? y
  | PStr x, PStr y => String.eqb x y
  | _, _ => false
  end.

(** [Decimal * int] *)
Definition decimal_times (d : Decimal) (n : Z) : Decimal :=
  mkDecimal (coef d * n) (dexp d).

(** The top-level objects of a payload: the elements of a serialized list,
    or the document itself. *)
Definition top_objects (payload : pyval) : list pyval :=
  match payload with
  | PList l => l
  | v => [v]
  end.

Definition get_field (k : string) (v : pyval) : option pyval :=
  match v with
  | PDict d => dict_get k d
  | _ => None
  end.

(** [str(uuid.UUID(int=n))]: the 128-bit number as 32 hexadecimal digits,
    grouped 8-4-4-4-12. *)
Definition hex_digit (n : Z) : ascii :=
  match String.get (Z.to_nat n) "0123456789abcdef" with
  | Some c => c
  | None => "0"%char
  end.

Fixpoint hex_digits (count : nat) (n : Z) (acc : string) : string :=
  match count with
  | O => acc
  | S count' => hex_digits count' (n / 16) (String (hex_digit (n mod 16)) acc)
  end.

Definition uuid_str (n : Z) : string :=
  let h := hex_digits 32 n "" in
  String.substring 0 8 h +:+ "-" +:+ String.substring 8 4 h +:+ "-" +:+
  String.substring 12 4 h +:+ "-" +:+ String.substring 16 4 h +:+ "-" +:+
  String.substring 20 12 h.

(** ** The serializer *)

(** What the callable of an additional field returns: nothing, one related
    row, or a collection of rows. *)
Inductive Related :=
| RelNone
| RelOne (m : Model)
| RelMany (l : list Model).

Definition rel_opt {A} (row : A -> Model) (o : option A) : Related :=
  match o with
  | Some a => RelOne (row a)
  | None => RelNone
  end.

Inductive ExtraValue (T : Type) :=
| Const (v : pyval)
| Callable (f : T -> result pyval).
Arguments Const {T} v.
Arguments Callable {T} f.

(** The value an extra field takes for an object. *)
Definition eval_extra {T} (value : ExtraValue T) (obj : T) : result pyval :=
  match value with
  | Const v => Ok v
  | Callable f => f obj
  end.

Definition in_keys {V} (k : string) (d : list (string * V)) : bool :=
  existsb (fun kv => String.eqb k (fst kv)) d.

Section Payloads.
Context (env : Env).

(** Modelled from the spec: [saleor.core.prices.quantize_price] is defined
    outside the modules embedded here.  It rounds a monetary amount to the minor-unit precision
    of its currency. *)
Definition quantize_price (price : Decimal) (currency : string) : Decimal :=
  quantize price (get_currency_precision env currency).

(** Modelled from the spec: [saleor.core.prices.quantize_price_fields] is
    defined outside the modules embedded here.  It rounds the named monetary fields of the
    model in place; a field that holds no amount is left as it is. *)
Definition quantize_price_fields (model : Model) (fields : list string)
    (currency : string) : Model :=
  with_columns model
    (map (fun kv =>
            match snd kv with
            | PDec d =>
                if existsb (String.eqb (fst kv)) fields
                then (fst kv, PDec (quantize_price d currency))
                else kv
            | _ => kv
            end) (columns model)).

Definition global_id (type_name : string) (id : pyval) : pyval :=
  PStr (to_global_id env type_name id).

Section Serializer.
Context {T : Type}.

(** Modelled from the spec: [PayloadSerializer] is defined outside the
    modules embedded here.  The field projector copies the allowlisted attributes the
    row has into a plain mapping. *)
Definition project (fields : list string) (m : Model) : dict :=
  fold_left
    (fun acc f =>
       match dict_get f (columns m) with
       | Some v => dict_set f v acc
       | None => acc
       end) fields [].

(** Modelled from the spec: a related-entity sub-payload is the projection
    of the related row, under its global id. *)
Definition dump_related (fields : list string) (m : Model) : pyval :=
  PDict (dict_set "id" (global_id (object_name m) (pk m)) (project fields m)).

(** Modelled from the spec: a missing related entity degrades to [null]. *)
Definition serialize_related (fields : list string) (r : Related) : pyval :=
  match r with
  | RelNone => PNone
  | RelOne m => dump_related fields m
  | RelMany l => PList (map (dump_related fields) l)
  end.

(** Modelled from the spec: the additional-field injector evaluates each
    callable on the object and merges the sub-payload of what it returns. *)
Fixpoint apply_additional (obj : T)
    (additional : list (string * ((T -> result Related) * list string)))
    (data : dict) : result dict :=
  match additional with
  | [] => Ok data
  | (name, (qs, fields)) :: rest =>
      let* r := qs obj in
      apply_additional obj rest (dict_set name (serialize_related fields r) data)
  end.

(** Modelled from the spec: the extra-field injector merges each value,
    evaluating it on the object when it is a callable. *)
Fixpoint apply_extra (obj : T) (extra : list (string * ExtraValue T))
    (data : dict) : result dict :=
  match extra with
  | [] => Ok data
  | (key, value) :: rest =>
      let* v := match value with
                | Const v => Ok v
                | Callable f => f obj
                end in
      apply_extra obj rest (dict_set key v data)
  end.

(** Modelled from the spec: the document of one object.  The projected
    mapping, the object id under [obj_id_name] (the call sites name it
    ["token"] for a checkout), then the additional (related-entity)
    fields and the extra fields merged into it, callables being
    evaluated on the object. *)
Definition get_dump_object (model_of : T -> Model) (fields : list string)
    (obj_id_name : string)
    (additional : list (string * ((T -> result Related) * list string)))
    (extra : list (string * ExtraValue T)) (obj : T) : result pyval :=
  let m := model_of obj in
  let data := dict_set obj_id_name (global_id (object_name m) (pk m))
                (project fields m) in
  let* data := apply_additional obj additional data in
  let* data := apply_extra obj extra data in
  Ok (PDict data).

(** Modelled from the spec: [PayloadSerializer.serialize], one document
    per object of the queryset. *)
Definition serialize (model_of : T -> Model) (queryset : list T)
    (fields : list string) (obj_id_name : string)
    (additional : list (string * ((T -> result Related) * list string)))
    (extra : list (string * ExtraValue T)) : result pyval :=
  let* docs := mapM (get_dump_object model_of fields obj_id_name additional extra)
                    queryset in
  Ok (PList docs).
End Serializer.

(** ** Requestor and meta envelope *)

Definition generate_requestor (requestor : option Requestor) : dict :=
  match requestor with
  | None => [("id", PNone); ("type", PNone)]
  | Some (ReqUser u) =>
      [("id", global_id "User" (pk (user_row u))); ("type", PStr "user")]
  | Some ReqAnonymousUser =>
      [("id", global_id "User" PNone); ("type", PStr "user")]
  | Some (ReqApp a) => [("id", app_name a); ("type", PStr "app")]
  end.

Definition generate_meta (requestor_data : dict) (camel_case : bool)
    (kwargs : dict) : dict :=
  let meta_result :=
    dict_update
      [("issued_at", PStr (now_isoformat env));
       ("version", PStr (saleor_version env));
       ("issuing_principal", PDict requestor_data)]
      kwargs in
  if camel_case
  then fold_left
         (fun meta kv => dict_set (to_camel_case env (fst kv)) (snd kv) meta)
         meta_result []
  else meta_result.

(** [generate_meta(requestor_data=generate_requestor(requestor))] *)
Definition meta_for (requestor : option Requestor) : pyval :=
  PDict (generate_meta (generate_requestor requestor) false []).

(** ** Field lists *)

Definition ADDRESS_FIELDS : list string :=
  ["first_name"; "last_name"; "company_name"; "street_address_1";
   "street_address_2"; "city"; "city_area"; "postal_code"; "country";
   "country_area"; "phone"].

Definition ORDER_FIELDS : list string :=
  ["status"; "origin"; "shipping_method_name"; "collection_point_name";
   "shipping_price_net_amount"; "shipping_price_gross_amount";
   "shipping_tax_rate"; "weight"; "language_code"; "private_metadata";
   "metadata"; "total_net_amount"; "total_gross_amount";
   "undiscounted_total_net_amount"; "undiscounted_total_gross_amount"].

Definition ORDER_PRICE_FIELDS : list string :=
  ["shipping_price_net_amount"; "shipping_price_gross_amount";
   "total_net_amount"; "total_gross_amount";
   "undiscounted_total_net_amount"; "undiscounted_total_gross_amount"].

Definition PRODUCT_FIELDS : list string :=
  ["name"; "description"; "currency"; "updated_at"; "charge_taxes"; "weight";
   "publication_date"; "is_published"; "private_metadata"; "metadata"].

Definition PRODUCT_VARIANT_FIELDS : list string :=
  ["sku"; "name"; "track_inventory"; "private_metadata"; "metadata"].

(** The row as the serializer sees it: typed attributes that are columns
    too are read from the record. *)
Definition with_column (m : Model) (name : string) (v : pyval) : Model :=
  with_columns m (dict_set name v (columns m)).

Definition order_line_model (l : OrderLine) : Model :=
  with_column (order_line_row l) "currency" (PStr (order_line_currency l)).

Definition fulfillment_line_model (fl : FulfillmentLine) : Model :=
  with_column (fulfillment_line_row fl) "quantity"
    (PInt (fulfillment_line_quantity fl)).

Definition checkout_model (c : Checkout) : Model :=
  with_column (checkout_row c) "currency" (PStr (checkout_currency c)).

(** ** Order lines *)

Definition prepare_order_lines_allocations_payload (line : OrderLine) : pyval :=
  PList
    (map (fun a =>
            PDict [("quantity_allocated", PInt (quantity_allocated a));
                   ("warehouse_id", global_id "Warehouse" (stock__warehouse_id a))])
       (order_line_allocations line)).

Definition line_fields : list string :=
  ["product_name"; "variant_name"; "translated_product_name";
   "translated_variant_name"; "product_sku"; "quantity"; "currency";
   "unit_price_net_amount"; "unit_price_gross_amount";
   "unit_discount_amount"; "unit_discount_type"; "unit_discount_reason";
   "total_price_net_amount"; "total_price_gross_amount";
   "undiscounted_unit_price_net_amount";
   "undiscounted_unit_price_gross_amount";
   "undiscounted_total_price_net_amount";
   "undiscounted_total_price_gross_amount"; "tax_rate"; "sale_id";
   "voucher_code"].

Definition line_price_fields : list string :=
  ["unit_price_gross_amount"; "unit_price_net_amount";
   "unit_discount_amount"; "total_price_net_amount";
   "total_price_gross_amount"; "undiscounted_unit_price_net_amount";
   "undiscounted_unit_price_gross_amount";
   "undiscounted_total_price_net_amount";
   "undiscounted_total_price_gross_amount"].

Definition quantize_order_line (line : OrderLine) : OrderLine :=
  {| order_line_row :=
       quantize_price_fields (order_line_row line) line_price_fields
         (order_line_currency line);
     order_line_currency := order_line_currency line;
     order_line_allocations := order_line_allocations line;
     order_line_variant := order_line_variant line |}.

Definition generate_order_lines_payload (lines : list OrderLine) : result pyval :=
  let lines := map quantize_order_line lines in
  serialize order_line_model lines line_fields "id" []
    [("product_variant_id",
      Callable (fun l => Ok (attr (order_line_row l) "product_variant_id")));
     ("total_price_net_amount",
      Callable (fun l =>
        let* d := decimal_attr (order_line_row l) "total_price_net_amount" in
        Ok (PDec d)));
     ("total_price_gross_amount",
      Callable (fun l =>
        let* d := decimal_attr (order_line_row l) "total_price_gross_amount" in
        Ok (PDec d)));
     ("allocations",
      Callable (fun l => Ok (prepare_order_lines_allocations_payload l)))].

(** ** Collection point and shipping method *)

Definition _generate_collection_point_payload (warehouse : Warehouse) : result pyval :=
  serialize warehouse_row [warehouse]
    ["name"; "email"; "click_and_collect_option"; "is_private"] "id"
    [("address",
      (fun w => Ok (rel_opt address_row (warehouse_address w)), ADDRESS_FIELDS))]
    [].

Definition _generate_shipping_method_payload
    (shipping_method : option ShippingMethod) (channel : Model) : result pyval :=
  match shipping_method with
  | None => Ok PNone
  | Some shipping_method =>
      let shipping_method_channel_listing :=
        head (List.filter (fun l => pk_eqb (smcl_channel l) (pk channel))
                          (shipping_method_channel_listings shipping_method)) in
      match shipping_method_channel_listing with
      | None => Raise (AttributeError "currency")
      | Some listing =>
          let* payload :=
            serialize shipping_method_row [shipping_method] ["name"; "type"] "id" []
              [("currency", Const (PStr (smcl_currency listing)));
               ("price_amount",
                Const (PDec (quantize_price (smcl_price_amount listing)
                                            (smcl_currency listing))))] in
          first_item payload
      end
  end.

(** ** Fulfillment lines *)

Definition quantized_attr (row : Model) (name currency : string) : result Decimal :=
  let* d := decimal_attr row name in
  Ok (quantize_price d currency).

Definition generate_fulfillment_lines_payload (fulfillment : Fulfillment)
    : result pyval :=
  let lines := fulfillment_lines fulfillment in
  let ol := fun fl => fulfillment_line_order_line fl in
  let ol_attr := fun name =>
    Callable (fun fl => Ok (attr (order_line_row (ol fl)) name)) in
  let ol_price := fun name =>
    Callable (fun fl =>
      let* d := quantized_attr (order_line_row (ol fl)) name
                  (order_line_currency (ol fl)) in
      Ok (PDec d)) in
  let ol_total := fun name =>
    Callable (fun fl =>
      let* d := quantized_attr (order_line_row (ol fl)) name
                  (order_line_currency (ol fl)) in
      Ok (PDec (decimal_times d (fulfillment_line_quantity fl)))) in
  serialize fulfillment_line_model lines ["quantity"] "id" []
    [("product_name", ol_attr "product_name");
     ("variant_name", ol_attr "variant_name");
     ("product_sku", ol_attr "product_sku");
     ("product_variant_id", ol_attr "product_variant_id");
     ("weight",
      Callable (fun fl =>
        Ok match order_line_variant (ol fl) with
           | Some v => variant_weight_g v
           | None => PNone
           end));
     ("weight_unit", Const (PStr "gram"));
     ("product_type",
      Callable (fun fl =>
        Ok match order_line_variant (ol fl) with
           | Some v => variant_product_type_name v
           | None => PNone
           end));
     ("unit_price_net", ol_price "unit_price_net_amount");
     ("unit_price_gross", ol_price "unit_price_gross_amount");
     ("undiscounted_unit_price_net", ol_price "undiscounted_unit_price_net_amount");
     ("undiscounted_unit_price_gross", ol_price "undiscounted_unit_price_gross_amount");
     ("total_price_net_amount", ol_total "undiscounted_unit_price_net_amount");
     ("total_price_gross_amount", ol_total "undiscounted_unit_price_gross_amount");
     ("currency",
      Callable (fun fl => Ok (PStr (order_line_currency (ol fl)))));
     ("warehouse_id",
      Callable (fun fl =>
        Ok match fulfillment_line_stock fl with
           | Some stock => global_id "Warehouse" (stock_warehouse_id stock)
           | None => PNone
           end));
     ("sale_id", ol_attr "sale_id");
     ("voucher_code", ol_attr "voucher_code")].

(** ** Orders *)

Definition _generate_order_payment_payload (payments : list Model) : result pyval :=
  serialize (fun p : Model => p) payments
    ["gateway"; "payment_method_type"; "cc_brand"; "is_active"; "partial";
     "charge_status"; "psp_reference"; "total"; "captured_amount";
     "currency"; "billing_email"; "billing_first_name"; "billing_last_name";
     "billing_company_name"; "billing_address_1"; "billing_address_2";
     "billing_city"; "billing_city_area"; "billing_postal_code";
     "billing_country_code"; "billing_country_area"] "id" []
    [("created", Callable (fun p => Ok (attr p "created_at")));
     ("modified", Callable (fun p => Ok (attr p "modified_at")))].

Definition fulfillment_price_fields : list string :=
  ["shipping_refund_amount"; "total_refund_amount"].

Definition quantize_fulfillment (f : Fulfillment) (currency : string) : Fulfillment :=
  {| fulfillment_row :=
       quantize_price_fields (fulfillment_row f) fulfillment_price_fields currency;
     fulfillment_lines := fulfillment_lines f |}.

(** The four [quantize_price_fields] passes at the head of
    [generate_order_payload]. *)
Definition quantize_order (order : Order) : Order :=
  let currency := order_currency order in
  {| order_row := quantize_price_fields (order_row order) ORDER_PRICE_FIELDS currency;
     order_currency := currency;
     order_customer_email := order_customer_email order;
     order_lines := order_lines order;
     order_fulfillments :=
       map (fun f => quantize_fulfillment f currency) (order_fulfillments order);
     order_payments :=
       map (fun p => quantize_price_fields p ["captured_amount"; "total"] currency)
         (order_payments order);
     order_discounts :=
       map (fun d => quantize_price_fields d ["amount_value"] currency)
         (order_discounts order);
     order_channel := order_channel order;
     order_shipping_address := order_shipping_address order;
     order_billing_address := order_billing_address order;
     order_collection_point := order_collection_point order;
     order_shipping_method := order_shipping_method order |}.

Definition generate_order_payload (order : Order) (requestor : option Requestor)
    (with_meta : bool) : result pyval :=
  let fulfillment_fields :=
    ["status"; "tracking_number"; "shipping_refund_amount"; "total_refund_amount"] in
  let discount_fields :=
    ["type"; "value_type"; "value"; "amount_value"; "name"; "translated_name";
     "reason"] in
  let channel_fields := ["slug"; "currency_code"] in
  let order := quantize_order order in
  let lines := order_lines order in
  let fulfillments := order_fulfillments order in
  let payments := order_payments order in
  let discounts := order_discounts order in
  let* fulfillments_data :=
    serialize fulfillment_row fulfillments fulfillment_fields "id" []
      [("lines", Callable (fun f => generate_fulfillment_lines_payload f));
       ("created", Callable (fun f => Ok (attr (fulfillment_row f) "created_at")))] in
  let* lines_data := generate_order_lines_payload lines in
  let* collection_point :=
    match order_collection_point order with
    | Some w => let* p := _generate_collection_point_payload w in first_item p
    | None => Ok PNone
    end in
  let* payments_data := _generate_order_payment_payload payments in
  let* shipping_method :=
    _generate_shipping_method_payload (order_shipping_method order)
      (order_channel order) in
  let extra_dict_data : list (string * ExtraValue Order) :=
    [("id", Const (global_id "Order" (pk (order_row order))));
     ("token", Const (PStr (py_str env (pk (order_row order)))));
     ("user_email", Const (order_customer_email order));
     ("created", Const (attr (order_row order) "created_at"));
     ("original", Const (global_id "Order" (attr (order_row order) "original_id")));
     ("lines", Const lines_data);
     ("fulfillments", Const fulfillments_data);
     ("collection_point", Const collection_point);
     ("payments", Const payments_data);
     ("shipping_method", Const shipping_method)] in
  let extra_dict_data :=
    if with_meta
    then dict_set "meta" (Const (meta_for requestor)) extra_dict_data
    else extra_dict_data in
  serialize order_row [order] ORDER_FIELDS "id"
    [("channel", (fun o => Ok (RelOne (order_channel o)), channel_fields));
     ("shipping_address",
      (fun o => Ok (rel_opt address_row (order_shipping_address o)), ADDRESS_FIELDS));
     ("billing_address",
      (fun o => Ok (rel_opt address_row (order_billing_address o)), ADDRESS_FIELDS));
     ("discounts", (fun _ => Ok (RelMany discounts), discount_fields))]
    extra_dict_data.

(** ** Sales *)

(** [catalogue[key]] on a [defaultdict(set)]: a missing key is inserted with
    the empty set. *)
Definition defaultdict_getitem (catalogue : gmap string (gset string))
    (key : string) : gset string * gmap string (gset string) :=
  match catalogue !! key with
  | Some ids => (ids, catalogue)
  | None => (∅, <[key := ∅]> catalogue)
  end.

(** Returns the list and the two catalogues as the lookups leave them. *)
Definition _calculate_added (previous_catalogue current_catalogue : gmap string (gset string))
    (key : string)
    : list string * (gmap string (gset string) * gmap string (gset string)) :=
  let (current, current_catalogue) := defaultdict_getitem current_catalogue key in
  let (previous, previous_catalogue) := defaultdict_getitem previous_catalogue key in
  (elements (current ∖ previous), (previous_catalogue, current_catalogue)).

Definition _calculate_removed (previous_catalogue current_catalogue : gmap string (gset string))
    (key : string)
    : list string * (gmap string (gset string) * gmap string (gset string)) :=
  let '(ids, (current_catalogue, previous_catalogue)) :=
    _calculate_added current_catalogue previous_catalogue key in
  (ids, (previous_catalogue, current_catalogue)).

Definition id_list (ids : list string) : pyval := PList (map PStr ids).

(** The ids a catalogue holds for a kind; none when the catalogue is
    omitted or has no entry for the kind. *)
Definition catalogue_ids (catalogue : option (gmap string (gset string)))
    (kind : string) : gset string :=
  default ∅ (default ∅ catalogue !! kind).

Definition catalogue_kinds : list string :=
  ["categories"; "collections"; "products"; "variants"].

Definition generate_sale_payload (sale : Model)
    (previous_catalogue current_catalogue : option (gmap string (gset string)))
    (requestor : option Requestor) : result pyval :=
  let previous_catalogue := default ∅ previous_catalogue in
  let current_catalogue := default ∅ current_catalogue in
  let meta := meta_for requestor in
  let step := fun (calc : _ -> _ -> string -> _) key (st : _ * _) =>
    calc (fst st) (snd st) key in
  let st := (previous_catalogue, current_catalogue) in
  let '(categories_added, st) := step _calculate_added "categories" st in
  let '(categories_removed, st) := step _calculate_removed "categories" st in
  let '(collections_added, st) := step _calculate_added "collections" st in
  let '(collections_removed, st) := step _calculate_removed "collections" st in
  let '(products_added, st) := step _calculate_added "products" st in
  let '(products_removed, st) := step _calculate_removed "products" st in
  let '(variants_added, st) := step _calculate_added "variants" st in
  let '(variants_removed, _) := step _calculate_removed "variants" st in
  serialize (fun s : Model => s) [sale] ["id"] "id" []
    [("meta", Const meta);
     ("categories_added", Const (id_list categories_added));
     ("categories_removed", Const (id_list categories_removed));
     ("collections_added", Const (id_list collections_added));
     ("collections_removed", Const (id_list collections_removed));
     ("products_added", Const (id_list products_added));
     ("products_removed", Const (id_list products_removed));
     ("variants_added", Const (id_list variants_added));
     ("variants_removed", Const (id_list variants_removed))].

(** ** Invoices *)

Definition _generate_order_payload_for_invoice (order : option Order) : result pyval :=
  match order with
  | None => Raise (AttributeError "id")
  | Some order =>
      serialize order_row [order] ORDER_FIELDS "id" []
        [("token", Const (pk (order_row order)));
         ("user_email", Const (order_customer_email order));
         ("created", Const (attr (order_row order) "created_at"))]
  end.

Definition quantize_invoice_order (invoice : Invoice) : Invoice :=
  {| invoice_row := invoice_row invoice;
     invoice_order :=
       match invoice_order invoice with
       | Some order =>
           Some {| order_row :=
                     quantize_price_fields (order_row order) ORDER_PRICE_FIELDS
                       (order_currency order);
                   order_currency := order_currency order;
                   order_customer_email := order_customer_email order;
                   order_lines := order_lines order;
                   order_fulfillments := order_fulfillments order;
                   order_payments := order_payments order;
                   order_discounts := order_discounts order;
                   order_channel := order_channel order;
                   order_shipping_address := order_shipping_address order;
                   order_billing_address := order_billing_address order;
                   order_collection_point := order_collection_point order;
                   order_shipping_method := order_shipping_method order |}
       | None => None
       end |}.

Definition generate_invoice_payload (invoice : Invoice)
    (requestor : option Requestor) : result pyval :=
  let invoice := quantize_invoice_order invoice in
  serialize invoice_row [invoice] ["id"; "number"; "external_url"; "created"] "id" []
    [("meta", Const (meta_for requestor));
     ("order",
      Callable (fun i =>
        let* p := _generate_order_payload_for_invoice (invoice_order i) in
        first_item p))].

(** ** Checkouts *)

Definition quantize_checkout (checkout : Checkout) : Checkout :=
  {| checkout_row :=
       quantize_price_fields (checkout_row checkout) ["discount_amount"]
         (checkout_currency checkout);
     checkout_currency := checkout_currency checkout;
     checkout_channel := checkout_channel checkout;
     checkout_user := checkout_user checkout;
     checkout_billing_address := checkout_billing_address checkout;
     checkout_shipping_address := checkout_shipping_address checkout;
     checkout_collection_point := checkout_collection_point checkout;
     checkout_shipping_method := checkout_shipping_method checkout |}.

(** The warehouse picked for a checkout: the first one serving the country
    of the shipping address, if there is an address. *)
Definition checkout_warehouse (checkout : Checkout) : option Warehouse :=
  match checkout_shipping_address checkout with
  | Some address => head (warehouses_for_country env (address_country_code address))
  | None => None
  end.

Definition generate_checkout_payload (checkout : Checkout)
    (requestor : option Requestor) : result pyval :=
  let checkout_fields :=
    ["last_change"; "status"; "email"; "quantity"; "currency";
     "discount_amount"; "discount_name"; "language_code"; "private_metadata";
     "metadata"] in
  let checkout := quantize_checkout checkout in
  let user_fields := ["email"; "first_name"; "last_name"] in
  let channel_fields := ["slug"; "currency_code"] in
  let lines_dict_data := serialize_checkout_lines env checkout in
  let warehouse := checkout_warehouse checkout in
  let* shipping_method :=
    _generate_shipping_method_payload (checkout_shipping_method checkout)
      (checkout_channel checkout) in
  let* collection_point :=
    match checkout_collection_point checkout with
    | Some w => let* p := _generate_collection_point_payload w in first_item p
    | None => Ok PNone
    end in
  serialize checkout_model [checkout] checkout_fields "token"
    [("channel", (fun o => Ok (RelOne (checkout_channel o)), channel_fields));
     ("user", (fun c => Ok (rel_opt (fun u : Model => u) (checkout_user c)), user_fields));
     ("billing_address",
      (fun c => Ok (rel_opt address_row (checkout_billing_address c)), ADDRESS_FIELDS));
     ("shipping_address",
      (fun c => Ok (rel_opt address_row (checkout_shipping_address c)), ADDRESS_FIELDS));
     ("warehouse_address",
      (fun c =>
         Ok match warehouse with
            | Some w => rel_opt address_row (warehouse_address w)
            | None => RelNone
            end, ADDRESS_FIELDS))]
    [("shipping_method", Const shipping_method);
     ("lines", Const (PList lines_dict_data));
     ("collection_point", Const collection_point);
     ("meta", Const (meta_for requestor));
     ("created", Const (attr (checkout_row checkout) "created_at"))].

(** ** Customers and collections *)

Definition generate_customer_payload (customer : User)
    (requestor : option Requestor) : result pyval :=
  serialize user_row [customer]
    ["email"; "first_name"; "last_name"; "is_active"; "date_joined";
     "language_code"; "private_metadata"; "metadata"] "id"
    [("default_shipping_address",
      (fun c => Ok (rel_opt address_row (user_default_shipping_address c)),
       ADDRESS_FIELDS));
     ("default_billing_address",
      (fun c => Ok (rel_opt address_row (user_default_billing_address c)),
       ADDRESS_FIELDS));
     ("addresses",
      (fun c => Ok (RelMany (map address_row (user_addresses c))), ADDRESS_FIELDS))]
    [("meta", Const (meta_for requestor))].

Definition generate_collection_payload (collection : Collection)
    (requestor : option Requestor) : result pyval :=
  serialize collection_row [collection]
    ["name"; "description"; "background_image_alt"; "private_metadata"; "metadata"]
    "id" []
    [("background_image",
      Const match collection_background_image collection with
            | Some url => PStr (build_absolute_uri env url)
            | None => PNone
            end);
     ("meta", Const (meta_for requestor))].

(** ** Products and variants *)

Definition serialize_product_channel_listing_payload
    (channel_listings : list ProductChannelListing) : result pyval :=
  serialize pcl_row channel_listings
    ["published_at"; "is_published"; "visible_in_listings";
     "available_for_purchase_at"] "id" []
    [("channel_slug", Callable (fun pch => Ok (attr (pcl_channel pch) "slug")));
     (* deprecated in 3.3 *)
     ("publication_date", Callable (fun pch => Ok (attr (pcl_row pch) "published_at")));
     ("available_for_purchase",
      Callable (fun pch => Ok (attr (pcl_row pch) "available_for_purchase_at")))].

Definition media_payload (media_obj : ProductMedia) : pyval :=
  PDict [("alt", media_alt media_obj);
         ("url",
          if media_is_image media_obj
          then PStr (build_absolute_uri env (media_image_url media_obj))
          else media_external_url media_obj)].

Definition generate_product_variant_listings_payload
    (variant_channel_listings : list ProductVariantChannelListing) : result pyval :=
  serialize vcl_row variant_channel_listings
    ["currency"; "price_amount"; "cost_price_amount"] "id" []
    [("channel_slug", Callable (fun vch => Ok (attr (vcl_channel vch) "slug")))].

Definition generate_product_variant_media_payload (product_variant : ProductVariant)
    : pyval :=
  PList (map media_payload (variant_media product_variant)).

Definition generate_product_variant_with_stock_payload (stocks : list StockRow)
    (requestor : option Requestor) : result pyval :=
  serialize stock_row stocks [] "id" []
    [("product_id", Callable (fun v => Ok (global_id "Product" (stock_product_id v))));
     ("product_variant_id",
      Callable (fun v => Ok (global_id "ProductVariant" (stock_product_variant_id v))));
     ("warehouse_id",
      Callable (fun v => Ok (global_id "Warehouse" (stock_warehouse_id v))));
     ("product_slug", Callable (fun v => Ok (stock_product_slug v)));
     ("meta", Const (meta_for requestor))].

Definition generate_product_variant_payload (product_variants : list ProductVariant)
    (requestor : option Requestor) (with_meta : bool) : result pyval :=
  let extra_dict_data : list (string * ExtraValue ProductVariant) :=
    [("id", Callable (fun v => Ok (PStr (variant_global_id v))));
     ("attributes", Callable (fun v => Ok (variant_attributes v)));
     ("product_id", Callable (fun v => Ok (global_id "Product" (variant_product_id v))));
     ("media", Callable (fun v => Ok (generate_product_variant_media_payload v)));
     ("channel_listings",
      Callable (fun v =>
        generate_product_variant_listings_payload (variant_channel_listings v)))] in
  let extra_dict_data :=
    if with_meta
    then dict_set "meta" (Const (meta_for requestor)) extra_dict_data
    else extra_dict_data in
  serialize variant_row product_variants PRODUCT_VARIANT_FIELDS "id" []
    extra_dict_data.

(** The ["variants"] callable of the product payload hands the product
    itself, not its variants, to [generate_product_variant_payload], whose
    serializer iterates over its argument: a model instance is not
    iterable. *)
Definition generate_product_payload (product : Product)
    (requestor : option Requestor) : result pyval :=
  let meta := meta_for requestor in
  let* channel_listings :=
    serialize_product_channel_listing_payload (product_channel_listings product) in
  serialize product_row [product] PRODUCT_FIELDS "id"
    [("category", (fun p => Ok (rel_opt (fun c : Model => c) (product_category p)),
                   ["name"; "slug"]));
     ("collections", (fun p => Ok (RelMany (product_collections p)), ["name"; "slug"]))]
    [("meta", Const meta);
     ("attributes", Const (product_attributes product));
     ("media", Const (PList (map media_payload (product_media product))));
     ("channel_listings", Const channel_listings);
     ("variants",
      Callable (fun x => Raise (TypeError "'Product' object is not iterable")))].

Definition generate_product_deleted_payload (product : Product)
    (variants_id : list pyval) (requestor : option Requestor) : result pyval :=
  let product_variant_ids := map (global_id "ProductVariant") variants_id in
  serialize product_row [product] PRODUCT_FIELDS "id" []
    [("meta", Const (meta_for requestor));
     ("variants", Const (PList product_variant_ids))].

(** [queryset.aggregate(Sum(field))[field__sum]]: the sum over the rows, or
    [None] when there is no row. *)
Definition aggregate_sum (quantities : list Z) : option Z :=
  match quantities with
  | [] => None
  | _ => Some (fold_right Z.add 0 quantities)
  end.

(** [x or 0] for an optional integer. *)
Definition or_zero (x : option Z) : Z :=
  match x with
  | Some n => if n =? 0 then 0 else n
  | None => 0
  end.

Definition generate_product_variant_stocks_payload (product_variant : ProductVariant)
    : Z :=
  or_zero (aggregate_sum (map stock_quantity (variant_stocks product_variant))).

(** ** Fulfillments *)

(** The warehouse whose address a fulfillment payload reports: the one of
    the first line's stock, else the first one serving the order's
    country. *)
Definition fulfillment_warehouse (fulfillment : Fulfillment) (order : Order)
    : option Warehouse :=
  let order_country := get_order_country env order in
  match head (fulfillment_lines fulfillment) with
  | Some fulfillment_line =>
      match fulfillment_line_stock fulfillment_line with
      | Some stock => Some (stock_warehouse stock)
      | None => head (warehouses_for_country env order_country)
      end
  | None => head (warehouses_for_country env order_country)
  end.

(** [order] is [fulfillment.order]. *)
Definition generate_fulfillment_payload (fulfillment : Fulfillment) (order : Order)
    (requestor : option Requestor) : result pyval :=
  let fulfillment_fields :=
    ["status"; "tracking_code"; "order__user_email"; "shipping_refund_amount";
     "total_refund_amount"] in
  let warehouse := fulfillment_warehouse fulfillment order in
  let fulfillment := quantize_fulfillment fulfillment (order_currency order) in
  let* order_payload := generate_order_payload order None false in
  let* order_data := first_item order_payload in
  let* lines_data := generate_fulfillment_lines_payload fulfillment in
  let meta := meta_for requestor in
  serialize fulfillment_row [fulfillment] fulfillment_fields "id"
    [("warehouse_address",
      (fun f =>
         match warehouse with
         | Some w => Ok (rel_opt address_row (warehouse_address w))
         | None => Raise (AttributeError "address")
         end, ADDRESS_FIELDS))]
    [("order", Const order_data);
     ("lines", Const lines_data);
     ("meta", Const meta)].

(** ** Pages and payments *)

Definition generate_page_payload (page : Model) (requestor : option Requestor)
    : result pyval :=
  serialize (fun p : Model => p) [page]
    ["private_metadata"; "metadata"; "title"; "content"; "published_at";
     "is_published"; "updated_at"] "id" []
    [("data", Const (meta_for requestor));
     (* deprecated in 3.3 *)
     ("publication_date", Const (attr page "published_at"))].

Definition asdict (payment_data : PaymentData) : dict :=
  dict_update (payment_other_fields payment_data)
    [("gateway", PStr (payment_gateway payment_data));
     ("amount", PDec (payment_amount payment_data));
     ("currency", PStr (payment_currency payment_data))].

Definition generate_payment_payload (payment_data : PaymentData)
    (requestor : option Requestor) : pyval :=
  let data := asdict payment_data in
  let data :=
    dict_set "amount"
      (PDec (quantize_price (payment_amount payment_data)
                            (payment_currency payment_data))) data in
  let payment_app_data := from_payment_app_id env (payment_gateway payment_data) in
  let data :=
    match payment_app_data with
    | Some name =>
        dict_set "meta" (meta_for requestor)
          (dict_set "payment_method" (PStr name) data)
    | None => data
    end in
  PDict data.

Definition generate_list_gateways_payload (currency : option string)
    (checkout : option Checkout) : result pyval :=
  let* checkout_data :=
    match checkout with
    | Some checkout =>
        let* p := generate_checkout_payload checkout None in first_item p
    | None => Ok PNone
    end in
  Ok (PDict [("checkout", checkout_data); ("currency", opt_str currency)]).

Definition _remove_token_from_checkout (checkout : pyval) : result pyval :=
  match checkout with
  | PList (PDict first :: rest) =>
      Ok (PList (PDict (dict_set "token" (PStr (uuid_str 1)) first) :: rest))
  | PList [] => Raise IndexError
  | PList (_ :: _) => Raise (TypeError "object does not support item assignment")
  | PDict _ => Raise (KeyError "0")
  | _ => Raise (TypeError "object is not subscriptable")
  end.

(** ** Translations *)

Definition process_translation_context (context : dict) : dict :=
  let additional_id_fields :=
    [("product_id", "Product"); ("product_variant_id", "ProductVariant");
     ("attribute_id", "Attribute"); ("page_id", "Page");
     ("page_type_id", "PageType")] in
  fold_left
    (fun result (field : string * string) =>
       let (key, type_name) := field in
       (* context.get(key, None) *)
       let object_id :=
         match dict_get key context with
         | Some v => v
         | None => PNone
         end in
       if truthy object_id
       then dict_set key (global_id type_name object_id) result
       else dict_set key PNone result) additional_id_fields [].

Definition generate_translation_payload (translation : Translation)
    (requestor : option Requestor) : pyval :=
  let (object_type, object_id) := translated_object_id translation in
  let translated_keys :=
    map (fun kv => PDict [("key", PStr (fst kv)); ("value", snd kv)])
      (translated_keys translation) in
  let context :=
    match attribute_value_translation_context translation with
    | Some c => Some (process_translation_context c)
    | None => None
    end in
  let translation_data :=
    [("id", global_id object_type object_id);
     ("language_code", translation_language_code translation);
     ("type", PStr object_type);
     ("keys", PList translated_keys);
     ("meta", meta_for requestor)] in
  let translation_data :=
    match context with
    | Some c => if truthy (PDict c) then dict_update translation_data c
                else translation_data
    | None => translation_data
    end in
  PDict translation_data.

(** ** Shipping-method exclusion and transaction actions *)

Definition _generate_payload_for_shipping_method (method : ShippingMethodData) : pyval :=
  PDict [("id", smd_graphql_id method);
         ("price", PDec (smd_price_amount method));
         ("currency", PStr (smd_price_currency method));
         ("name", smd_name method);
         ("maximum_order_weight", smd_maximum_order_weight method);
         ("minimum_order_weight", smd_minimum_order_weight method);
         ("maximum_delivery_days", smd_maximum_delivery_days method);
         ("minimum_delivery_days", smd_minimum_delivery_days method)].

Definition generate_excluded_shipping_methods_for_order_payload (order : Order)
    (available_shipping_methods : list ShippingMethodData) : result pyval :=
  let* p := generate_order_payload order None true in
  let* order_data := first_item p in
  Ok (PDict [("order", order_data);
             ("shipping_methods",
              PList (map _generate_payload_for_shipping_method
                       available_shipping_methods))]).

Definition generate_excluded_shipping_methods_for_checkout_payload
    (checkout : Checkout) (available_shipping_methods : list ShippingMethodData)
    : result pyval :=
  let* p := generate_checkout_payload checkout None in
  let* checkout_data := first_item p in
  Ok (PDict [("checkout", checkout_data);
             ("shipping_methods",
              PList (map _generate_payload_for_shipping_method
                       available_shipping_methods))]).

Definition generate_transaction_action_request_payload
    (transaction_data : TransactionActionData) (requestor : option Requestor)
    : pyval :=
  let transaction := action_transaction transaction_data in
  let currency := transaction_currency transaction in
  let action_value :=
    match action_value transaction_data with
    | Some v => if truthy (PDec v) then PDec (quantize_price v currency) else PNone
    | None => PNone
    end in
  let order_id := transaction_order_id transaction in
  let graphql_order_id :=
    if truthy order_id then global_id "Order" order_id else PNone in
  let checkout_id := transaction_checkout_id transaction in
  let graphql_checkout_id :=
    if truthy checkout_id then global_id "Checkout" checkout_id else PNone in
  PDict
    [("action",
      PDict [("type", action_type transaction_data);
             ("value", action_value);
             ("currency", PStr currency)]);
     ("transaction",
      PDict [("status", transaction_status transaction);
             ("type", transaction_type transaction);
             ("reference", transaction_reference transaction);
             ("available_actions", transaction_available_actions transaction);
             ("currency", PStr currency);
             ("charged_value",
              PDec (quantize_price (transaction_charged_value transaction) currency));
             ("authorized_value",
              PDec (quantize_price (transaction_authorized_value transaction) currency));
             ("refunded_value",
              PDec (quantize_price (transaction_refunded_value transaction) currency));
             ("voided_value",
              PDec (quantize_price (transaction_voided_value transaction) currency));
             ("order_id", graphql_order_id);
             ("checkout_id", graphql_checkout_id);
             ("created_at", transaction_created_at transaction);
             ("modified_at", transaction_modified_at transaction)]);
     ("meta", meta_for requestor)].

End Payloads.

(** A decimal is quantized for a currency when it carries exactly the digits
    of the currency's minor unit. *)
Definition is_quantized (env : Env) (currency : string) (d : Decimal) : bool :=
  dexp d =? - get_currency_precision env currency.

(** Two catalogues that answer every read alike. *)
Definition same_reads (m m' : gmap string (gset string)) : Prop :=
  forall k, default ∅ (m !! k) = default ∅ (m' !! k).

(** ** The payload generators as one family *)

Inductive PayloadCall :=
| OrderLinesPayload (lines : list OrderLine)
| OrderPayload (order : Order) (requestor : option Requestor) (with_meta : bool)
| SalePayload (sale : Model)
    (previous_catalogue current_catalogue : option (gmap string (gset string)))
    (requestor : option Requestor)
| InvoicePayload (invoice : Invoice) (requestor : option Requestor)
| OrderForInvoicePayload (order : option Order)
| CheckoutPayload (checkout : Checkout) (requestor : option Requestor)
| CustomerPayload (customer : User) (requestor : option Requestor)
| CollectionPayload (collection : Collection) (requestor : option Requestor)
| ProductPayload (product : Product) (requestor : option Requestor)
| ProductDeletedPayload (product : Product) (variants_id : list pyval)
    (requestor : option Requestor)
| ProductVariantListingsPayload (listings : list ProductVariantChannelListing)
| ProductVariantMediaPayload (product_variant : ProductVariant)
| ProductVariantWithStockPayload (stocks : list StockRow) (requestor : option Requestor)
| ProductVariantPayload (product_variants : list ProductVariant)
    (requestor : option Requestor) (with_meta : bool)
| ProductVariantStocksPayload (product_variant : ProductVariant)
| FulfillmentLinesPayload (fulfillment : Fulfillment)
| FulfillmentPayload (fulfillment : Fulfillment) (order : Order)
    (requestor : option Requestor)
| PagePayload (page : Model) (requestor : option Requestor)
| PaymentPayload (payment_data : PaymentData) (requestor : option Requestor)
| ListGatewaysPayload (currency : option string) (checkout : option Checkout)
| TranslationPayload (translation : Translation) (requestor : option Requestor)
| ExcludedShippingMethodsForOrderPayload (order : Order)
    (available_shipping_methods : list ShippingMethodData)
| ExcludedShippingMethodsForCheckoutPayload (checkout : Checkout)
    (available_shipping_methods : list ShippingMethodData)
| TransactionActionRequestPayload (transaction_data : TransactionActionData)
    (requestor : option Requestor).

Definition run_payload (env : Env) (call : PayloadCall) : result pyval :=
  match call with
  | OrderLinesPayload lines => generate_order_lines_payload env lines
  | OrderPayload o r with_meta => generate_order_payload env o r with_meta
  | SalePayload s p c r => generate_sale_payload env s p c r
  | InvoicePayload i r => generate_invoice_payload env i r
  | OrderForInvoicePayload o => _generate_order_payload_for_invoice env o
  | CheckoutPayload c r => generate_checkout_payload env c r
  | CustomerPayload c r => generate_customer_payload env c r
  | CollectionPayload c r => generate_collection_payload env c r
  | ProductPayload p r => generate_product_payload env p r
  | ProductDeletedPayload p ids r => generate_product_deleted_payload env p ids r
  | ProductVariantListingsPayload ls => generate_product_variant_listings_payload env ls
  | ProductVariantMediaPayload v => Ok (generate_product_variant_media_payload env v)
  | ProductVariantWithStockPayload ss r =>
      generate_product_variant_with_stock_payload env ss r
  | ProductVariantPayload vs r with_meta =>
      generate_product_variant_payload env vs r with_meta
  | ProductVariantStocksPayload v => Ok (PInt (generate_product_variant_stocks_payload v))
  | FulfillmentLinesPayload f => generate_fulfillment_lines_payload env f
  | FulfillmentPayload f o r => generate_fulfillment_payload env f o r
  | PagePayload p r => generate_page_payload env p r
  | PaymentPayload pd r => Ok (generate_payment_payload env pd r)
  | ListGatewaysPayload cur c => generate_list_gateways_payload env cur c
  | TranslationPayload t r => Ok (generate_translation_payload env t r)
  | ExcludedShippingMethodsForOrderPayload o ms =>
      generate_excluded_shipping_methods_for_order_payload env o ms
  | ExcludedShippingMethodsForCheckoutPayload c ms =>
      generate_excluded_shipping_methods_for_checkout_payload env c ms
  | TransactionActionRequestPayload td r =>
      Ok (generate_transaction_action_request_payload env td r)
  end.

(** The meta envelope: a mapping with the three keys. *)
Definition is_meta_envelope (v : pyval) : bool :=
  match v with
  | PDict m => has_key "issued_at" m && has_key "version" m
               && has_key "issuing_principal" m
  | _ => false
  end.

Definition has_meta_envelope (obj : pyval) : bool :=
  match get_field "meta" obj with
  | Some v => is_meta_envelope v
  | None => false
  end.

Definition lacks_meta (obj : pyval) : bool :=
  match get_field "meta" obj with
  | Some _ => false
  | None => true
  end.

(** What the code does about the envelope, generator by generator. *)
Inductive MetaPolicy := CarriesMeta | NoMeta | NotStated.

Definition meta_policy (env : Env) (call : PayloadCall) : MetaPolicy :=
  match call with
  | OrderPayload _ _ with_meta => if with_meta then CarriesMeta else NoMeta
  | ProductVariantPayload _ _ with_meta => if with_meta then CarriesMeta else NoMeta
  | SalePayload _ _ _ _ | InvoicePayload _ _ | CheckoutPayload _ _
  | CustomerPayload _ _ | CollectionPayload _ _ | ProductDeletedPayload _ _ _
  | ProductVariantWithStockPayload _ _ | FulfillmentPayload _ _ _
  | TranslationPayload _ _ | TransactionActionRequestPayload _ _ => CarriesMeta
  | PaymentPayload pd _ =>
      match from_payment_app_id env (payment_gateway pd) with
      | Some _ => CarriesMeta
      | None => if has_key "meta" (payment_other_fields pd) then NotStated else NoMeta
      end
  | OrderLinesPayload _ | OrderForInvoicePayload _ | ProductVariantListingsPayload _
  | ProductVariantMediaPayload _ | ProductVariantStocksPayload _
  | FulfillmentLinesPayload _ | ListGatewaysPayload _ _
  | ExcludedShippingMethodsForOrderPayload _ _
  | ExcludedShippingMethodsForCheckoutPayload _ _ => NoMeta
  | PagePayload _ _ | ProductPayload _ _ => NotStated
  end.

(** ** The App type's permission gate ([saleor/graphql/app/types.py]) *)

Definition has_perm (requester : Requestor) (perm : Permission) : bool :=
  match requester with
  | ReqUser u => existsb (permission_eqb perm) (user_permissions u)
  | ReqAnonymousUser => false
  | ReqApp a => existsb (permission_eqb perm) (app_permissions a)
  end.

(** [requester == app]: model instances are equal when they are rows of the
    same model with the same primary key. *)
Definition is_owner (requester : Requestor) (app : App) : bool :=
  match requester with
  | ReqApp a => pk_eqb (pk (app_row a)) (pk (app_row app))
  | _ => false
  end.

(** Modelled from the spec: [is_owner_or_has_one_of_perms] of
    [saleor/graphql/account/utils.py] is defined outside the modules embedded
    here.  The gate is
    an owner-or-permission check: the requester is the owner, or holds one of
    the permissions. *)
Definition is_owner_or_has_one_of_perms (requester : Requestor) (owner : App)
    (perms : list Permission) : bool :=
  is_owner requester owner || existsb (has_perm requester) perms.

Section AppTypes.
(** The request context of the GraphQL framework, and the helper that reads
    the requester (user or app) off it. *)
Variable RequestContext : Type.
Variable get_user_or_app_from_context : RequestContext -> Requestor.

Definition has_required_permission (app : App) (context : RequestContext)
    : result unit :=
  let requester := get_user_or_app_from_context context in
  if negb (is_owner_or_has_one_of_perms requester app [MANAGE_APPS])
  then Raise (PermissionDenied [MANAGE_APPS; OWNER])
  else Ok tt.

Definition resolve_tokens (root : App) (context : RequestContext)
    : result (list Model) :=
  let* _ := has_required_permission root context in
  Ok (app_tokens root).

Definition resolve_webhooks (root : App) (context : RequestContext)
    : result (list Model) :=
  let* _ := has_required_permission root context in
  Ok (app_webhooks root).
End AppTypes.

(** ** A concrete environment and concrete entities *)

Module Sample.

Definition upper (c : ascii) : ascii :=
  let n := nat_of_ascii c in
  if (97 <=? n)%nat && (n <=? 122)%nat then ascii_of_nat (n - 32) else c.

Definition lower (c : ascii) : ascii :=
  let n := nat_of_ascii c in
  if (65 <=? n)%nat && (n <=? 90)%nat then ascii_of_nat (n + 32) else c.

Fixpoint map_string (f : ascii -> ascii) (s : string) : string :=
  match s with
  | EmptyString => EmptyString
  | String c s' => String (f c) (map_string f s')
  end.

(** [str.capitalize] *)
Definition capitalize (s : string) : string :=
  match s with
  | EmptyString => EmptyString
  | String c s' => String (upper c) (map_string lower s')
  end.

(** [str.split("_")] *)
Fixpoint split_underscore (s : string) (current : string) : list string :=
  match s with
  | EmptyString => [current]
  | String c s' =>
      if Ascii.eqb c "_"%char
      then current :: split_underscore s' ""
      else split_underscore s' (current +:+ String c "")
  end.

(** graphene's [to_camel_case]. *)
Definition camel_case (snake_str : string) : string :=
  match split_underscore snake_str "" with
  | [] => ""
  | first :: components =>
      first +:+
      fold_right String.append ""
        (map (fun x => if String.eqb x "" then "_" else capitalize x) components)
  end.

Definition str (v : pyval) : string :=
  match v with
  | PNone => "None"
  | PInt z => pretty z
  | PStr s => s
  | _ => "?"
  end.

(** [to_global_id] without its base64 step. *)
Definition plain_global_id (type_name : string) (id : pyval) : string :=
  type_name +:+ ":" +:+ str id.

Definition payment_app_name (gateway : string) : option string :=
  if String.prefix "app:" gateway
  then Some (String.substring 4 (String.length gateway - 4) gateway)
  else None.

Definition env : Env :=
  {| now_isoformat := "2022-06-01T12:00:00+00:00";
     saleor_version := "3.5.0";
     to_global_id := plain_global_id;
     to_camel_case := camel_case;
     get_currency_precision := fun c => if String.eqb c "JPY" then 0 else 2;
     build_absolute_uri := fun url => "https://example.com" +:+ url;
     from_payment_app_id := payment_app_name;
     warehouses_for_country := fun _ => [];
     get_order_country := fun _ => "US";
     serialize_checkout_lines := fun _ => [];
     py_str := str |}.

Definition channel : Model :=
  mkModel "Channel" (PInt 1) [("slug", PStr "default-channel"); ("currency_code", PStr "USD")].

(** 9.999 USD *)
Definition variant_listing : ProductVariantChannelListing :=
  {| vcl_row :=
       mkModel "ProductVariantChannelListing" (PInt 7)
         [("currency", PStr "USD");
          ("price_amount", PDec (mkDecimal 9999 (-3)));
          ("cost_price_amount", PDec (mkDecimal 45 (-1)))];
     vcl_channel := channel |}.

Definition shipping_method_data : ShippingMethodData :=
  {| smd_graphql_id := PStr "ShippingMethod:3";
     smd_price_amount := mkDecimal 9999 (-3);
     smd_price_currency := "USD";
     smd_name := PStr "DHL";
     smd_maximum_order_weight := PNone;
     smd_minimum_order_weight := PNone;
     smd_maximum_delivery_days := PNone;
     smd_minimum_delivery_days := PNone |}.

Definition shipping_method : ShippingMethod :=
  {| shipping_method_row :=
       mkModel "ShippingMethod" (PInt 3) [("name", PStr "DHL"); ("type", PStr "price")];
     shipping_method_channel_listings :=
       [{| smcl_channel := PInt 1; smcl_currency := "USD";
           smcl_price_amount := mkDecimal 9999 (-3) |}] |}.

(** An order line of 2 items at 9.999 USD. *)
Definition order_line : OrderLine :=
  {| order_line_row :=
       mkModel "OrderLine" (PInt 21)
         [("product_name", PStr "Shirt");
          ("quantity", PInt 2);
          ("unit_price_net_amount", PDec (mkDecimal 9999 (-3)));
          ("unit_price_gross_amount", PDec (mkDecimal 9999 (-3)));
          ("undiscounted_unit_price_net_amount", PDec (mkDecimal 9999 (-3)));
          ("undiscounted_unit_price_gross_amount", PDec (mkDecimal 9999 (-3)));
          ("total_price_net_amount", PDec (mkDecimal 19998 (-3)));
          ("total_price_gross_amount", PDec (mkDecimal 19998 (-3)))];
     order_line_currency := "USD";
     order_line_allocations := [];
     order_line_variant := None |}.

(** A fulfillment whose only line has lost its stock. *)
Definition fulfillment : Fulfillment :=
  {| fulfillment_row :=
       mkModel "Fulfillment" (PInt 11)
         [("status", PStr "fulfilled");
          ("shipping_refund_amount", PDec (mkDecimal 0 0));
          ("total_refund_amount", PDec (mkDecimal 0 0))];
     fulfillment_lines :=
       [{| fulfillment_line_row := mkModel "FulfillmentLine" (PInt 31) [];
           fulfillment_line_quantity := 2;
           fulfillment_line_order_line := order_line;
           fulfillment_line_stock := None |}] |}.

(** The order of [fulfillment]: no shipping method, no collection point, and
    (in [env]) no warehouse for its country. *)
Definition order : Order :=
  {| order_row :=
       mkModel "Order" (PStr "6d0c9a3e")
         [("status", PStr "fulfilled");
          ("total_net_amount", PDec (mkDecimal 19998 (-3)));
          ("total_gross_amount", PDec (mkDecimal 19998 (-3)));
          ("created_at", PStr "2022-05-30T08:00:00+00:00")];
     order_currency := "USD";
     order_customer_email := PStr "customer@example.com";
     order_lines := [order_line];
     order_fulfillments := [fulfillment];
     order_payments := [];
     order_discounts := [];
     order_channel := channel;
     order_shipping_address := None;
     order_billing_address := None;
     order_collection_point := None;
     order_shipping_method := None |}.

Definition address : Address :=
  {| address_row := mkModel "Address" (PInt 5) [("city", PStr "Wroclaw"); ("country", PStr "PL")];
     address_country_code := "PL" |}.

(** A checkout with a shipping address for which no warehouse is found. *)
Definition checkout : Checkout :=
  {| checkout_row :=
       mkModel "Checkout" (PStr "c0ffee")
         [("email", PStr "customer@example.com");
          ("discount_amount", PDec (mkDecimal 1 0))];
     checkout_currency := "USD";
     checkout_channel := channel;
     checkout_user := None;
     checkout_billing_address := None;
     checkout_shipping_address := Some address;
     checkout_collection_point := None;
     checkout_shipping_method := None |}.

Definition sale : Model := mkModel "Sale" (PInt 2) [("name", PStr "Summer")].

Definition previous_catalogue : gmap string (gset string) :=
  {[ "products" := {[ "UHJvZHVjdDox"; "UHJvZHVjdDoy" ]} ]}.

Definition current_catalogue : gmap string (gset string) :=
  {[ "products" := {[ "UHJvZHVjdDoy"; "UHJvZHVjdDoz" ]} ]}.

Definition payment_data : PaymentData :=
  {| payment_gateway := "mirumee.payments.dummy";
     payment_amount := mkDecimal 9999 (-3);
     payment_currency := "USD";
     payment_other_fields := [("order_id", PStr "T3JkZXI6MQ==")] |}.

Definition page : Model :=
  mkModel "Page" (PInt 4)
    [("title", PStr "About"); ("published_at", PStr "2022-01-01T00:00:00+00:00")].

Definition product_listing : ProductChannelListing :=
  {| pcl_row :=
       mkModel "ProductChannelListing" (PInt 9)
         [("published_at", PStr "2022-01-01T00:00:00+00:00");
          ("is_published", PBool true);
          ("available_for_purchase_at", PStr "2022-02-01T00:00:00+00:00")];
     pcl_channel := channel |}.

Definition staff : User :=
  {| user_row := mkModel "User" (PInt 1) [("email", PStr "staff@example.com")];
     user_default_shipping_address := None;
     user_default_billing_address := None;
     user_addresses := [];
     user_permissions := [MANAGE_APPS] |}.

Definition customer : User :=
  {| user_row := mkModel "User" (PInt 2) [("email", PStr "customer@example.com")];
     user_default_shipping_address := None;
     user_default_billing_address := None;
     user_addresses := [];
     user_permissions := [] |}.

(** A variant without stock rows. *)
Definition variant : ProductVariant :=
  {| variant_row := mkModel "ProductVariant" (PInt 8) [("sku", PStr "SKU-8")];
     variant_global_id := "ProductVariant:8";
     variant_product_id := PInt 6;
     variant_weight_g := PNone;
     variant_product_type_name := PStr "Shirt";
     variant_attributes := PList [];
     variant_media := [];
     variant_channel_listings := [variant_listing];
     variant_stocks := [] |}.

Definition app : App :=
  {| app_row := mkModel "App" (PInt 1) [];
     app_name := PStr "Avalara";
     app_permissions := [];
     app_tokens := [mkModel "AppToken" (PInt 1) [("token_last_4", PStr "abcd")]];
     app_webhooks := [] |}.

End Sample.

(** ** Sample payloads ([generate_sample_payload]) *)

(** The event names the sample generator tells apart (constants of
    [WebhookEventAsyncType]); any other name is an [OtherEvent]. *)
Inductive EventName :=
| CUSTOMER_CREATED | CUSTOMER_UPDATED
| PRODUCT_CREATED
| CHECKOUT_UPDATED | CHECKOUT_CREATED
| PAGE_CREATED | PAGE_DELETED | PAGE_UPDATED
| FULFILLMENT_CREATED
| ORDER_CREATED | ORDER_FULLY_PAID | ORDER_FULFILLED | ORDER_CANCELLED | ORDER_UPDATED
| OtherEvent (name : string).

(** The filters [_generate_sample_order_payload] puts on the order query. *)
Inductive OrderSampleFilter :=
| StatusUnfulfilled          (* status=OrderStatus.UNFULFILLED *)
| PaymentFullyCharged        (* payments__charge_status=ChargeStatus.FULLY_CHARGED *)
| FulfillmentFulfilled       (* fulfillments__status=FulfillmentStatus.FULFILLED *)
| StatusCanceled.            (* status=OrderStatus.CANCELED *)

(** What the database and the anonymization helpers answer: each
    [sample_*] is the result of one [_get_sample_object] call, a random row of
    the query or [None] when the query is empty. *)
Record SampleSource := {
  sample_order : OrderSampleFilter -> option Order;
  sample_product : option Product;
  sample_checkout : option Checkout;
  sample_page : option Model;
  sample_fulfillment : option (Fulfillment * Order);   (* a fulfillment and its order *)
  generate_fake_user : User;
  anonymize_checkout : Checkout -> Checkout;
  anonymize_order : Order -> Order;
}.

(** How a call of [generate_sample_payload] ends: it returns a document or
    [None], an exception of the generators propagates, or the local variable
    [payload] is read before any branch assigned it. *)
Inductive SampleOutcome :=
| Returned (document : option pyval)
| Raised (e : exn)
| UnboundLocalError (variable : string).

Definition outcome_of (r : result (option pyval)) : SampleOutcome :=
  match r with
  | Ok v => Returned v
  | Raise e => Raised e
  end.

Section SamplePayloads.
Context (env : Env) (db : SampleSource).

(** The order query an event samples from; no query for another event. *)
Definition sample_order_filter (event_name : EventName) : option OrderSampleFilter :=
  match event_name with
  | ORDER_CREATED => Some StatusUnfulfilled
  | ORDER_FULLY_PAID => Some PaymentFullyCharged
  | ORDER_FULFILLED => Some FulfillmentFulfilled
  | ORDER_CANCELLED | ORDER_UPDATED => Some StatusCanceled
  | _ => None
  end.

(** Returns the payload, or [None] when there is no order. *)
Definition _generate_sample_order_payload (event_name : EventName)
    : result (option pyval) :=
  let order :=
    match sample_order_filter event_name with
    | Some f => sample_order db f
    | None => None
    end in
  match order with
  | Some order =>
      let anonymized_order := anonymize_order db order in
      let* payload := generate_order_payload env anonymized_order None true in
      Ok (Some payload)
  | None => Ok None
  end.

Definition generate_sample_payload (event_name : EventName) : SampleOutcome :=
  match event_name with
  | CUSTOMER_CREATED | CUSTOMER_UPDATED =>
      let user := generate_fake_user db in
      outcome_of (let* payload := generate_customer_payload env user None in
                  Ok (Some payload))
  | PRODUCT_CREATED =>
      match sample_product db with
      | Some product =>
          outcome_of (let* payload := generate_product_payload env product None in
                      Ok (Some payload))
      | None => Returned None
      end
  | CHECKOUT_UPDATED | CHECKOUT_CREATED =>
      match sample_checkout db with
      | Some checkout =>
          let anonymized_checkout := anonymize_checkout db checkout in
          outcome_of
            (let* checkout_payload :=
               generate_checkout_payload env anonymized_checkout None in
             let* payload := _remove_token_from_checkout checkout_payload in
             Ok (Some payload))
      | None => UnboundLocalError "payload"
      end
  | PAGE_CREATED | PAGE_DELETED | PAGE_UPDATED =>
      match sample_page db with
      | Some page =>
          outcome_of (let* payload := generate_page_payload env page None in
                      Ok (Some payload))
      | None => UnboundLocalError "payload"
      end
  | FULFILLMENT_CREATED =>
      match sample_fulfillment db with
      | Some (fulfillment, order) =>
          outcome_of
            (let* payload :=
               generate_fulfillment_payload env fulfillment
                 (anonymize_order db order) None in
             Ok (Some payload))
      | None => Raised (AttributeError "order")
      end
  | _ => outcome_of (_generate_sample_order_payload event_name)
  end.

End SamplePayloads.

(** The requestor the envelope of a payload names: the one the generator was
    given. *)
Definition call_requestor (call : PayloadCall) : option Requestor :=
  match call with
  | OrderPayload _ r _ | SalePayload _ _ _ r | InvoicePayload _ r
  | CheckoutPayload _ r | CustomerPayload _ r | CollectionPayload _ r
  | ProductPayload _ r | ProductDeletedPayload _ _ r
  | ProductVariantWithStockPayload _ r | ProductVariantPayload _ r _
  | FulfillmentPayload _ _ r | PagePayload _ r | PaymentPayload _ r
  | TranslationPayload _ r | TransactionActionRequestPayload _ r => r
  | _ => None
  end.

(** ** Metadata access and the other resolvers of [saleor/graphql/app/types.py] *)

(** What the resolvers take from the GraphQL framework and from modules
    outside the two embedded here. *)
Record Framework := {
  ContextT : Type;                                    (* the type of [info.context] *)
  requester_of_context : ContextT -> Requestor;       (* get_user_or_app_from_context *)
  decoded_auth_token : ContextT -> option dict;       (* context.decoded_auth_token *)
  context_app : ContextT -> option App;               (* context.app *)
  JWT_THIRDPARTY_ACCESS_TYPE : string;
  from_global_id_or_error : pyval -> string -> result (string * pyval);
  py_int : pyval -> result Z;                         (* int(x) *)
  AppExtensionTarget_POPUP : pyval;
  object_metadata : App -> pyval;                (* ObjectWithMetadata.resolve_metadata *)
  object_metafield : App -> string -> pyval;     (* ObjectWithMetadata.resolve_metafield *)
  object_metafields : App -> option (list string) -> pyval;
}.

Record AppExtension := {
  extension_row : Model;
  extension_app_id : pyval;
  extension_target : pyval;
}.

Record Manifest := {
  manifest_app_url : pyval;
  manifest_extensions : list dict;
}.

Section AppMeta.
Context (fw : Framework).

Definition has_access_to_app_public_meta (root : App) (context : ContextT fw)
    : result bool :=
  let auth_token :=
    match decoded_auth_token fw context with
    | Some d => if truthy (PDict d) then d else []
    | None => []
    end in
  let is_thirdparty :=
    match dict_get "type" auth_token with
    | Some (PStr t) => String.eqb t (JWT_THIRDPARTY_ACCESS_TYPE fw)
    | _ => false
    end in
  let* app_id :=
    if is_thirdparty
    then match dict_get "app" auth_token with
         | Some app_global_id =>
             let* parsed := from_global_id_or_error fw app_global_id "App" in
             Ok (snd parsed)
         | None => Raise (KeyError "app")
         end
    else Ok match context_app fw context with
            | Some app => pk (app_row app)
            | None => PNone
            end in
  let* is_root :=
    match app_id with
    | PNone => Ok false
    | _ =>
        let* n := py_int fw app_id in
        Ok match pk (app_row root) with
           | PInt id => n =? id
           | _ => false
           end
    end in
  if is_root then Ok true
  else
    let requester := requester_of_context fw context in
    Ok (has_perm requester MANAGE_APPS).

Definition check_permission_for_access_to_meta (app : App) (context : ContextT fw)
    : result unit :=
  let* has_access := has_access_to_app_public_meta app context in
  if negb has_access
  then Raise (PermissionDenied [MANAGE_APPS; OWNER])
  else Ok tt.

Definition resolve_metadata (root : App) (context : ContextT fw) : result pyval :=
  let* _ := check_permission_for_access_to_meta root context in
  Ok (object_metadata fw root).

Definition resolve_metafield (root : App) (context : ContextT fw) (key : string)
    : result pyval :=
  let* _ := check_permission_for_access_to_meta root context in
  Ok (object_metafield fw root key).

Definition resolve_metafields (root : App) (context : ContextT fw)
    (keys : option (list string)) : result pyval :=
  let* _ := check_permission_for_access_to_meta root context in
  Ok (object_metafields fw root keys).

(** [AppExtension.resolve_app]; the loader call [AppByIdLoader.load(app_id)]
    is represented by the id it is asked for. *)
Definition resolve_app (root : AppExtension) (context : ContextT fw) : result pyval :=
  let by_permission :=
    if has_perm (requester_of_context fw context) MANAGE_APPS
    then extension_app_id root
    else PNone in
  let app_id :=
    match context_app fw context with
    | Some app =>
        if pk_eqb (pk (app_row app)) (extension_app_id root)
        then extension_app_id root
        else by_permission
    | None => by_permission
    end in
  if negb (truthy app_id)
  then Raise (PermissionDenied [MANAGE_APPS; OWNER])
  else Ok app_id.

(** [AppManifestExtension.resolve_target] *)
Definition resolve_target (root : dict) : pyval :=
  match dict_get "target" root with
  | Some target => if truthy target then target else AppExtensionTarget_POPUP fw
  | None => AppExtensionTarget_POPUP fw
  end.

End AppMeta.

(** [Manifest.resolve_extensions]: every extension dict is given the
    manifest's app url; the list itself is returned. *)
Definition resolve_extensions (root : Manifest) : list dict :=
  map (dict_set "app_url" (manifest_app_url root)) (manifest_extensions root).

(** ** Concrete surroundings for the sample generator and the resolvers *)

Module SampleData.

(** A database that holds one checkout and nothing else. *)
Definition db : SampleSource :=
  {| sample_order := fun _ => None;
     sample_product := None;
     sample_checkout := Some Sample.checkout;
     sample_page := None;
     sample_fulfillment := None;
     generate_fake_user := Sample.customer;
     anonymize_checkout := fun c => c;
     anonymize_order := fun o => o |}.

Definition empty_db : SampleSource :=
  {| sample_order := fun _ => None;
     sample_product := None;
     sample_checkout := None;
     sample_page := None;
     sample_fulfillment := None;
     generate_fake_user := Sample.customer;
     anonymize_checkout := fun c => c;
     anonymize_order := fun o => o |}.

(** What a request carries: the decoded token, the app and the user. *)
Record Request := {
  request_token : option dict;
  request_app : option App;
  request_user : option User;
}.

Definition other_app : App :=
  {| app_row := mkModel "App" (PInt 2) [];
     app_name := PStr "Other";
     app_permissions := [];
     app_tokens := [];
     app_webhooks := [] |}.

(** The global id of the plain environment, read back. *)
Definition parse_global_id (v : pyval) (only_type : string) : result (string * pyval) :=
  match v with
  | PStr "App:1" => Ok ("App", PStr "1")
  | PStr "App:2" => Ok ("App", PStr "2")
  | _ => Raise (TypeError "invalid global id")
  end.

Definition to_int (v : pyval) : result Z :=
  match v with
  | PInt z => Ok z
  | PStr "1" => Ok 1
  | PStr "2" => Ok 2
  | _ => Raise (TypeError "int()")
  end.

Definition fw : Framework :=
  {| ContextT := Request;
     requester_of_context := fun r =>
       match request_app r, request_user r with
       | Some a, _ => ReqApp a
       | None, Some u => ReqUser u
       | None, None => ReqAnonymousUser
       end;
     decoded_auth_token := request_token;
     context_app := request_app;
     JWT_THIRDPARTY_ACCESS_TYPE := "thirdparty";
     from_global_id_or_error := parse_global_id;
     py_int := to_int;
     AppExtensionTarget_POPUP := PStr "popup";
     object_metadata := fun a => PList [];
     object_metafield := fun a k => PNone;
     object_metafields := fun a ks => PDict [] |}.

End SampleData.

(** * Properties *)

(** ** Dicts *)

Section DictFacts.
Context {V : Type}.
Implicit Types (d : list (string * V)) (k : string) (v : V).

Lemma dict_get_set_eq k v d : dict_get k (dict_set k v d) = Some v.
Proof.
  induction d as [|[k' v'] d IH]; simpl.
  - now rewrite String.eqb_refl.
  - destruct (String.eqb k k') eqn:E; simpl.
    + now rewrite String.eqb_refl.
    + now rewrite E.
Qed.

Lemma dict_get_set_ne k k' v d :
  String.eqb k' k = false -> dict_get k' (dict_set k v d) = dict_get k' d.
Proof.
  intros Hne. induction d as [|[k0 v0] d IH]; simpl.
  - now rewrite Hne.
  - destruct (String.eqb k k0) eqn:E; simpl.
    + apply String.eqb_eq in E. subst k0. now rewrite Hne.
    + now rewrite IH.
Qed.

Lemma dict_get_set k k' v d :
  dict_get k' (dict_set k v d) = if String.eqb k' k then Some v else dict_get k' d.
Proof.
  destruct (String.eqb k' k) eqn:E.
  - apply String.eqb_eq in E. subst. apply dict_get_set_eq.
  - now apply dict_get_set_ne.
Qed.

(** Setting a key that is present keeps the keys and their order. *)
Lemma dict_keys_set_present k v d :
  has_key k d = true -> dict_keys (dict_set k v d) = dict_keys d.
Proof.
  unfold has_key. induction d as [|[k' v'] d IH]; simpl; [discriminate|].
  destruct (String.eqb k k') eqn:E; simpl.
  - apply String.eqb_eq in E. now subst.
  - intros H. now rewrite IH.
Qed.

Lemma dict_get_update k d other :
  dict_get k (dict_update d other) =
    match last_binding k other with
    | Some v => Some v
    | None => dict_get k d
    end.
Proof.
  unfold dict_update. revert d.
  induction other as [|[k' v'] other IH]; intros d; simpl; [reflexivity|].
  rewrite IH. destruct (last_binding k other); [reflexivity|].
  rewrite dict_get_set. now destruct (String.eqb k k').
Qed.
End DictFacts.

(** ** The result monad *)

Lemma bind_ok {A B} (r : result A) (k : A -> result B) (b : B) :
  bind r k = Ok b -> exists a, r = Ok a /\ k a = Ok b.
Proof. destruct r as [a|e]; simpl; [eauto | discriminate]. Qed.

Lemma mapM_ok {A B} (f : A -> result B) (l : list A) (bs : list B) :
  mapM f l = Ok bs -> Forall2 (fun a b => f a = Ok b) l bs.
Proof.
  revert bs. induction l as [|a l IH]; simpl; intros bs H.
  - injection H as <-. constructor.
  - apply bind_ok in H as (b & Hb & H).
    apply bind_ok in H as (bs' & Hbs & H).
    injection H as <-. constructor; auto.
Qed.

Ltac bind_inv H :=
  let a := fresh "a" in
  let Ha := fresh "Ha" in
  apply bind_ok in H as (a & Ha & H).

(** ** Quantization *)

Lemma quantize_exponent d places : dexp (quantize d places) = - places.
Proof. unfold quantize. now destruct (0 <=? dexp d + places). Qed.

Lemma quantize_price_is_quantized env d currency :
  is_quantized env currency (quantize_price env d currency) = true.
Proof.
  unfold is_quantized, quantize_price. rewrite quantize_exponent.
  apply Z.eqb_refl.
Qed.

Lemma quantize_price_fields_get env m fields currency k :
  dict_get k (columns (quantize_price_fields env m fields currency)) =
    match dict_get k (columns m) with
    | Some (PDec d) =>
        if existsb (String.eqb k) fields
        then Some (PDec (quantize_price env d currency))
        else Some (PDec d)
    | other => other
    end.
Proof.
  unfold quantize_price_fields. simpl.
  induction (columns m) as [|[k' v] cols IH]; simpl; [reflexivity|].
  destruct (String.eqb k k') eqn:E.
  - apply String.eqb_eq in E. subst k'.
    destruct v; simpl; rewrite ?String.eqb_refl; try reflexivity.
    destruct (existsb (String.eqb k) fields); simpl; now rewrite String.eqb_refl.
  - destruct v; simpl; rewrite ?E; try exact IH.
    destruct (existsb (String.eqb k') fields); simpl; rewrite E; exact IH.
Qed.

Lemma mapM_is_ok {A B} (f : A -> result B) (l : list A) :
  (forall a, exists b, f a = Ok b) -> exists bs, mapM f l = Ok bs.
Proof.
  intros Hf. induction l as [|a l [bs IH]]; simpl; [eauto|].
  destruct (Hf a) as [b ->]. rewrite IH. simpl. eauto.
Qed.

(** ** The serializer *)

Section SerializerFacts.
Context (env : Env) {T : Type}.
Implicit Types (obj : T) (data : dict) (k : string).

Lemma project_get fields (m : Model) k :
  dict_get k (project fields m) =
    if existsb (String.eqb k) fields then dict_get k (columns m) else None.
Proof.
  unfold project.
  enough (H : forall acc,
    dict_get k
      (fold_left
         (fun acc f =>
            match dict_get f (columns m) with
            | Some v => dict_set f v acc
            | None => acc
            end) fields acc) =
    if existsb (String.eqb k) fields
    then match dict_get k (columns m) with
         | Some v => Some v
         | None => dict_get k acc
         end
    else dict_get k acc).
  { rewrite H. simpl. destruct (existsb _ fields); [|reflexivity].
    now destruct (dict_get k (columns m)). }
  induction fields as [|f fields IH]; intros acc; simpl; [reflexivity|].
  rewrite IH.
  assert (Hstep : dict_get k
            match dict_get f (columns m) with
            | Some v => dict_set f v acc
            | None => acc
            end =
          if String.eqb k f
          then match dict_get k (columns m) with
               | Some v => Some v
               | None => dict_get k acc
               end
          else dict_get k acc).
  { destruct (String.eqb k f) eqn:E.
    - apply String.eqb_eq in E. subst f.
      destruct (dict_get k (columns m)); [apply dict_get_set_eq | reflexivity].
    - destruct (dict_get f (columns m)); [now apply dict_get_set_ne | reflexivity]. }
  rewrite Hstep.
  destruct (String.eqb k f), (existsb (String.eqb k) fields); simpl;
    try reflexivity; now destruct (dict_get k (columns m)).
Qed.

Lemma apply_additional_get obj additional data data' k :
  apply_additional env obj additional data = Ok data' ->
  in_keys k additional = false ->
  dict_get k data' = dict_get k data.
Proof.
  revert data. induction additional as [|[name [qs fields]] rest IH];
    intros data H Hk; simpl in *.
  - now injection H as <-.
  - bind_inv H. apply orb_false_elim in Hk as [Hne Hk].
    rewrite (IH _ H Hk). now apply dict_get_set_ne.
Qed.

Lemma apply_extra_get obj (extra : list (string * ExtraValue T)) data data' k :
  apply_extra obj extra data = Ok data' ->
  dict_get k data' =
    match last_binding k extra with
    | Some value =>
        match eval_extra value obj with
        | Ok v => Some v
        | Raise _ => None
        end
    | None => dict_get k data
    end.
Proof.
  revert data. induction extra as [|[key value] rest IH]; intros data H; simpl in *.
  - now injection H as <-.
  - bind_inv H. rewrite (IH _ H).
    destruct (last_binding k rest); [reflexivity|].
    rewrite dict_get_set. destruct (String.eqb k key); [|reflexivity].
    unfold eval_extra. now rewrite Ha.
Qed.

Section OneObject.
Context (model_of : T -> Model) (fields : list string) (obj_id_name : string)
  (additional : list (string * ((T -> result Related) * list string)))
  (extra : list (string * ExtraValue T)).

(** A key of the extra data holds the value of its last binding. *)
Lemma get_dump_object_extra obj doc k value :
  get_dump_object env model_of fields obj_id_name additional extra obj = Ok doc ->
  last_binding k extra = Some value ->
  exists v, eval_extra value obj = Ok v /\ get_field k doc = Some v.
Proof.
  unfold get_dump_object. intros H Hk. bind_inv H. bind_inv H.
  injection H as <-. simpl.
  rewrite (apply_extra_get _ _ _ _ k Ha0), Hk.
  assert (Hev : exists v, eval_extra value obj = Ok v).
  { clear - Ha0 Hk. revert a Ha0.
    induction extra as [|[key val] rest IH]; intros data H; simpl in *;
      [discriminate|].
    bind_inv H. destruct (last_binding k rest) eqn:E.
    - injection Hk as ->. eauto.
    - destruct (String.eqb k key); [|discriminate].
      injection Hk as ->. unfold eval_extra. eauto. }
  destruct Hev as [v Hv]. rewrite Hv. eauto.
Qed.

(** A key that neither the extra nor the additional fields bind holds
    the object id or the projected column. *)
Lemma get_dump_object_projected obj doc k :
  get_dump_object env model_of fields obj_id_name additional extra obj = Ok doc ->
  last_binding k extra = None ->
  in_keys k additional = false ->
  get_field k doc =
    if String.eqb k obj_id_name
    then Some (global_id env (object_name (model_of obj)) (pk (model_of obj)))
    else if existsb (String.eqb k) fields
         then dict_get k (columns (model_of obj))
         else None.
Proof.
  unfold get_dump_object. intros H Hk Hadd. bind_inv H. bind_inv H.
  injection H as <-. simpl.
  rewrite (apply_extra_get _ _ _ _ k Ha0), Hk.
  rewrite (apply_additional_get _ _ _ _ k Ha Hadd).
  rewrite dict_get_set. now rewrite project_get.
Qed.

Lemma serialize_ok queryset payload :
  serialize env model_of queryset fields obj_id_name additional extra = Ok payload ->
  exists docs,
    payload = PList docs /\
    Forall2
      (fun obj doc =>
         get_dump_object env model_of fields obj_id_name additional extra obj
           = Ok doc) queryset docs.
Proof.
  unfold serialize. intros H. bind_inv H. injection H as <-.
  eexists. split; [reflexivity|]. now apply mapM_ok.
Qed.

(** A constant extra field is in every document. *)
Lemma serialize_const_extra queryset payload k v :
  serialize env model_of queryset fields obj_id_name additional extra = Ok payload ->
  last_binding k extra = Some (Const v) ->
  Forall (fun doc => get_field k doc = Some v) (top_objects payload).
Proof.
  intros H Hk. apply serialize_ok in H as (docs & -> & H). simpl.
  induction H as [|obj doc qs docs Hd _ IH]; constructor; [|exact IH].
  destruct (get_dump_object_extra _ _ _ _ Hd Hk) as (v' & Hv & ->).
  simpl in Hv. congruence.
Qed.

(** A key that nothing binds is in no document. *)
Lemma serialize_absent_key queryset payload k :
  serialize env model_of queryset fields obj_id_name additional extra = Ok payload ->
  last_binding k extra = None ->
  in_keys k additional = false ->
  String.eqb k obj_id_name = false ->
  existsb (String.eqb k) fields = false ->
  Forall (fun doc => get_field k doc = None) (top_objects payload).
Proof.
  intros H Hk Hadd Hid Hf. apply serialize_ok in H as (docs & -> & H). simpl.
  induction H as [|obj doc qs docs Hd _ IH]; constructor; [|exact IH].
  rewrite (get_dump_object_projected _ _ _ Hd Hk Hadd). now rewrite Hid, Hf.
Qed.
End OneObject.
End SerializerFacts.

(** ** Requestor and meta envelope *)

(** C6. [generate_requestor] returns the null marker [{"id": None, "type":
    None}] when there is no requestor, type ["user"] with the global User id
    for a User and for the AnonymousUser, and type ["app"] with the
    requestor's name as id otherwise. *)
Theorem generate_requestor_cases (env : Env) :
  generate_requestor env None = [("id", PNone); ("type", PNone)] /\
  (forall u : User,
     generate_requestor env (Some (ReqUser u)) =
       [("id", PStr (to_global_id env "User" (pk (user_row u))));
        ("type", PStr "user")]) /\
  generate_requestor env (Some ReqAnonymousUser) =
    [("id", PStr (to_global_id env "User" PNone)); ("type", PStr "user")] /\
  (forall a : App,
     generate_requestor env (Some (ReqApp a)) =
       [("id", app_name a); ("type", PStr "app")]).
Proof. repeat split. Qed.

Lemma camel_fold_get {V} (f : string -> string) (d acc : list (string * V)) k' :
  dict_get k'
    (fold_left (fun meta kv => dict_set (f (fst kv)) (snd kv) meta) d acc) =
    match last_binding_where (fun k => String.eqb k' (f k)) d with
    | Some v => Some v
    | None => dict_get k' acc
    end.
Proof.
  revert acc. induction d as [|[k v] d IH]; intros acc; simpl; [reflexivity|].
  rewrite IH. destruct (last_binding_where _ d); [reflexivity|].
  rewrite dict_get_set. now destruct (String.eqb k' (f k)).
Qed.

Lemma last_binding_where_some {V} (p : string -> bool) (d : list (string * V)) :
  match last_binding_where p d with Some _ => true | None => false end =
    existsb p (dict_keys d).
Proof.
  induction d as [|[k v] d IH]; simpl; [reflexivity|].
  destruct (last_binding_where p d).
  - rewrite <- IH. apply eq_sym, orb_true_r.
  - rewrite <- IH, orb_false_r. now destruct (p k).
Qed.

(** C5. [generate_meta] maps ["issued_at"] to the current timestamp,
    ["version"] to the package version and ["issuing_principal"] to the given
    requestor data, merged with the keyword arguments (a keyword argument
    wins over the base entry of the same name); with [camel_case] the result
    holds, under the camelCase form of each key, the value of that key (of the
    last such key when two keys share a camelCase form), and nothing else. *)
Theorem generate_meta_merges_and_converts (env : Env) (requestor_data kwargs : dict) :
  let base := [("issued_at", PStr (now_isoformat env));
               ("version", PStr (saleor_version env));
               ("issuing_principal", PDict requestor_data)] in
  let plain := generate_meta env requestor_data false kwargs in
  let camel := generate_meta env requestor_data true kwargs in
  generate_meta env requestor_data false [] = base /\
  (forall k,
     dict_get k plain =
       match last_binding k kwargs with
       | Some v => Some v
       | None => dict_get k base
       end) /\
  (forall k',
     dict_get k' camel =
       last_binding_where (fun k => String.eqb k' (to_camel_case env k)) plain) /\
  (forall k',
     has_key k' camel =
       existsb (fun k => String.eqb k' (to_camel_case env k)) (dict_keys plain)).
Proof.
  intros base plain camel.
  assert (Hcamel : forall k',
     dict_get k' camel =
       last_binding_where (fun k => String.eqb k' (to_camel_case env k)) plain).
  { intros k'. unfold camel, generate_meta. fold base.
    change (dict_update base kwargs) with plain.
    rewrite camel_fold_get. now destruct (last_binding_where _ plain). }
  repeat split.
  - intros k. unfold plain, generate_meta. apply dict_get_update.
  - exact Hcamel.
  - intros k'. unfold has_key. rewrite Hcamel. apply last_binding_where_some.
Qed.

(** ** Variant stocks *)

(** C10. [generate_product_variant_stocks_payload] returns the sum of the
    quantities of the variant's stock rows; without stock rows the aggregate
    is null and the payload is 0. *)
Theorem variant_stocks_payload_is_sum (v : ProductVariant) :
  generate_product_variant_stocks_payload v =
    fold_right Z.add 0 (map stock_quantity (variant_stocks v)) /\
  (variant_stocks v = [] ->
   aggregate_sum (map stock_quantity (variant_stocks v)) = None /\
   generate_product_variant_stocks_payload v = 0).
Proof.
  unfold generate_product_variant_stocks_payload. split.
  - destruct (variant_stocks v) as [|s l]; [reflexivity|].
    unfold aggregate_sum, or_zero.
    change (map stock_quantity (s :: l)) with (stock_quantity s :: map stock_quantity l).
    cbv iota beta.
    destruct (Z.eqb_spec (fold_right Z.add 0 (stock_quantity s :: map stock_quantity l)) 0);
      congruence.
  - intros ->. split; reflexivity.
Qed.

Lemma variant_stocks_payload_is_sum_witness :
  variant_stocks Sample.variant = [] /\
  generate_product_variant_stocks_payload Sample.variant = 0.
Proof.
  split; [reflexivity|].
  apply (variant_stocks_payload_is_sum Sample.variant). reflexivity.
Defined.

(** ** Sample checkout token *)

Lemma dict_keys_set_absent {V} k (v : V) d :
  has_key k d = false -> dict_keys (dict_set k v d) = dict_keys d ++ [k].
Proof.
  unfold has_key. induction d as [|[k' v'] d IH]; simpl; [reflexivity|].
  destruct (String.eqb k k') eqn:E; [discriminate|]. simpl.
  intros H. now rewrite IH.
Qed.

(** C9. On a checkout payload (an array whose first element is an object)
    [_remove_token_from_checkout] sets the ["token"] field of the first
    element to the fixed UUID; every other field of that element, the order of
    its keys when it had a token, and every other element of the array are
    unchanged. *)
Theorem remove_token_from_checkout_frame (first : dict) (rest : list pyval) :
  exists first',
    _remove_token_from_checkout (PList (PDict first :: rest)) =
      Ok (PList (PDict first' :: rest)) /\
    (forall k,
       dict_get k first' =
         if String.eqb k "token"
         then Some (PStr "00000000-0000-0000-0000-000000000001")
         else dict_get k first) /\
    dict_keys first' =
      if has_key "token" first then dict_keys first else dict_keys first ++ ["token"].
Proof.
  eexists. split; [reflexivity|]. split.
  - intros k. apply dict_get_set.
  - destruct (has_key "token" first) eqn:E.
    + now apply dict_keys_set_present.
    + now apply dict_keys_set_absent.
Qed.

(** The documents [generate_checkout_payload] produces carry the checkout's
    id under ["token"], the field that [_remove_token_from_checkout]
    overwrites. *)
Lemma checkout_payload_has_token (env : Env) (checkout : Checkout)
    (requestor : option Requestor) (payload : pyval) :
  generate_checkout_payload env checkout requestor = Ok payload ->
  Forall
    (fun doc =>
       get_field "token" doc =
         Some (global_id env (object_name (checkout_row checkout))
                 (pk (checkout_row checkout))))
    (top_objects payload).
Proof.
  unfold generate_checkout_payload. intros H.
  bind_inv H. bind_inv H.
  apply serialize_ok in H as (docs & -> & H). simpl.
  inversion H as [|o doc qs docs' Hd Hrest]; subst. inversion Hrest; subst.
  constructor; [|constructor].
  now rewrite (get_dump_object_projected env _ _ _ _ _ _ _ "token" Hd eq_refl eq_refl).
Qed.

(** ** The App type's gate *)

(** C4. The resolvers of the App type's [tokens] and [webhooks] fields raise
    [PermissionDenied], naming the permissions [MANAGE_APPS] and [OWNER],
    exactly when the requester is neither the owner of the app nor holds
    [MANAGE_APPS]; otherwise they return the app's tokens and webhooks. *)
Theorem app_tokens_and_webhooks_gate (RequestContext : Type)
    (get_user_or_app_from_context : RequestContext -> Requestor)
    (app : App) (context : RequestContext) :
  let requester := get_user_or_app_from_context context in
  let allowed := is_owner requester app || has_perm requester MANAGE_APPS in
  resolve_tokens RequestContext get_user_or_app_from_context app context =
    (if allowed then Ok (app_tokens app)
     else Raise (PermissionDenied [MANAGE_APPS; OWNER])) /\
  resolve_webhooks RequestContext get_user_or_app_from_context app context =
    (if allowed then Ok (app_webhooks app)
     else Raise (PermissionDenied [MANAGE_APPS; OWNER])) /\
  ((exists e, resolve_tokens RequestContext get_user_or_app_from_context app context
              = Raise e) <->
   is_owner requester app = false /\ has_perm requester MANAGE_APPS = false).
Proof.
  intros requester allowed.
  unfold resolve_tokens, resolve_webhooks, has_required_permission,
    is_owner_or_has_one_of_perms.
  fold requester. simpl. rewrite orb_false_r. fold allowed.
  destruct allowed eqn:E; simpl; (split; [reflexivity|split; [reflexivity|]]).
  - apply orb_true_iff in E. split.
    + intros [e He]. discriminate.
    + intros [H1 H2]. destruct E; congruence.
  - apply orb_false_elim in E. split; [intros _; exact E | eauto].
Qed.

Lemma app_tokens_and_webhooks_gate_witness :
  resolve_tokens unit (fun _ => ReqUser Sample.customer) Sample.app tt =
    Raise (PermissionDenied [MANAGE_APPS; OWNER]) /\
  resolve_tokens unit (fun _ => ReqUser Sample.staff) Sample.app tt =
    Ok (app_tokens Sample.app) /\
  resolve_webhooks unit (fun _ => ReqApp Sample.app) Sample.app tt =
    Ok (app_webhooks Sample.app).
Proof.
  split; [|split].
  - exact (proj1 (app_tokens_and_webhooks_gate unit
             (fun _ => ReqUser Sample.customer) Sample.app tt)).
  - exact (proj1 (app_tokens_and_webhooks_gate unit
             (fun _ => ReqUser Sample.staff) Sample.app tt)).
  - exact (proj1 (proj2 (app_tokens_and_webhooks_gate unit
             (fun _ => ReqApp Sample.app) Sample.app tt))).
Defined.

(** ** Deprecated fields *)

(** C7. In the payload of a product channel listing the deprecated field
    ["publication_date"] holds the listing's [published_at] and
    ["available_for_purchase"] its [available_for_purchase_at], next to the
    columns of those names; in a page payload ["publication_date"] holds the
    page's [published_at]. *)
Theorem deprecated_date_fields_mirror_current_ones (env : Env) :
  (forall listings : list ProductChannelListing,
     exists docs,
       serialize_product_channel_listing_payload env listings = Ok (PList docs) /\
       Forall2
         (fun pch doc =>
            get_field "publication_date" doc = Some (attr (pcl_row pch) "published_at") /\
            get_field "available_for_purchase" doc =
              Some (attr (pcl_row pch) "available_for_purchase_at") /\
            get_field "published_at" doc =
              dict_get "published_at" (columns (pcl_row pch)) /\
            get_field "available_for_purchase_at" doc =
              dict_get "available_for_purchase_at" (columns (pcl_row pch)))
         listings docs) /\
  (forall (page : Model) (requestor : option Requestor),
     exists doc,
       generate_page_payload env page requestor = Ok (PList [doc]) /\
       get_field "publication_date" doc = Some (attr page "published_at") /\
       get_field "published_at" doc = dict_get "published_at" (columns page)).
Proof.
  split.
  - intros listings. unfold serialize_product_channel_listing_payload, serialize.
    match goal with
    | |- context [mapM ?f listings] =>
        destruct (mapM_is_ok f listings) as [docs Hdocs]
    end.
    { intros pch. eexists. reflexivity. }
    rewrite Hdocs. simpl. exists docs. split; [reflexivity|].
    apply mapM_ok in Hdocs.
    induction Hdocs as [|pch doc l docs' Hd _ IH]; constructor; [|exact IH].
    pose proof (get_dump_object_extra env _ _ _ _ _ pch doc "publication_date" _ Hd eq_refl)
      as (v1 & Hv1 & H1).
    pose proof (get_dump_object_extra env _ _ _ _ _ pch doc "available_for_purchase" _ Hd
                  eq_refl) as (v2 & Hv2 & H2).
    simpl in Hv1, Hv2. injection Hv1 as <-. injection Hv2 as <-.
    repeat split; try assumption.
    + now rewrite (get_dump_object_projected env _ _ _ _ _ pch doc "published_at" Hd).
    + now rewrite (get_dump_object_projected env _ _ _ _ _ pch doc
                     "available_for_purchase_at" Hd).
  - intros page requestor. unfold generate_page_payload, serialize.
    simpl mapM. simpl bind. eexists. split; [reflexivity|].
    split.
    + simpl. rewrite dict_get_set_eq. reflexivity.
    + simpl. rewrite dict_get_set_ne by reflexivity.
      rewrite dict_get_set_ne by reflexivity.
      rewrite dict_get_set_ne by reflexivity.
      now rewrite project_get.
Qed.

(** ** Sale catalogues *)

(** Reading a [defaultdict] returns the ids of the key and leaves every
    later read as it was. *)
Lemma defaultdict_getitem_fst (m : gmap string (gset string)) key :
  fst (defaultdict_getitem m key) = default ∅ (m !! key).
Proof. unfold defaultdict_getitem. now destruct (m !! key). Qed.

Lemma defaultdict_getitem_snd (m : gmap string (gset string)) key k :
  default ∅ (snd (defaultdict_getitem m key) !! k) = default ∅ (m !! k).
Proof.
  unfold defaultdict_getitem. destruct (m !! key) eqn:E; simpl; [reflexivity|].
  destruct (decide (key = k)) as [->|Hne].
  - now rewrite lookup_insert_eq, E.
  - now rewrite lookup_insert_ne.
Qed.

Lemma calculate_added_spec (p c p0 c0 : gmap string (gset string)) key ids p' c' :
  same_reads p p0 -> same_reads c c0 ->
  _calculate_added p c key = (ids, (p', c')) ->
  ids = elements (default ∅ (c0 !! key) ∖ default ∅ (p0 !! key)) /\
  same_reads p' p0 /\ same_reads c' c0.
Proof.
  intros Hp Hc. unfold _calculate_added.
  pose proof (defaultdict_getitem_fst c key) as Hc1.
  pose proof (defaultdict_getitem_snd c key) as Hc2.
  pose proof (defaultdict_getitem_fst p key) as Hp1.
  pose proof (defaultdict_getitem_snd p key) as Hp2.
  destruct (defaultdict_getitem c key) as [cur c1].
  destruct (defaultdict_getitem p key) as [prev p1].
  simpl in *. intros H. injection H as <- <- <-. subst.
  rewrite (Hp key), (Hc key). split; [reflexivity|].
  split; intros k; [rewrite Hp2; apply Hp | rewrite Hc2; apply Hc].
Qed.

Lemma calculate_removed_spec (p c p0 c0 : gmap string (gset string)) key ids p' c' :
  same_reads p p0 -> same_reads c c0 ->
  _calculate_removed p c key = (ids, (p', c')) ->
  ids = elements (default ∅ (p0 !! key) ∖ default ∅ (c0 !! key)) /\
  same_reads p' p0 /\ same_reads c' c0.
Proof.
  intros Hp Hc. unfold _calculate_removed.
  destruct (_calculate_added c p key) as [ids' [c1 p1]] eqn:E.
  intros H. injection H as <- <- <-.
  destruct (calculate_added_spec _ _ _ _ _ _ _ _ Hc Hp E) as (-> & H1 & H2).
  auto.
Qed.

Lemma sale_payload_lists (env : Env) (sale : Model)
    (previous_catalogue current_catalogue : option (gmap string (gset string)))
    (requestor : option Requestor) :
  exists doc,
    generate_sale_payload env sale previous_catalogue current_catalogue requestor
      = Ok (PList [doc]) /\
    forall kind, In kind catalogue_kinds ->
      get_field (kind +:+ "_added") doc =
        Some (id_list (elements (catalogue_ids current_catalogue kind
                                 ∖ catalogue_ids previous_catalogue kind))) /\
      get_field (kind +:+ "_removed") doc =
        Some (id_list (elements (catalogue_ids previous_catalogue kind
                                 ∖ catalogue_ids current_catalogue kind))).
Proof.
  unfold generate_sale_payload, catalogue_ids.
  set (P := default ∅ previous_catalogue). set (C := default ∅ current_catalogue).
  assert (HP : same_reads P P) by (intros k; reflexivity).
  assert (HC : same_reads C C) by (intros k; reflexivity).
  cbv zeta. cbv beta. simpl fst. simpl snd.
  destruct (_calculate_added P C "categories") as [a1 [p1 c1]] eqn:E1.
  destruct (calculate_added_spec _ _ _ _ _ _ _ _ HP HC E1) as (-> & Hp1 & Hc1).
  simpl fst. simpl snd.
  destruct (_calculate_removed p1 c1 "categories") as [r1 [p2 c2]] eqn:E2.
  destruct (calculate_removed_spec _ _ _ _ _ _ _ _ Hp1 Hc1 E2) as (-> & Hp2 & Hc2).
  simpl fst. simpl snd.
  destruct (_calculate_added p2 c2 "collections") as [a2 [p3 c3]] eqn:E3.
  destruct (calculate_added_spec _ _ _ _ _ _ _ _ Hp2 Hc2 E3) as (-> & Hp3 & Hc3).
  simpl fst. simpl snd.
  destruct (_calculate_removed p3 c3 "collections") as [r2 [p4 c4]] eqn:E4.
  destruct (calculate_removed_spec _ _ _ _ _ _ _ _ Hp3 Hc3 E4) as (-> & Hp4 & Hc4).
  simpl fst. simpl snd.
  destruct (_calculate_added p4 c4 "products") as [a3 [p5 c5]] eqn:E5.
  destruct (calculate_added_spec _ _ _ _ _ _ _ _ Hp4 Hc4 E5) as (-> & Hp5 & Hc5).
  simpl fst. simpl snd.
  destruct (_calculate_removed p5 c5 "products") as [r3 [p6 c6]] eqn:E6.
  destruct (calculate_removed_spec _ _ _ _ _ _ _ _ Hp5 Hc5 E6) as (-> & Hp6 & Hc6).
  simpl fst. simpl snd.
  destruct (_calculate_added p6 c6 "variants") as [a4 [p7 c7]] eqn:E7.
  destruct (calculate_added_spec _ _ _ _ _ _ _ _ Hp6 Hc6 E7) as (-> & Hp7 & Hc7).
  simpl fst. simpl snd.
  destruct (_calculate_removed p7 c7 "variants") as [r4 [p8 c8]] eqn:E8.
  destruct (calculate_removed_spec _ _ _ _ _ _ _ _ Hp7 Hc7 E8) as (-> & Hp8 & Hc8).
  unfold serialize. simpl mapM. simpl bind.
  eexists. split; [reflexivity|].
  intros kind Hkind. simpl in Hkind.
  destruct Hkind as [<-|[<-|[<-|[<-|[]]]]]; simpl;
    repeat (rewrite dict_get_set_ne by reflexivity);
    rewrite dict_get_set_eq;
    repeat (rewrite dict_get_set_ne by reflexivity);
    rewrite dict_get_set_eq; split; reflexivity.
Qed.

Lemma difference_lists (A B : gset string) :
  (forall x, x ∈ elements (A ∖ B) <-> x ∈ A /\ x ∉ B) /\
  (forall x, x ∈ elements (B ∖ A) <-> x ∈ B /\ x ∉ A) /\
  (forall x, x ∈ elements (B ∖ A) -> x ∉ elements (A ∖ B)).
Proof.
  split; [|split]; intros x; rewrite ?elem_of_elements, ?elem_of_difference; tauto.
Qed.

(** C8. In the sale payload each ["<kind>_removed"] list holds exactly the
    ids that the previous catalogue has for the kind and the current one has
    not; it is the ["added"] difference taken with the catalogues swapped; the
    added and removed lists of a kind are disjoint; and with both catalogues
    omitted all eight lists are empty. *)
Theorem sale_payload_added_and_removed (env : Env) (sale : Model)
    (previous_catalogue current_catalogue : option (gmap string (gset string)))
    (requestor : option Requestor) :
  (forall (p c : gmap string (gset string)) key,
     fst (_calculate_removed p c key) = fst (_calculate_added c p key)) /\
  exists doc,
    generate_sale_payload env sale previous_catalogue current_catalogue requestor
      = Ok (PList [doc]) /\
    forall kind, In kind catalogue_kinds ->
      exists added removed : list string,
        get_field (kind +:+ "_added") doc = Some (id_list added) /\
        get_field (kind +:+ "_removed") doc = Some (id_list removed) /\
        (forall x, x ∈ removed <->
                   x ∈ catalogue_ids previous_catalogue kind /\
                   x ∉ catalogue_ids current_catalogue kind) /\
        (forall x, x ∈ added <->
                   x ∈ catalogue_ids current_catalogue kind /\
                   x ∉ catalogue_ids previous_catalogue kind) /\
        (forall x, x ∈ added -> x ∉ removed) /\
        (previous_catalogue = None -> current_catalogue = None ->
         added = [] /\ removed = []).
Proof.
  split.
  - intros p c key. unfold _calculate_removed.
    now destruct (_calculate_added c p key) as [ids [c1 p1]].
  - destruct (sale_payload_lists env sale previous_catalogue current_catalogue requestor)
      as (doc & Hdoc & Hkinds).
    exists doc. split; [exact Hdoc|].
    intros kind Hkind. destruct (Hkinds kind Hkind) as [Hadded Hremoved].
    eexists _, _. split; [exact Hadded|]. split; [exact Hremoved|].
    destruct (difference_lists (catalogue_ids previous_catalogue kind)
                (catalogue_ids current_catalogue kind)) as (H1 & H2 & H3).
    split; [exact H1|]. split; [exact H2|]. split; [exact H3|].
    intros -> ->. unfold catalogue_ids. simpl. rewrite lookup_empty. simpl.
    rewrite difference_diag_L. split; apply elements_empty.
Qed.

Lemma sale_payload_added_and_removed_witness :
  In "products" catalogue_kinds /\
  exists doc added removed,
    generate_sale_payload Sample.env Sample.sale (Some Sample.previous_catalogue)
      (Some Sample.current_catalogue) None = Ok (PList [doc]) /\
    get_field "products_added" doc = Some (id_list added) /\
    get_field "products_removed" doc = Some (id_list removed) /\
    forall x, x ∈ added -> x ∉ removed.
Proof.
  assert (Hk : In "products" catalogue_kinds) by (simpl; auto).
  split; [exact Hk|].
  destruct (sale_payload_added_and_removed Sample.env Sample.sale
              (Some Sample.previous_catalogue) (Some Sample.current_catalogue) None)
    as (_ & doc & Hdoc & Hkinds).
  destruct (Hkinds "products" Hk) as (added & removed & Ha & Hr & _ & _ & Hdisj & _).
  exists doc, added, removed. auto.
Defined.

(** ** Related entities *)

Section AdditionalFacts.
Context (env : Env) {T : Type}.

Lemma apply_additional_bound (obj : T) additional data data' k qs fields :
  apply_additional env obj additional data = Ok data' ->
  last_binding k additional = Some (qs, fields) ->
  exists r, qs obj = Ok r /\ dict_get k data' = Some (serialize_related env fields r).
Proof.
  revert data. induction additional as [|[name [qs' fields']] rest IH];
    intros data H Hk; simpl in *; [discriminate|].
  bind_inv H. destruct (last_binding k rest) as [[qs0 fields0]|] eqn:E.
  - injection Hk as -> ->. eapply IH; eauto.
  - destruct (String.eqb k name) eqn:Ek; [|discriminate].
    injection Hk as -> ->. apply String.eqb_eq in Ek. subst name.
    exists a. split; [exact Ha|].
    assert (Hfree : in_keys k rest = false).
    { clear - E. induction rest as [|[k0 v0] rest IH]; simpl in *; [reflexivity|].
      destruct (last_binding k rest); [discriminate|].
      destruct (String.eqb k k0); [discriminate|]. simpl. now apply IH. }
    rewrite (apply_additional_get env _ _ _ _ k H Hfree).
    apply dict_get_set_eq.
Qed.

(** An additional field that no extra field overrides holds the
    sub-payload of what its callable returns. *)
Lemma get_dump_object_additional (model_of : T -> Model) fields obj_id_name
    additional (extra : list (string * ExtraValue T)) obj doc k qs related_fields :
  get_dump_object env model_of fields obj_id_name additional extra obj = Ok doc ->
  last_binding k extra = None ->
  last_binding k additional = Some (qs, related_fields) ->
  exists r, qs obj = Ok r /\
            get_field k doc = Some (serialize_related env related_fields r).
Proof.
  unfold get_dump_object. intros H Hk Hadd. bind_inv H. bind_inv H.
  injection H as <-. simpl.
  rewrite (apply_extra_get _ _ _ _ k Ha0), Hk.
  eapply apply_additional_bound; eauto.
Qed.
End AdditionalFacts.

(** An order without shipping method or collection point, and a checkout
    without matching warehouse, report [null] in the field. *)
Lemma order_payload_missing_relations (env : Env) (order : Order)
    (requestor : option Requestor) (with_meta : bool) (payload : pyval) :
  generate_order_payload env order requestor with_meta = Ok payload ->
  Forall
    (fun doc =>
       (order_shipping_method order = None ->
        get_field "shipping_method" doc = Some PNone) /\
       (order_collection_point order = None ->
        get_field "collection_point" doc = Some PNone))
    (top_objects payload).
Proof.
  unfold generate_order_payload. intros H.
  bind_inv H. bind_inv H. bind_inv H. bind_inv H. bind_inv H.
  apply serialize_ok in H as (docs & -> & H). simpl.
  inversion H as [|o doc qs docs' Hd Hrest]; subst. inversion Hrest; subst.
  constructor; [|constructor]. split; intros Hnone.
  - assert (a3 = PNone) as ->.
    { simpl in Ha3. rewrite Hnone in Ha3. simpl in Ha3. congruence. }
    destruct with_meta.
    + destruct (get_dump_object_extra env _ _ _ _ _ _ _ "shipping_method" _ Hd eq_refl)
        as (v & Hv & ->). simpl in Hv. congruence.
    + destruct (get_dump_object_extra env _ _ _ _ _ _ _ "shipping_method" _ Hd eq_refl)
        as (v & Hv & ->). simpl in Hv. congruence.
  - assert (a1 = PNone) as ->.
    { simpl in Ha1. rewrite Hnone in Ha1. congruence. }
    destruct with_meta.
    + destruct (get_dump_object_extra env _ _ _ _ _ _ _ "collection_point" _ Hd eq_refl)
        as (v & Hv & ->). simpl in Hv. congruence.
    + destruct (get_dump_object_extra env _ _ _ _ _ _ _ "collection_point" _ Hd eq_refl)
        as (v & Hv & ->). simpl in Hv. congruence.
Qed.

Lemma checkout_payload_missing_relations (env : Env) (checkout : Checkout)
    (requestor : option Requestor) (payload : pyval) :
  generate_checkout_payload env checkout requestor = Ok payload ->
  Forall
    (fun doc =>
       (checkout_shipping_method checkout = None ->
        get_field "shipping_method" doc = Some PNone) /\
       (checkout_warehouse env checkout = None ->
        get_field "warehouse_address" doc = Some PNone))
    (top_objects payload).
Proof.
  unfold generate_checkout_payload. intros H.
  bind_inv H. bind_inv H.
  apply serialize_ok in H as (docs & -> & H). simpl.
  inversion H as [|o doc qs docs' Hd Hrest]; subst. inversion Hrest; subst.
  constructor; [|constructor]. split; intros Hnone.
  - assert (a = PNone) as ->.
    { simpl in Ha. rewrite Hnone in Ha. simpl in Ha. congruence. }
    destruct (get_dump_object_extra env _ _ _ _ _ _ _ "shipping_method" _ Hd eq_refl)
      as (v & Hv & ->). simpl in Hv. congruence.
  - destruct (get_dump_object_additional env _ _ _ _ _ _ _ "warehouse_address" _ _ Hd
                eq_refl eq_refl) as (r & Hr & ->).
    change (checkout_warehouse env (quantize_checkout env checkout))
      with (checkout_warehouse env checkout) in Hr.
    rewrite Hnone in Hr. injection Hr as <-. reflexivity.
Qed.

(** A shipping method without a listing in the channel is not reported as
    [null] either: reading [.currency] off the missing listing raises. *)
Lemma shipping_method_payload_raises_without_listing (env : Env)
    (shipping_method : ShippingMethod) (channel : Model) :
  List.filter (fun l => pk_eqb (smcl_channel l) (pk channel))
    (shipping_method_channel_listings shipping_method) = [] ->
  _generate_shipping_method_payload env (Some shipping_method) channel
    = Raise (AttributeError "currency").
Proof. intros H. unfold _generate_shipping_method_payload. now rewrite H. Qed.

(** C3. A fulfillment whose first line has no stock, of an order whose
    country has no warehouse, does not get a [null] warehouse address:
    [generate_fulfillment_payload] raises.  When the order and the lines
    serialize, the exception is the [AttributeError] of reading [.address]
    off [None]. *)
Theorem fulfillment_payload_raises_without_warehouse (env : Env)
    (fulfillment : Fulfillment) (order : Order) (requestor : option Requestor) :
  fulfillment_warehouse env fulfillment order = None ->
  exists e,
    generate_fulfillment_payload env fulfillment order requestor = Raise e /\
    (is_ok (let* p := generate_order_payload env order None false in first_item p)
       = true ->
     is_ok (generate_fulfillment_lines_payload env
              (quantize_fulfillment env fulfillment (order_currency order))) = true ->
     e = AttributeError "address").
Proof.
  intros Hw. unfold generate_fulfillment_payload. rewrite Hw.
  destruct (generate_order_payload env order None false) as [p|e]; simpl;
    [|exists e; split; [reflexivity | discriminate]].
  destruct (first_item p) as [order_data|e]; simpl;
    [|exists e; split; [reflexivity | discriminate]].
  destruct (generate_fulfillment_lines_payload env _) as [lines|e]; simpl;
    [|exists e; split; [reflexivity | intros _; discriminate]].
  eexists. split; reflexivity.
Qed.

Lemma fulfillment_payload_raises_without_warehouse_witness :
  fulfillment_warehouse Sample.env Sample.fulfillment Sample.order = None /\
  generate_fulfillment_payload Sample.env Sample.fulfillment Sample.order None
    = Raise (AttributeError "address").
Proof.
  assert (Hw : fulfillment_warehouse Sample.env Sample.fulfillment Sample.order = None)
    by reflexivity.
  split; [exact Hw|].
  destruct (fulfillment_payload_raises_without_warehouse Sample.env Sample.fulfillment
              Sample.order None Hw) as (e & -> & He).
  f_equal. apply He; reflexivity.
Defined.

(** ** Money that is not quantized *)

(** The variant listing payload copies the price columns as they are. *)
Lemma variant_listing_prices_verbatim (env : Env)
    (listings : list ProductVariantChannelListing) :
  exists docs,
    generate_product_variant_listings_payload env listings = Ok (PList docs) /\
    Forall2
      (fun l doc =>
         get_field "price_amount" doc = dict_get "price_amount" (columns (vcl_row l)) /\
         get_field "cost_price_amount" doc =
           dict_get "cost_price_amount" (columns (vcl_row l)))
      listings docs.
Proof.
  unfold generate_product_variant_listings_payload, serialize.
  match goal with
  | |- context [mapM ?f listings] => destruct (mapM_is_ok f listings) as [docs Hdocs]
  end.
  { intros l. eexists. reflexivity. }
  rewrite Hdocs. simpl. exists docs. split; [reflexivity|].
  apply mapM_ok in Hdocs.
  induction Hdocs as [|l doc ls docs' Hd _ IH]; constructor; [|exact IH].
  split.
  - now rewrite (get_dump_object_projected env _ _ _ _ _ l doc "price_amount" Hd).
  - now rewrite (get_dump_object_projected env _ _ _ _ _ l doc "cost_price_amount" Hd).
Qed.

(** The sibling path: the shipping method of an order or checkout has its
    price quantized. *)
Lemma shipping_method_payload_price_quantized (env : Env)
    (shipping_method : ShippingMethod) (channel : Model) (doc : pyval) :
  _generate_shipping_method_payload env (Some shipping_method) channel = Ok doc ->
  exists d currency,
    get_field "price_amount" doc = Some (PDec d) /\
    get_field "currency" doc = Some (PStr currency) /\
    is_quantized env currency d = true.
Proof.
  unfold _generate_shipping_method_payload.
  destruct (head _) as [listing|]; [|discriminate].
  unfold serialize. simpl. intros H. injection H as <-. simpl.
  exists (quantize_price env (smcl_price_amount listing) (smcl_currency listing)),
         (smcl_currency listing).
  rewrite dict_get_set_eq.
  rewrite dict_get_set_ne by reflexivity. rewrite dict_get_set_eq.
  repeat split. apply quantize_price_is_quantized.
Qed.

(** The order path: every price field of the order document is quantized. *)
Lemma order_payload_prices_quantized (env : Env) (order : Order)
    (requestor : option Requestor) (with_meta : bool) (payload : pyval) :
  generate_order_payload env order requestor with_meta = Ok payload ->
  Forall
    (fun doc =>
       forall k d, In k ORDER_PRICE_FIELDS ->
         get_field k doc = Some (PDec d) ->
         is_quantized env (order_currency order) d = true)
    (top_objects payload).
Proof.
  unfold generate_order_payload. intros H.
  bind_inv H. bind_inv H. bind_inv H. bind_inv H. bind_inv H.
  apply serialize_ok in H as (docs & -> & H). simpl.
  inversion H as [|o doc qs docs' Hd Hrest]; subst. inversion Hrest; subst.
  constructor; [|constructor]. intros k d Hk Hget.
  assert (Hproj : get_field k doc =
            dict_get k (columns (quantize_price_fields env (order_row order)
                                   ORDER_PRICE_FIELDS (order_currency order)))).
  { simpl in Hk.
    destruct Hk as [<-|[<-|[<-|[<-|[<-|[<-|[]]]]]]];
      destruct with_meta;
      now rewrite (get_dump_object_projected env _ _ _ _ _ _ _ _ Hd). }
  rewrite Hproj, quantize_price_fields_get in Hget.
  assert (Hin : existsb (String.eqb k) ORDER_PRICE_FIELDS = true).
  { simpl in Hk. destruct Hk as [<-|[<-|[<-|[<-|[<-|[<-|[]]]]]]]; reflexivity. }
  rewrite Hin in Hget.
  destruct (dict_get k (columns (order_row order))) as [[]|]; try discriminate.
  injection Hget as <-. apply quantize_price_is_quantized.
Qed.

(** C1. Prices that leave the layer unquantized: for a variant channel
    listing priced 9.999 USD (cost 4.5 USD) the listing payload carries 9.999
    and 4.5, not 10.00 and 4.50, and the excluded-shipping-method payload of a
    method priced 9.999 USD carries 9.999; the shipping method payload of an
    order quantizes the same amount to 10.00. *)
Theorem listing_and_excluded_method_prices_not_quantized :
  (exists doc,
     generate_product_variant_listings_payload Sample.env [Sample.variant_listing]
       = Ok (PList [doc]) /\
     get_field "price_amount" doc = Some (PDec (mkDecimal 9999 (-3))) /\
     get_field "cost_price_amount" doc = Some (PDec (mkDecimal 45 (-1)))) /\
  get_field "price" (_generate_payload_for_shipping_method Sample.shipping_method_data)
    = Some (PDec (mkDecimal 9999 (-3))) /\
  is_quantized Sample.env "USD" (mkDecimal 9999 (-3)) = false /\
  is_quantized Sample.env "USD" (mkDecimal 45 (-1)) = false /\
  quantize_price Sample.env (mkDecimal 9999 (-3)) "USD" = mkDecimal 1000 (-2) /\
  quantize_price Sample.env (mkDecimal 45 (-1)) "USD" = mkDecimal 450 (-2) /\
  (exists doc,
     _generate_shipping_method_payload Sample.env (Some Sample.shipping_method)
       Sample.channel = Ok doc /\
     get_field "price_amount" doc = Some (PDec (mkDecimal 1000 (-2)))).
Proof.
  split; [eexists; repeat split|].
  repeat split. eexists. split; reflexivity.
Qed.

(** ** The meta envelope *)

Lemma const_meta_is_envelope (env : Env) (requestor : option Requestor)
    (docs : list pyval) :
  Forall (fun doc => get_field "meta" doc = Some (meta_for env requestor)) docs ->
  Forall (fun doc => has_meta_envelope doc = true) docs.
Proof.
  intros H. induction H as [|doc docs Hd _ IH]; constructor; [|exact IH].
  unfold has_meta_envelope. now rewrite Hd.
Qed.

Lemma absent_meta_lacks (docs : list pyval) :
  Forall (fun doc => get_field "meta" doc = None) docs ->
  Forall (fun doc => lacks_meta doc = true) docs.
Proof.
  intros H. induction H as [|doc docs Hd _ IH]; constructor; [|exact IH].
  unfold lacks_meta. now rewrite Hd.
Qed.

Ltac binds H :=
  cbv zeta in H;
  repeat match type of H with
         | bind _ _ = Ok _ => bind_inv H
         end.

Ltac carries_meta H :=
  binds H; eapply const_meta_is_envelope, serialize_const_extra;
  [exact H | reflexivity].

Ltac has_no_meta H :=
  binds H; eapply absent_meta_lacks, serialize_absent_key;
  [exact H | reflexivity ..].

Lemma translation_payload_meta (env : Env) (translation : Translation)
    (requestor : option Requestor) :
  get_field "meta" (generate_translation_payload env translation requestor)
    = Some (meta_for env requestor).
Proof.
  unfold generate_translation_payload.
  destruct (translated_object_id translation) as [object_type object_id].
  destruct (attribute_value_translation_context translation) as [c|]; [|reflexivity].
  unfold process_translation_context. simpl fold_left.
  repeat match goal with
         | |- context [truthy ?v] => destruct (truthy v)
         end; reflexivity.
Qed.

Lemma payment_payload_meta (env : Env) (payment_data : PaymentData)
    (requestor : option Requestor) :
  get_field "meta" (generate_payment_payload env payment_data requestor) =
    match from_payment_app_id env (payment_gateway payment_data) with
    | Some _ => Some (meta_for env requestor)
    | None => dict_get "meta" (payment_other_fields payment_data)
    end.
Proof.
  unfold generate_payment_payload. simpl.
  destruct (from_payment_app_id env (payment_gateway payment_data)).
  - apply dict_get_set_eq.
  - rewrite dict_get_set_ne by reflexivity. unfold asdict.
    now rewrite dict_get_update.
Qed.

Lemma order_payload_carries_meta (env : Env) (order : Order) (payload : pyval) :
  generate_order_payload env order None true = Ok payload ->
  Forall (fun doc => has_meta_envelope doc = true) (top_objects payload).
Proof. intros H. unfold generate_order_payload in H. carries_meta H. Qed.

Lemma checkout_payload_carries_meta (env : Env) (checkout : Checkout)
    (payload : pyval) :
  generate_checkout_payload env checkout None = Ok payload ->
  Forall (fun doc => has_meta_envelope doc = true) (top_objects payload).
Proof. intros H. unfold generate_checkout_payload in H. carries_meta H. Qed.

(** C2, as the code has it.  The payloads of the generators that take a
    requestor (order and variant payloads when [with_meta] is set, sale,
    invoice, checkout, customer, collection, deleted product, variant with
    stock, fulfillment, translation, transaction action) carry a top-level
    ["meta"] envelope with the keys ["issued_at"], ["version"] and
    ["issuing_principal"] in every document; the payment payload carries it
    when the gateway id parses as a payment-app id and otherwise adds none;
    the list-gateways and excluded-shipping-methods payloads, the payloads
    built with [with_meta] off and the line, listing, media and stock
    sub-payloads have no top-level ["meta"].  Nothing is stated for the page
    and product payloads. *)
Theorem meta_envelope_by_generator (env : Env) (call : PayloadCall) (payload : pyval) :
  run_payload env call = Ok payload ->
  match meta_policy env call with
  | CarriesMeta => Forall (fun doc => has_meta_envelope doc = true) (top_objects payload)
  | NoMeta => Forall (fun doc => lacks_meta doc = true) (top_objects payload)
  | NotStated => True
  end.
Proof.
  destruct call; simpl; intros H.
  - (* order lines *)
    unfold generate_order_lines_payload in H. has_no_meta H.
  - (* order *)
    unfold generate_order_payload in H. destruct with_meta.
    + carries_meta H.
    + has_no_meta H.
  - (* sale *)
    unfold generate_sale_payload in H. cbv zeta in H. cbn [fst snd] in H.
    repeat (match type of H with
            | context [_calculate_added ?p ?c ?k] =>
                destruct (_calculate_added p c k) as [? [? ?]]
            | context [_calculate_removed ?p ?c ?k] =>
                destruct (_calculate_removed p c k) as [? [? ?]]
            end; cbn [fst snd] in H).
    carries_meta H.
  - (* invoice *)
    unfold generate_invoice_payload in H. carries_meta H.
  - (* order for invoice *)
    unfold _generate_order_payload_for_invoice in H.
    destruct order; [|discriminate]. has_no_meta H.
  - (* checkout *)
    unfold generate_checkout_payload in H. carries_meta H.
  - (* customer *)
    unfold generate_customer_payload in H. carries_meta H.
  - (* collection *)
    unfold generate_collection_payload in H. carries_meta H.
  - (* product *)
    exact I.
  - (* deleted product *)
    unfold generate_product_deleted_payload in H. carries_meta H.
  - (* variant listings *)
    unfold generate_product_variant_listings_payload in H. has_no_meta H.
  - (* variant media *)
    injection H as <-. unfold generate_product_variant_media_payload. simpl.
    induction (variant_media product_variant); constructor; [reflexivity | assumption].
  - (* variant with stock *)
    unfold generate_product_variant_with_stock_payload in H. carries_meta H.
  - (* variant *)
    unfold generate_product_variant_payload in H. destruct with_meta.
    + carries_meta H.
    + has_no_meta H.
  - (* variant stocks *)
    injection H as <-. repeat constructor.
  - (* fulfillment lines *)
    unfold generate_fulfillment_lines_payload in H. has_no_meta H.
  - (* fulfillment *)
    unfold generate_fulfillment_payload in H. carries_meta H.
  - (* page *)
    exact I.
  - (* payment *)
    injection H as <-.
    pose proof (payment_payload_meta env payment_data requestor) as Hm.
    destruct (from_payment_app_id env (payment_gateway payment_data)).
    + constructor; [|constructor]. unfold has_meta_envelope. now rewrite Hm.
    + unfold has_key. destruct (dict_get "meta" (payment_other_fields payment_data));
        [exact I|].
      constructor; [|constructor]. unfold lacks_meta. now rewrite Hm.
  - (* list gateways *)
    unfold generate_list_gateways_payload in H. binds H. injection H as <-.
    repeat constructor.
  - (* translation *)
    injection H as <-.
    pose proof (translation_payload_meta env translation requestor) as Hm.
    destruct (generate_translation_payload env translation requestor);
      try discriminate.
    constructor; [|constructor]. unfold has_meta_envelope. now rewrite Hm.
  - (* excluded shipping methods, order *)
    unfold generate_excluded_shipping_methods_for_order_payload in H. binds H.
    injection H as <-. repeat constructor.
  - (* excluded shipping methods, checkout *)
    unfold generate_excluded_shipping_methods_for_checkout_payload in H. binds H.
    injection H as <-. repeat constructor.
  - (* transaction action *)
    injection H as <-. repeat constructor.
Qed.

Lemma meta_envelope_by_generator_witness :
  exists payload,
    run_payload Sample.env (CheckoutPayload Sample.checkout None) = Ok payload /\
    Forall (fun doc => has_meta_envelope doc = true) (top_objects payload).
Proof.
  eexists. split; [reflexivity|].
  exact (meta_envelope_by_generator Sample.env
           (CheckoutPayload Sample.checkout None) _ eq_refl).
Defined.

(** The list-gateways payload of no checkout and no currency is
    [{"checkout": null, "currency": null}], and the payment payload of a
    gateway that is not a payment app has the dataclass fields only: neither
    has a ["meta"] key. *)
Lemma list_gateways_and_payment_payloads_lack_meta :
  run_payload Sample.env (ListGatewaysPayload None None) =
    Ok (PDict [("checkout", PNone); ("currency", PNone)]) /\
  has_meta_envelope (PDict [("checkout", PNone); ("currency", PNone)]) = false /\
  run_payload Sample.env (PaymentPayload Sample.payment_data None) =
    Ok (PDict [("order_id", PStr "T3JkZXI6MQ==");
               ("gateway", PStr "mirumee.payments.dummy");
               ("amount", PDec (mkDecimal 1000 (-2)));
               ("currency", PStr "USD")]) /\
  get_field "meta" (generate_payment_payload Sample.env Sample.payment_data None) = None.
Proof. repeat split. Qed.

(** The nested order or checkout of an excluded-shipping-methods payload
    carries the envelope. *)
Lemma excluded_shipping_methods_nested_meta (env : Env) (order : Order)
    (checkout : Checkout) (methods : list ShippingMethodData) (payload : pyval) :
  (generate_excluded_shipping_methods_for_order_payload env order methods = Ok payload ->
   exists order_data,
     get_field "order" payload = Some order_data /\
     has_meta_envelope order_data = true) /\
  (generate_excluded_shipping_methods_for_checkout_payload env checkout methods
     = Ok payload ->
   exists checkout_data,
     get_field "checkout" payload = Some checkout_data /\
     has_meta_envelope checkout_data = true).
Proof.
  split; intros H.
  - unfold generate_excluded_shipping_methods_for_order_payload in H. binds H.
    injection H as <-. exists a0. split; [reflexivity|].
    pose proof (order_payload_carries_meta env order a Ha) as Hall.
    destruct a as [| | | | |[|doc docs]|]; try discriminate.
    injection Ha0 as <-. now inversion Hall.
  - unfold generate_excluded_shipping_methods_for_checkout_payload in H. binds H.
    injection H as <-. exists a0. split; [reflexivity|].
    pose proof (checkout_payload_carries_meta env checkout a Ha) as Hall.
    destruct a as [| | | | |[|doc docs]|]; try discriminate.
    injection Ha0 as <-. now inversion Hall.
Qed.

(** The page payload stores its envelope under ["data"]. *)
Lemma page_payload_envelope_key (env : Env) (page : Model)
    (requestor : option Requestor) :
  exists doc,
    generate_page_payload env page requestor = Ok (PList [doc]) /\
    get_field "data" doc = Some (meta_for env requestor) /\
    get_field "meta" doc = None.
Proof.
  unfold generate_page_payload, serialize. simpl mapM. simpl bind.
  eexists. split; [reflexivity|]. simpl. split.
  - rewrite dict_get_set_ne by reflexivity. apply dict_get_set_eq.
  - repeat (rewrite dict_get_set_ne by reflexivity). now rewrite project_get.
Qed.

(** The product payload never gets past its ["variants"] field. *)
Lemma product_payload_raises (env : Env) (product : Product)
    (requestor : option Requestor) :
  exists e, generate_product_payload env product requestor = Raise e.
Proof.
  unfold generate_product_payload.
  destruct (serialize_product_channel_listing_payload env _) as [listings|e]; simpl;
    [|eauto].
  unfold serialize. simpl. eauto.
Qed.

(** * Further properties of the payload generators *)

(** ** Amounts on the order paths *)

Lemma existsb_eqb_In (k : string) (l : list string) :
  In k l -> existsb (String.eqb k) l = true.
Proof.
  intros H. apply existsb_exists. exists k. split; [exact H | apply String.eqb_refl].
Qed.

Lemma quantized_column (env : Env) (m : Model) (fields : list string)
    (currency k : string) (d : Decimal) :
  In k fields ->
  dict_get k (columns (quantize_price_fields env m fields currency)) = Some (PDec d) ->
  is_quantized env currency d = true.
Proof.
  intros Hk. rewrite quantize_price_fields_get, (existsb_eqb_In _ _ Hk).
  destruct (dict_get k (columns m)) as [[]|]; try discriminate.
  intros H. injection H as <-. apply quantize_price_is_quantized.
Qed.

(** The documents of rows that went through [quantize_price_fields] hold
    quantized amounts in the projected price fields. *)
Lemma serialize_quantized_rows (env : Env) {T : Type} (model_of : T -> Model)
    (queryset : list T) (fields : list string) (obj_id_name : string)
    (additional : list (string * ((T -> result Related) * list string)))
    (extra : list (string * ExtraValue T)) (payload : pyval)
    (price_fields : list string) (currency : string) :
  serialize env model_of queryset fields obj_id_name additional extra = Ok payload ->
  (forall obj, In obj queryset ->
     exists m, model_of obj = quantize_price_fields env m price_fields currency) ->
  (forall k, In k price_fields ->
     last_binding k extra = None /\ in_keys k additional = false /\
     String.eqb k obj_id_name = false) ->
  Forall
    (fun doc => forall k d, In k price_fields ->
       get_field k doc = Some (PDec d) -> is_quantized env currency d = true)
    (top_objects payload).
Proof.
  intros H Hrows Hfree. apply serialize_ok in H as (docs & -> & H). simpl.
  induction H as [|obj doc qs docs' Hd _ IH]; constructor.
  - intros k d Hk Hget.
    destruct (Hfree k Hk) as (He & Ha & Hi).
    rewrite (get_dump_object_projected env _ _ _ _ _ _ _ k Hd He Ha), Hi in Hget.
    destruct (existsb (String.eqb k) fields); [|discriminate].
    destruct (Hrows obj (or_introl eq_refl)) as [m Hm]. rewrite Hm in Hget.
    eapply quantized_column; eauto.
  - apply IH. intros o Ho. apply Hrows. now right.
Qed.

Lemma in_two (k a b : string) : In k [a; b] -> k = a \/ k = b.
Proof. simpl. intuition. Qed.

(** X1. In an order payload the price fields of the order document and the
    amounts of the payments, fulfillments and discounts nested in it are all
    quantized for the order's currency. *)
Theorem order_payload_amounts_quantized (env : Env) (order : Order)
    (requestor : option Requestor) (with_meta : bool) (payload : pyval) :
  generate_order_payload env order requestor with_meta = Ok payload ->
  let quantized_in := fun (fields : list string) (doc : pyval) =>
    forall k d, In k fields -> get_field k doc = Some (PDec d) ->
      is_quantized env (order_currency order) d = true in
  Forall
    (fun doc =>
       quantized_in ORDER_PRICE_FIELDS doc /\
       (exists payments,
          get_field "payments" doc = Some (PList payments) /\
          Forall (quantized_in ["captured_amount"; "total"]) payments) /\
       (exists fulfillments,
          get_field "fulfillments" doc = Some (PList fulfillments) /\
          Forall (quantized_in fulfillment_price_fields) fulfillments) /\
       (exists discounts,
          get_field "discounts" doc = Some (PList discounts) /\
          Forall (quantized_in ["amount_value"]) discounts))
    (top_objects payload).
Proof.
  intros H quantized_in. unfold generate_order_payload in H.
  bind_inv H. bind_inv H. bind_inv H. bind_inv H. bind_inv H.
  (* the nested payloads *)
  assert (Hpay : exists payments, a2 = PList payments /\
                 Forall (quantized_in ["captured_amount"; "total"]) payments).
  { pose proof Ha2 as Hq. unfold _generate_order_payment_payload in Hq.
    apply serialize_quantized_rows
      with (price_fields := ["captured_amount"; "total"])
           (currency := order_currency order) in Hq.
    - apply serialize_ok in Ha2 as (docs & -> & _). eauto.
    - simpl. intros p Hp. apply in_map_iff in Hp as (p0 & <- & _). eauto.
    - intros k Hk. apply in_two in Hk as [->| ->]; repeat split. }
  assert (Hful : exists fulfillments, a = PList fulfillments /\
                 Forall (quantized_in fulfillment_price_fields) fulfillments).
  { pose proof Ha as Hq.
    apply serialize_quantized_rows
      with (price_fields := fulfillment_price_fields)
           (currency := order_currency order) in Hq.
    - apply serialize_ok in Ha as (docs & -> & _). eauto.
    - simpl. intros f Hf. apply in_map_iff in Hf as (f0 & <- & _). simpl. eauto.
    - intros k Hk. apply in_two in Hk as [->| ->]; repeat split. }
  pose proof H as Hq.
  apply serialize_quantized_rows
    with (price_fields := ORDER_PRICE_FIELDS) (currency := order_currency order) in Hq.
  2:{ intros o [<-|[]]. simpl. eauto. }
  2:{ intros k Hk. simpl in Hk.
      destruct Hk as [<-|[<-|[<-|[<-|[<-|[<-|[]]]]]]]; destruct with_meta;
        repeat split. }
  apply serialize_ok in H as (docs & -> & H). simpl in *.
  inversion H as [|o doc qs docs' Hd Hrest]; subst. inversion Hrest; subst.
  inversion Hq as [|? ? Hdoc _]; subst.
  constructor; [|constructor]. split; [exact Hdoc|].
  destruct Hpay as (payments & -> & Hpayments).
  destruct Hful as (fulfillments & -> & Hfulfillments).
  split; [|split].
  - exists payments. split; [|exact Hpayments].
    destruct with_meta;
      destruct (get_dump_object_extra env _ _ _ _ _ _ _ "payments" _ Hd eq_refl)
        as (v & Hv & ->); simpl in Hv; congruence.
  - exists fulfillments. split; [|exact Hfulfillments].
    destruct with_meta;
      destruct (get_dump_object_extra env _ _ _ _ _ _ _ "fulfillments" _ Hd eq_refl)
        as (v & Hv & ->); simpl in Hv; congruence.
  - assert (Hdis : exists r, Ok (RelMany (order_discounts (quantize_order env order)))
                             = Ok r /\
                     get_field "discounts" doc =
                       Some (serialize_related env
                               ["type"; "value_type"; "value"; "amount_value"; "name";
                                "translated_name"; "reason"] r)).
    { destruct with_meta;
        exact (get_dump_object_additional env _ _ _ _ _ _ _ "discounts" _ _ Hd
                 eq_refl eq_refl). }
    destruct Hdis as (r & Hr & Hget). injection Hr as <-. simpl in Hget.
    eexists. split; [exact Hget|].
    rewrite map_map. apply List.Forall_forall. intros d Hd'.
    apply in_map_iff in Hd' as (m & <- & _).
    intros k dv Hk Hgetk. simpl in Hk. destruct Hk as [<-|[]].
    unfold dump_related in Hgetk. simpl in Hgetk.
    rewrite dict_get_set_ne in Hgetk by reflexivity.
    rewrite project_get in Hgetk. simpl in Hgetk.
    apply (quantized_column env m ["amount_value"] (order_currency order)
             "amount_value" dv); [simpl; auto | exact Hgetk].
Qed.

Lemma order_payload_amounts_quantized_witness :
  exists payload,
    generate_order_payload Sample.env Sample.order None true = Ok payload /\
    Forall
      (fun doc => forall k d, In k ORDER_PRICE_FIELDS ->
         get_field k doc = Some (PDec d) -> is_quantized Sample.env "USD" d = true)
      (top_objects payload).
Proof.
  eexists. split; [reflexivity|].
  eapply List.Forall_impl;
    [|exact (order_payload_amounts_quantized Sample.env Sample.order None true _ eq_refl)].
  intros doc H. exact (proj1 H).
Defined.

Lemma Forall2_map_left {A B C} (f : A -> B) (P : B -> C -> Prop) (l : list A)
    (k : list C) :
  Forall2 P (map f l) k -> Forall2 (fun a c => P (f a) c) l k.
Proof.
  revert k. induction l as [|a l IH]; intros k H; simpl in H.
  - inversion H. constructor.
  - inversion H; subst. constructor; auto.
Qed.

Lemma decimal_attr_column (m : Model) (name : string) (d : Decimal) :
  decimal_attr m name = Ok d -> dict_get name (columns m) = Some (PDec d).
Proof.
  unfold decimal_attr, attr.
  destruct (dict_get name (columns m)) as [[]|]; try discriminate.
  intros H. now injection H as <-.
Qed.

(** X2. In the order lines payload every price field of a line's document is
    quantized for the currency of that line. *)
Theorem order_lines_payload_prices_quantized (env : Env) (lines : list OrderLine)
    (payload : pyval) :
  generate_order_lines_payload env lines = Ok payload ->
  exists docs,
    payload = PList docs /\
    Forall2
      (fun line doc => forall k d, In k line_price_fields ->
         get_field k doc = Some (PDec d) ->
         is_quantized env (order_line_currency line) d = true)
      lines docs.
Proof.
  unfold generate_order_lines_payload. intros H.
  apply serialize_ok in H as (docs & -> & H). exists docs. split; [reflexivity|].
  apply Forall2_map_left in H.
  induction H as [|line doc ls docs' Hd _ IH]; constructor; [|exact IH].
  intros k d Hk Hget.
  assert (Hcol : dict_get k
            (columns (quantize_price_fields env (order_line_row line) line_price_fields
                        (order_line_currency line))) = Some (PDec d)).
  { simpl in Hk.
    destruct Hk as [<-|[<-|[<-|[<-|[<-|[<-|[<-|[<-|[<-|[]]]]]]]]]].
    all: try (match type of Hget with
              | get_field ?key _ = _ =>
                  rewrite (get_dump_object_projected env _ _ _ _ _ _ _ key Hd
                             eq_refl eq_refl) in Hget
              end;
              unfold order_line_model, quantize_order_line, with_column, with_columns
                in Hget;
              cbn [order_line_row order_line_currency columns String.eqb Ascii.eqb
                   Bool.eqb existsb line_fields orb] in Hget;
              rewrite dict_get_set_ne in Hget by reflexivity; exact Hget).
    - destruct (get_dump_object_extra env _ _ _ _ _ _ _ "total_price_net_amount" _ Hd
                  eq_refl) as (v & Hv & Hf).
      rewrite Hf in Hget. injection Hget as ->. cbn [eval_extra] in Hv.
      apply bind_ok in Hv as (d' & Hd' & Hv). injection Hv as <-.
      exact (decimal_attr_column _ _ _ Hd').
    - destruct (get_dump_object_extra env _ _ _ _ _ _ _ "total_price_gross_amount" _ Hd
                  eq_refl) as (v & Hv & Hf).
      rewrite Hf in Hget. injection Hget as ->. cbn [eval_extra] in Hv.
      apply bind_ok in Hv as (d' & Hd' & Hv). injection Hv as <-.
      exact (decimal_attr_column _ _ _ Hd'). }
  eapply quantized_column; eauto.
Qed.

Lemma order_lines_payload_prices_quantized_witness :
  exists docs,
    generate_order_lines_payload Sample.env [Sample.order_line] = Ok (PList docs) /\
    Forall2
      (fun line doc => forall k d, In k line_price_fields ->
         get_field k doc = Some (PDec d) ->
         is_quantized Sample.env (order_line_currency line) d = true)
      [Sample.order_line] docs.
Proof.
  destruct (order_lines_payload_prices_quantized Sample.env [Sample.order_line] _ eq_refl)
    as (docs & Hp & Hq).
  exists docs. split; [|exact Hq]. now rewrite <- Hp.
Defined.

(** ** Fulfillment lines *)

Lemma quantized_attr_ok (env : Env) (row : Model) (name currency : string)
    (d : Decimal) :
  quantized_attr env row name currency = Ok d ->
  is_quantized env currency d = true.
Proof.
  unfold quantized_attr. intros H. apply bind_ok in H as (d0 & _ & H).
  injection H as <-. apply quantize_price_is_quantized.
Qed.

Lemma decimal_times_quantized (env : Env) (currency : string) (d : Decimal) (n : Z) :
  is_quantized env currency (decimal_times d n) = is_quantized env currency d.
Proof. reflexivity. Qed.

(** X3. In the fulfillment lines payload the undiscounted unit prices are
    quantized for the order line's currency; the line totals are those
    quantized undiscounted unit prices times the fulfilled quantity, still
    quantized; the quantity is the line's; weight and product type are null
    when the order line has lost its variant, and the warehouse id is null
    when the line has no stock. *)
Theorem fulfillment_lines_payload_fields (env : Env) (fulfillment : Fulfillment)
    (payload : pyval) :
  generate_fulfillment_lines_payload env fulfillment = Ok payload ->
  exists docs,
    payload = PList docs /\
    Forall2
      (fun fl doc =>
         let line := fulfillment_line_order_line fl in
         let currency := order_line_currency line in
         let quantity := fulfillment_line_quantity fl in
         (exists net gross,
            get_field "undiscounted_unit_price_net" doc = Some (PDec net) /\
            get_field "undiscounted_unit_price_gross" doc = Some (PDec gross) /\
            is_quantized env currency net = true /\
            is_quantized env currency gross = true /\
            get_field "total_price_net_amount" doc
              = Some (PDec (decimal_times net quantity)) /\
            get_field "total_price_gross_amount" doc
              = Some (PDec (decimal_times gross quantity)) /\
            is_quantized env currency (decimal_times net quantity) = true /\
            is_quantized env currency (decimal_times gross quantity) = true) /\
         get_field "quantity" doc = Some (PInt quantity) /\
         (order_line_variant line = None ->
          get_field "weight" doc = Some PNone /\
          get_field "product_type" doc = Some PNone) /\
         (fulfillment_line_stock fl = None ->
          get_field "warehouse_id" doc = Some PNone))
      (fulfillment_lines fulfillment) docs.
Proof.
  unfold generate_fulfillment_lines_payload. cbv zeta. intros H.
  apply serialize_ok in H as (docs & -> & H). exists docs. split; [reflexivity|].
  induction H as [|fl doc ls docs' Hd _ IH]; constructor; [|exact IH].
  cbv zeta.
  destruct (get_dump_object_extra env _ _ _ _ _ _ _ "undiscounted_unit_price_net" _ Hd
              eq_refl) as (vn & Hvn & Hn).
  destruct (get_dump_object_extra env _ _ _ _ _ _ _ "undiscounted_unit_price_gross" _ Hd
              eq_refl) as (vg & Hvg & Hg).
  destruct (get_dump_object_extra env _ _ _ _ _ _ _ "total_price_net_amount" _ Hd
              eq_refl) as (tn & Htn & Hn').
  destruct (get_dump_object_extra env _ _ _ _ _ _ _ "total_price_gross_amount" _ Hd
              eq_refl) as (tg & Htg & Hg').
  destruct (get_dump_object_extra env _ _ _ _ _ _ _ "weight" _ Hd eq_refl)
    as (w & Hw & Hw').
  destruct (get_dump_object_extra env _ _ _ _ _ _ _ "product_type" _ Hd eq_refl)
    as (pt & Hpt & Hpt').
  destruct (get_dump_object_extra env _ _ _ _ _ _ _ "warehouse_id" _ Hd eq_refl)
    as (wid & Hwid & Hwid').
  cbn [eval_extra] in *.
  apply bind_ok in Hvn as (net & Hnet & Hvn). injection Hvn as <-.
  apply bind_ok in Hvg as (gross & Hgross & Hvg). injection Hvg as <-.
  rewrite Hnet in Htn. rewrite Hgross in Htg. simpl in Htn, Htg.
  injection Htn as <-. injection Htg as <-.
  injection Hw as <-. injection Hpt as <-. injection Hwid as <-.
  split; [|split; [|split]].
  - exists net, gross. rewrite !decimal_times_quantized.
    repeat split; try assumption; eapply quantized_attr_ok; eassumption.
  - rewrite (get_dump_object_projected env _ _ _ _ _ _ _ "quantity" Hd eq_refl eq_refl).
    unfold fulfillment_line_model, with_column, with_columns. cbn [columns].
    simpl. apply dict_get_set_eq.
  - intros Hnone. rewrite Hw', Hpt', Hnone. split; reflexivity.
  - intros Hnone. now rewrite Hwid', Hnone.
Qed.

Lemma fulfillment_lines_payload_fields_witness :
  exists docs doc,
    generate_fulfillment_lines_payload Sample.env Sample.fulfillment = Ok (PList docs) /\
    docs = [doc] /\
    get_field "total_price_net_amount" doc = Some (PDec (mkDecimal 2000 (-2))) /\
    get_field "warehouse_id" doc = Some PNone.
Proof.
  destruct (fulfillment_lines_payload_fields Sample.env Sample.fulfillment _ eq_refl)
    as (docs & Hp & Hq).
  injection Hp as Hp. subst docs.
  inversion Hq as [|fl doc ls docs' Hdoc Hrest]; subst.
  eexists _, _. split; [reflexivity|]. split; [reflexivity|]. split; reflexivity.
Defined.

(** ** Shipping method, identity fields, invoices *)

Lemma filter_first_match {A} (p : A -> bool) (pre post : list A) (x : A) :
  Forall (fun a => p a = false) pre -> p x = true ->
  head (List.filter p (pre ++ x :: post)) = Some x.
Proof.
  intros Hpre Hx. induction Hpre as [|a pre Ha _ IH]; simpl.
  - now rewrite Hx.
  - now rewrite Ha.
Qed.

Lemma filter_no_match {A} (p : A -> bool) (l : list A) :
  Forall (fun a => p a = false) l -> List.filter p l = [].
Proof.
  intros H. induction H as [|a l Ha _ IH]; simpl; [reflexivity|]. now rewrite Ha.
Qed.

(** X4. The shipping method payload of an order or checkout reports the
    currency and the quantized price of the first channel listing that belongs
    to the given channel, whatever listings of other channels come before it
    or whatever comes after; when the method has no listing in the channel
    the function raises instead of returning a payload. *)
Theorem shipping_method_payload_uses_channel_listing (env : Env)
    (shipping_method : ShippingMethod) (channel : Model) :
  let in_channel := fun l => pk_eqb (smcl_channel l) (pk channel) in
  (forall pre listing post,
     shipping_method_channel_listings shipping_method = pre ++ listing :: post ->
     Forall (fun l => in_channel l = false) pre ->
     in_channel listing = true ->
     exists doc,
       _generate_shipping_method_payload env (Some shipping_method) channel = Ok doc /\
       get_field "currency" doc = Some (PStr (smcl_currency listing)) /\
       get_field "price_amount" doc =
         Some (PDec (quantize_price env (smcl_price_amount listing)
                       (smcl_currency listing))) /\
       get_field "name" doc = dict_get "name" (columns (shipping_method_row shipping_method)) /\
       get_field "type" doc = dict_get "type" (columns (shipping_method_row shipping_method))) /\
  (Forall (fun l => in_channel l = false)
     (shipping_method_channel_listings shipping_method) ->
   _generate_shipping_method_payload env (Some shipping_method) channel
     = Raise (AttributeError "currency")).
Proof.
  intros in_channel. subst in_channel. cbv beta. split.
  - intros pre listing post Hl Hpre Hin.
    unfold _generate_shipping_method_payload.
    rewrite Hl, (filter_first_match _ pre post listing Hpre Hin).
    unfold serialize. simpl. eexists. split; [reflexivity|]. simpl.
    rewrite dict_get_set_eq.
    repeat split.
    + rewrite dict_get_set_ne by reflexivity. apply dict_get_set_eq.
    + repeat (rewrite dict_get_set_ne by reflexivity). now rewrite project_get.
    + repeat (rewrite dict_get_set_ne by reflexivity). now rewrite project_get.
  - intros Hnone. unfold _generate_shipping_method_payload.
    now rewrite (filter_no_match _ _ Hnone).
Qed.

Lemma shipping_method_payload_uses_channel_listing_witness :
  exists doc,
    _generate_shipping_method_payload Sample.env (Some Sample.shipping_method)
      Sample.channel = Ok doc /\
    get_field "price_amount" doc = Some (PDec (mkDecimal 1000 (-2))).
Proof.
  destruct (proj1 (shipping_method_payload_uses_channel_listing Sample.env
                     Sample.shipping_method Sample.channel)
              [] _ [] eq_refl (List.Forall_nil _) eq_refl)
    as (doc & Hdoc & _ & Hprice & _).
  exists doc. split; [exact Hdoc | exact Hprice].
Defined.

Lemma attr_quantize_other (env : Env) (m : Model) (fields : list string)
    (currency k : string) :
  existsb (String.eqb k) fields = false ->
  attr (quantize_price_fields env m fields currency) k = attr m k.
Proof.
  intros H. unfold attr. rewrite quantize_price_fields_get, H.
  destruct (dict_get k (columns m)) as [[]|]; reflexivity.
Qed.

(** X5. Every order document carries the order's global id under ["id"], the
    plain id as a string under ["token"], the customer email and the creation
    time; ["original"] is always a global id string built from [original_id],
    also when the order has no original. *)
Theorem order_payload_identity_fields (env : Env) (order : Order)
    (requestor : option Requestor) (with_meta : bool) (payload : pyval) :
  generate_order_payload env order requestor with_meta = Ok payload ->
  Forall
    (fun doc =>
       get_field "id" doc = Some (PStr (to_global_id env "Order" (pk (order_row order)))) /\
       get_field "token" doc = Some (PStr (py_str env (pk (order_row order)))) /\
       get_field "user_email" doc = Some (order_customer_email order) /\
       get_field "created" doc = Some (attr (order_row order) "created_at") /\
       get_field "original" doc =
         Some (PStr (to_global_id env "Order" (attr (order_row order) "original_id"))))
    (top_objects payload).
Proof.
  unfold generate_order_payload. intros H.
  bind_inv H. bind_inv H. bind_inv H. bind_inv H. bind_inv H.
  apply serialize_ok in H as (docs & -> & H). simpl.
  inversion H as [|o doc qs docs' Hd Hrest]; subst. inversion Hrest; subst.
  constructor; [|constructor].
  split; [|split; [|split; [|split]]].
  - destruct with_meta;
      destruct (get_dump_object_extra env _ _ _ _ _ _ _ "id" _ Hd eq_refl)
        as (v & Hv & ->); cbn [eval_extra] in Hv; injection Hv as <-; reflexivity.
  - destruct with_meta;
      destruct (get_dump_object_extra env _ _ _ _ _ _ _ "token" _ Hd eq_refl)
        as (v & Hv & ->); cbn [eval_extra] in Hv; injection Hv as <-; reflexivity.
  - destruct with_meta;
      destruct (get_dump_object_extra env _ _ _ _ _ _ _ "user_email" _ Hd eq_refl)
        as (v & Hv & ->); cbn [eval_extra] in Hv; injection Hv as <-; reflexivity.
  - destruct with_meta;
      destruct (get_dump_object_extra env _ _ _ _ _ _ _ "created" _ Hd eq_refl)
        as (v & Hv & ->); cbn [eval_extra] in Hv; injection Hv as <-;
      f_equal; apply attr_quantize_other; reflexivity.
  - destruct with_meta;
      destruct (get_dump_object_extra env _ _ _ _ _ _ _ "original" _ Hd eq_refl)
        as (v & Hv & ->); cbn [eval_extra] in Hv; injection Hv as <-;
      unfold global_id; do 3 f_equal; apply attr_quantize_other; reflexivity.
Qed.

Lemma order_payload_identity_fields_witness :
  exists payload,
    generate_order_payload Sample.env Sample.order None true = Ok payload /\
    Forall (fun doc => get_field "original" doc = Some (PStr "Order:None"))
      (top_objects payload).
Proof.
  eexists. split; [reflexivity|].
  eapply List.Forall_impl;
    [|exact (order_payload_identity_fields Sample.env Sample.order None true _ eq_refl)].
  intros doc H. exact (proj2 (proj2 (proj2 (proj2 H)))).
Defined.

(** X6. An invoice without order cannot be serialized: the ["order"] field
    reads the id of [None].  With an order the payload has one document, whose
    nested order carries the raw order id as token, quantized price fields and
    no envelope of its own, the envelope being on the invoice document. *)
Theorem invoice_payload_order (env : Env) (invoice : Invoice)
    (requestor : option Requestor) :
  match invoice_order invoice with
  | None =>
      generate_invoice_payload env invoice requestor = Raise (AttributeError "id")
  | Some order =>
      exists doc order_data,
        generate_invoice_payload env invoice requestor = Ok (PList [doc]) /\
        get_field "meta" doc = Some (meta_for env requestor) /\
        get_field "order" doc = Some order_data /\
        get_field "token" order_data = Some (pk (order_row order)) /\
        get_field "user_email" order_data = Some (order_customer_email order) /\
        get_field "meta" order_data = None /\
        (forall k d, In k ORDER_PRICE_FIELDS ->
           get_field k order_data = Some (PDec d) ->
           is_quantized env (order_currency order) d = true)
  end.
Proof.
  destruct invoice as [row [order|]]; cbn [invoice_order]; [|reflexivity].
  unfold generate_invoice_payload, serialize. simpl.
  eexists _, _. split; [reflexivity|].
  cbn [get_field].
  split; [|split; [|split; [|split; [|split]]]].
  - rewrite dict_get_set_ne by reflexivity. apply dict_get_set_eq.
  - apply dict_get_set_eq.
  - cbn [get_field].
    repeat (rewrite dict_get_set_ne by reflexivity). apply dict_get_set_eq.
  - cbn [get_field].
    repeat (rewrite dict_get_set_ne by reflexivity). apply dict_get_set_eq.
  - cbn [get_field].
    repeat (rewrite dict_get_set_ne by reflexivity). now rewrite project_get.
  - intros k d Hk Hget. cbn [get_field] in Hget.
    apply (quantized_column env (order_row order) ORDER_PRICE_FIELDS
             (order_currency order) k d Hk).
    cbn [In ORDER_PRICE_FIELDS] in Hk.
    destruct Hk as [<-|[<-|[<-|[<-|[<-|[<-|[]]]]]]];
      repeat (rewrite dict_get_set_ne in Hget by reflexivity);
      rewrite project_get in Hget; exact Hget.
Qed.

Lemma invoice_payload_order_witness :
  generate_invoice_payload Sample.env
    {| invoice_row := mkModel "Invoice" (PInt 1) [("number", PStr "INV-1")];
       invoice_order := None |} None
    = Raise (AttributeError "id") /\
  exists doc,
    generate_invoice_payload Sample.env
      {| invoice_row := mkModel "Invoice" (PInt 1) [("number", PStr "INV-1")];
         invoice_order := Some Sample.order |} None = Ok (PList [doc]).
Proof.
  split.
  - exact (invoice_payload_order Sample.env
             {| invoice_row := mkModel "Invoice" (PInt 1) [("number", PStr "INV-1")];
                invoice_order := None |} None).
  - destruct (invoice_payload_order Sample.env
                {| invoice_row := mkModel "Invoice" (PInt 1) [("number", PStr "INV-1")];
                   invoice_order := Some Sample.order |} None)
      as (doc & _ & Hdoc & _).
    exists doc. exact Hdoc.
Defined.

(** ** Payments, transactions, translations *)

(** X7. The payment payload always carries the quantized amount and the
    gateway and currency of the payment data; ["payment_method"] and ["meta"]
    are set together, exactly when the gateway id is a payment-app id; every
    other field of the dataclass is passed on unchanged. *)
Theorem payment_payload_fields (env : Env) (payment_data : PaymentData)
    (requestor : option Requestor) :
  let payload := generate_payment_payload env payment_data requestor in
  let amount := quantize_price env (payment_amount payment_data)
                  (payment_currency payment_data) in
  get_field "amount" payload = Some (PDec amount) /\
  is_quantized env (payment_currency payment_data) amount = true /\
  get_field "gateway" payload = Some (PStr (payment_gateway payment_data)) /\
  get_field "currency" payload = Some (PStr (payment_currency payment_data)) /\
  match from_payment_app_id env (payment_gateway payment_data) with
  | Some name =>
      get_field "payment_method" payload = Some (PStr name) /\
      get_field "meta" payload = Some (meta_for env requestor)
  | None =>
      get_field "payment_method" payload
        = dict_get "payment_method" (payment_other_fields payment_data) /\
      get_field "meta" payload = dict_get "meta" (payment_other_fields payment_data)
  end /\
  (forall k,
     existsb (String.eqb k) ["gateway"; "amount"; "currency"; "payment_method"; "meta"]
       = false ->
     get_field k payload = dict_get k (payment_other_fields payment_data)).
Proof.
  intros payload amount. subst payload.
  assert (Hbase : forall k,
            dict_get k (dict_set "amount" (PDec amount) (asdict payment_data)) =
              if String.eqb k "amount" then Some (PDec amount)
              else match last_binding k
                           [("gateway", PStr (payment_gateway payment_data));
                            ("amount", PDec (payment_amount payment_data));
                            ("currency", PStr (payment_currency payment_data))] with
                   | Some v => Some v
                   | None => dict_get k (payment_other_fields payment_data)
                   end).
  { intros k. rewrite dict_get_set. unfold asdict. now rewrite dict_get_update. }
  assert (Hother : forall k,
            existsb (String.eqb k)
              ["gateway"; "amount"; "currency"; "payment_method"; "meta"] = false ->
            String.eqb k "payment_method" = false /\ String.eqb k "meta" = false /\
            dict_get k (dict_set "amount" (PDec amount) (asdict payment_data))
              = dict_get k (payment_other_fields payment_data)).
  { intros k Hk. simpl in Hk.
    apply orb_false_elim in Hk as [Hg Hk]. apply orb_false_elim in Hk as [Ha Hk].
    apply orb_false_elim in Hk as [Hc Hk]. apply orb_false_elim in Hk as [Hp Hk].
    apply orb_false_elim in Hk as [Hm _].
    split; [exact Hp|]. split; [exact Hm|].
    rewrite Hbase, Ha. simpl. now rewrite Hc, Ha, Hg. }
  unfold generate_payment_payload. fold amount.
  destruct (from_payment_app_id env (payment_gateway payment_data)) as [name|];
    cbn [get_field].
  - split.
    { do 2 (rewrite dict_get_set_ne by reflexivity). now rewrite Hbase. }
    split; [apply quantize_price_is_quantized|].
    split.
    { do 2 (rewrite dict_get_set_ne by reflexivity). now rewrite Hbase. }
    split.
    { do 2 (rewrite dict_get_set_ne by reflexivity). now rewrite Hbase. }
    split.
    { split; [|apply dict_get_set_eq].
      rewrite dict_get_set_ne by reflexivity. apply dict_get_set_eq. }
    intros k Hk. destruct (Hother k Hk) as (Hp & Hm & Hget).
    now rewrite !dict_get_set_ne by assumption.
  - split; [now rewrite Hbase|].
    split; [apply quantize_price_is_quantized|].
    split; [now rewrite Hbase|]. split; [now rewrite Hbase|].
    split; [split; now rewrite Hbase|].
    intros k Hk. now destruct (Hother k Hk) as (_ & _ & Hget).
Qed.

Lemma payment_payload_fields_witness :
  get_field "order_id" (generate_payment_payload Sample.env Sample.payment_data None)
    = Some (PStr "T3JkZXI6MQ==").
Proof.
  exact (proj2 (proj2 (proj2 (proj2 (proj2
           (payment_payload_fields Sample.env Sample.payment_data None)))))
           "order_id" eq_refl).
Defined.



Ltac case_context_ids c :=
  repeat match goal with
         | |- context [truthy match dict_get ?k c with Some v => v | None => PNone end] =>
             destruct (truthy match dict_get k c with Some v => v | None => PNone end)
         end.

(** X9. Whatever the translation context holds, [process_translation_context]
    returns exactly the five id keys, in their fixed order; each holds the
    global id of the context's value, or null when the context has no value
    for the key or a falsy one (such as 0 or the empty string); other keys
    of the context are dropped. *)
Theorem translation_context_has_five_keys (env : Env) (ctx : dict) :
  let result := process_translation_context env ctx in
  dict_keys result =
    ["product_id"; "product_variant_id"; "attribute_id"; "page_id"; "page_type_id"] /\
  forall key type_name,
    In (key, type_name)
       [("product_id", "Product"); ("product_variant_id", "ProductVariant");
        ("attribute_id", "Attribute"); ("page_id", "Page");
        ("page_type_id", "PageType")] ->
    dict_get key result =
      Some match dict_get key ctx with
           | Some object_id =>
               if truthy object_id
               then PStr (to_global_id env type_name object_id)
               else PNone
           | None => PNone
           end.
Proof.
  intros result. subst result. unfold process_translation_context.
  cbn [fold_left].
  split.
  - case_context_ids ctx; reflexivity.
  - intros key type_name Hin. simpl in Hin.
    destruct Hin as [H|[H|[H|[H|[H|[]]]]]]; injection H as <- <-;
      match goal with
      | |- _ = Some match dict_get ?k ctx with _ => _ end =>
          destruct (dict_get k ctx) as [object_id|]; cbn [truthy]
      end;
      case_context_ids ctx;
      repeat match goal with
             | |- context [truthy ?v] => destruct (truthy v)
             end; reflexivity.
Qed.

Lemma translation_context_has_five_keys_witness :
  dict_get "page_id"
    (process_translation_context Sample.env
       [("page_id", PInt 0); ("product_id", PInt 7); ("unrelated", PInt 1)])
    = Some PNone /\
  dict_get "product_id"
    (process_translation_context Sample.env
       [("page_id", PInt 0); ("product_id", PInt 7); ("unrelated", PInt 1)])
    = Some (PStr "Product:7").
Proof.
  split.
  - exact (proj2 (translation_context_has_five_keys Sample.env
                    [("page_id", PInt 0); ("product_id", PInt 7); ("unrelated", PInt 1)])
             "page_id" "Page" ltac:(simpl; auto)).
  - exact (proj2 (translation_context_has_five_keys Sample.env
                    [("page_id", PInt 0); ("product_id", PInt 7); ("unrelated", PInt 1)])
             "product_id" "Product" ltac:(simpl; auto)).
Defined.

(** X10. A translation payload has the keys id, language_code, type, keys and
    meta, followed by the five context ids exactly when the translation is an
    attribute value translation; the context never overwrites the five base
    fields, and ["keys"] lists the translated keys in their order. *)
Theorem translation_payload_shape (env : Env) (translation : Translation)
    (requestor : option Requestor) :
  exists data,
    generate_translation_payload env translation requestor = PDict data /\
    dict_keys data =
      ["id"; "language_code"; "type"; "keys"; "meta"] ++
      match attribute_value_translation_context translation with
      | Some _ =>
          ["product_id"; "product_variant_id"; "attribute_id"; "page_id";
           "page_type_id"]
      | None => []
      end /\
    dict_get "id" data =
      Some (PStr (to_global_id env (fst (translated_object_id translation))
                    (snd (translated_object_id translation)))) /\
    dict_get "type" data = Some (PStr (fst (translated_object_id translation))) /\
    dict_get "language_code" data = Some (translation_language_code translation) /\
    dict_get "keys" data =
      Some (PList (map (fun kv => PDict [("key", PStr (fst kv)); ("value", snd kv)])
                     (translated_keys translation))) /\
    dict_get "meta" data = Some (meta_for env requestor).
Proof.
  unfold generate_translation_payload.
  destruct (translated_object_id translation) as [object_type object_id].
  destruct (attribute_value_translation_context translation) as [c|].
  - unfold process_translation_context. cbn [fold_left].
    case_context_ids c; eexists; (split; [reflexivity|]); repeat split.
  - eexists. split; [reflexivity|]. repeat split.
Qed.

(** ** Payloads that nest a checkout or an order *)

Lemma serialize_singleton (env : Env) {T : Type} (model_of : T -> Model) (obj : T)
    (fields : list string) (obj_id_name : string)
    (additional : list (string * ((T -> result Related) * list string)))
    (extra : list (string * ExtraValue T)) (payload : pyval) :
  serialize env model_of [obj] fields obj_id_name additional extra = Ok payload ->
  exists doc, payload = PList [doc].
Proof.
  intros H. apply serialize_ok in H as (docs & -> & H).
  inversion H as [|o doc qs docs' _ Hrest]; subst. inversion Hrest; subst. eauto.
Qed.

Lemma order_payload_singleton (env : Env) (order : Order)
    (requestor : option Requestor) (with_meta : bool) (payload : pyval) :
  generate_order_payload env order requestor with_meta = Ok payload ->
  exists doc, payload = PList [doc].
Proof.
  unfold generate_order_payload. intros H.
  bind_inv H. bind_inv H. bind_inv H. bind_inv H. bind_inv H.
  eapply serialize_singleton; eauto.
Qed.

Lemma checkout_payload_singleton (env : Env) (checkout : Checkout)
    (requestor : option Requestor) (payload : pyval) :
  generate_checkout_payload env checkout requestor = Ok payload ->
  exists doc, payload = PList [doc].
Proof.
  unfold generate_checkout_payload. intros H. bind_inv H. bind_inv H.
  eapply serialize_singleton; eauto.
Qed.

(** The envelope written for no requestor names the null principal. *)
Lemma anonymous_meta (env : Env) :
  get_field "issuing_principal" (meta_for env None)
    = Some (PDict [("id", PNone); ("type", PNone)]).
Proof. reflexivity. Qed.

(** X11. Without a checkout the list-gateways payload is
    [{"checkout": null, "currency": currency}] and nothing can fail; with a
    checkout it succeeds exactly when the checkout payload does, passes the
    currency through, and nests the checkout document generated for no
    requestor, whose envelope names the null principal. *)
Theorem list_gateways_payload_shape (env : Env) (currency : option string) :
  generate_list_gateways_payload env currency None =
    Ok (PDict [("checkout", PNone); ("currency", opt_str currency)]) /\
  forall checkout : Checkout,
    match generate_checkout_payload env checkout None with
    | Raise e => generate_list_gateways_payload env currency (Some checkout) = Raise e
    | Ok checkout_payload =>
        exists checkout_data meta,
          checkout_payload = PList [checkout_data] /\
          generate_list_gateways_payload env currency (Some checkout) =
            Ok (PDict [("checkout", checkout_data); ("currency", opt_str currency)]) /\
          get_field "meta" checkout_data = Some meta /\
          get_field "issuing_principal" meta
            = Some (PDict [("id", PNone); ("type", PNone)])
    end.
Proof.
  split; [reflexivity|]. intros checkout.
  unfold generate_list_gateways_payload.
  destruct (generate_checkout_payload env checkout None) as [p|e] eqn:E;
    [|reflexivity].
  destruct (checkout_payload_singleton _ _ _ _ E) as [doc ->].
  pose proof E as Hmeta. unfold generate_checkout_payload in Hmeta. binds Hmeta.
  eapply serialize_const_extra with (k := "meta") in Hmeta; [|reflexivity].
  inversion Hmeta as [|? ? Hdoc _]; subst.
  exists doc, (meta_for env None). repeat split. exact Hdoc.
Qed.

Lemma list_gateways_payload_shape_witness :
  exists checkout_data,
    generate_list_gateways_payload Sample.env (Some "USD") (Some Sample.checkout) =
      Ok (PDict [("checkout", checkout_data); ("currency", PStr "USD")]).
Proof.
  pose proof (proj2 (list_gateways_payload_shape Sample.env (Some "USD"))
                Sample.checkout) as H.
  destruct (generate_checkout_payload Sample.env Sample.checkout None) as [p|e] eqn:E;
    [|discriminate E].
  destruct H as (checkout_data & meta & _ & H & _).
  exists checkout_data. exact H.
Defined.

(** X12. The excluded-shipping-methods payloads succeed exactly when the
    nested order or checkout payload does, whatever the shipping methods;
    ["shipping_methods"] then lists one entry per available method, in order,
    each with the method's id, name, currency and price amount; the nested
    order or checkout is generated for no requestor. *)
Theorem excluded_shipping_methods_payload_shape (env : Env) (order : Order)
    (checkout : Checkout) (methods : list ShippingMethodData) :
  let entry_of := fun (m : ShippingMethodData) (doc : pyval) =>
    get_field "id" doc = Some (smd_graphql_id m) /\
    get_field "name" doc = Some (smd_name m) /\
    get_field "currency" doc = Some (PStr (smd_price_currency m)) /\
    get_field "price" doc = Some (PDec (smd_price_amount m)) in
  match generate_order_payload env order None true with
  | Raise e =>
      generate_excluded_shipping_methods_for_order_payload env order methods = Raise e
  | Ok order_payload =>
      exists order_data entries,
        order_payload = PList [order_data] /\
        generate_excluded_shipping_methods_for_order_payload env order methods =
          Ok (PDict [("order", order_data); ("shipping_methods", PList entries)]) /\
        Forall2 entry_of methods entries /\
        get_field "meta" order_data = Some (meta_for env None)
  end /\
  match generate_checkout_payload env checkout None with
  | Raise e =>
      generate_excluded_shipping_methods_for_checkout_payload env checkout methods
        = Raise e
  | Ok checkout_payload =>
      exists checkout_data entries,
        checkout_payload = PList [checkout_data] /\
        generate_excluded_shipping_methods_for_checkout_payload env checkout methods =
          Ok (PDict [("checkout", checkout_data); ("shipping_methods", PList entries)]) /\
        Forall2 entry_of methods entries /\
        get_field "meta" checkout_data = Some (meta_for env None)
  end.
Proof.
  intros entry_of.
  assert (Hentries : Forall2 entry_of methods
                       (map _generate_payload_for_shipping_method methods)).
  { induction methods as [|m ms IH]; constructor; [|exact IH].
    repeat split. }
  split.
  - unfold generate_excluded_shipping_methods_for_order_payload.
    destruct (generate_order_payload env order None true) as [p|e] eqn:E;
      [|reflexivity].
    destruct (order_payload_singleton _ _ _ _ _ E) as [doc ->].
    pose proof E as Hmeta. unfold generate_order_payload in Hmeta. binds Hmeta.
    eapply serialize_const_extra with (k := "meta") in Hmeta; [|reflexivity].
    inversion Hmeta as [|? ? Hdoc _]; subst.
    eexists doc, _. repeat split; [exact Hentries | exact Hdoc].
  - unfold generate_excluded_shipping_methods_for_checkout_payload.
    destruct (generate_checkout_payload env checkout None) as [p|e] eqn:E;
      [|reflexivity].
    destruct (checkout_payload_singleton _ _ _ _ E) as [doc ->].
    pose proof E as Hmeta. unfold generate_checkout_payload in Hmeta. binds Hmeta.
    eapply serialize_const_extra with (k := "meta") in Hmeta; [|reflexivity].
    inversion Hmeta as [|? ? Hdoc _]; subst.
    eexists doc, _. repeat split; [exact Hentries | exact Hdoc].
Qed.

(** ** The envelope's content *)

Ltac names_requestor H :=
  binds H; eapply serialize_const_extra; [exact H | reflexivity].

(** X13. Wherever a generator writes the envelope it holds exactly the clock
    reading, the package version and the principal computed by
    [generate_requestor] from the requestor the generator was called with,
    under ["issued_at"], ["version"] and ["issuing_principal"]. *)
Theorem meta_envelope_names_the_requestor (env : Env) (call : PayloadCall)
    (payload : pyval) :
  run_payload env call = Ok payload ->
  meta_policy env call = CarriesMeta ->
  Forall
    (fun doc =>
       get_field "meta" doc =
         Some (PDict [("issued_at", PStr (now_isoformat env));
                      ("version", PStr (saleor_version env));
                      ("issuing_principal",
                       PDict (generate_requestor env (call_requestor call)))]))
    (top_objects payload).
Proof.
  destruct call; simpl; intros H Hpolicy; try discriminate.
  - destruct with_meta; [|discriminate].
    unfold generate_order_payload in H. names_requestor H.
  - unfold generate_sale_payload in H. cbv zeta in H. cbn [fst snd] in H.
    repeat (match type of H with
            | context [_calculate_added ?p ?c ?k] =>
                destruct (_calculate_added p c k) as [? [? ?]]
            | context [_calculate_removed ?p ?c ?k] =>
                destruct (_calculate_removed p c k) as [? [? ?]]
            end; cbn [fst snd] in H).
    names_requestor H.
  - unfold generate_invoice_payload in H. names_requestor H.
  - unfold generate_checkout_payload in H. names_requestor H.
  - unfold generate_customer_payload in H. names_requestor H.
  - unfold generate_collection_payload in H. names_requestor H.
  - unfold generate_product_deleted_payload in H. names_requestor H.
  - unfold generate_product_variant_with_stock_payload in H. names_requestor H.
  - destruct with_meta; [|discriminate].
    unfold generate_product_variant_payload in H. names_requestor H.
  - unfold generate_fulfillment_payload in H. names_requestor H.
  - injection H as <-.
    pose proof (payment_payload_meta env payment_data requestor) as Hm.
    destruct (from_payment_app_id env (payment_gateway payment_data));
      [|destruct (has_key "meta" (payment_other_fields payment_data)); discriminate].
    constructor; [exact Hm | constructor].
  - injection H as <-.
    pose proof (translation_payload_meta env translation requestor) as Hm.
    destruct (generate_translation_payload env translation requestor);
      try discriminate.
    constructor; [exact Hm | constructor].
  - injection H as <-. repeat constructor.
Qed.

Lemma meta_envelope_names_the_requestor_witness :
  exists payload,
    run_payload Sample.env
      (CustomerPayload Sample.customer (Some (ReqApp Sample.app))) = Ok payload /\
    Forall
      (fun doc =>
         get_field "meta" doc =
           Some (PDict [("issued_at", PStr "2022-06-01T12:00:00+00:00");
                        ("version", PStr "3.5.0");
                        ("issuing_principal",
                         PDict [("id", PStr "Avalara"); ("type", PStr "app")])]))
      (top_objects payload).
Proof.
  eexists. split; [reflexivity|].
  exact (meta_envelope_names_the_requestor Sample.env
           (CustomerPayload Sample.customer (Some (ReqApp Sample.app))) _
           eq_refl eq_refl).
Defined.

(** ** Masking the checkout token *)

Lemma dict_set_twice {V} (k : string) (v : V) (d : list (string * V)) :
  dict_set k v (dict_set k v d) = dict_set k v d.
Proof.
  induction d as [|[k' v'] d IH]; simpl.
  - now rewrite String.eqb_refl.
  - destruct (String.eqb k k') eqn:E; simpl.
    + now rewrite String.eqb_refl.
    + now rewrite E, IH.
Qed.

(** X14. [_remove_token_from_checkout] succeeds exactly on an array whose
    first element is an object; on the empty array it fails with an
    [IndexError]; and masking a masked document changes nothing. *)
Theorem remove_token_from_checkout_partial_and_idempotent :
  (forall payload,
     is_ok (_remove_token_from_checkout payload) = true <->
     exists first rest, payload = PList (PDict first :: rest)) /\
  _remove_token_from_checkout (PList []) = Raise IndexError /\
  (forall payload masked,
     _remove_token_from_checkout payload = Ok masked ->
     _remove_token_from_checkout masked = Ok masked).
Proof.
  split; [|split; [reflexivity|]].
  - intros payload. split.
    + destruct payload as [| | | | |[|[] rest]|]; simpl; try discriminate. eauto.
    + intros (first & rest & ->). reflexivity.
  - intros payload masked H.
    destruct payload as [| | | | |[|[] rest]|]; simpl in H; try discriminate.
    injection H as <-. simpl. now rewrite dict_set_twice.
Qed.

Lemma remove_token_from_checkout_partial_and_idempotent_witness :
  _remove_token_from_checkout
    (PList [PDict [("token", PStr "00000000-0000-0000-0000-000000000001");
                   ("email", PStr "customer@example.com")]])
    = Ok (PList [PDict [("token", PStr "00000000-0000-0000-0000-000000000001");
                        ("email", PStr "customer@example.com")]]).
Proof.
  apply (proj2 (proj2 remove_token_from_checkout_partial_and_idempotent)
           (PList [PDict [("token", PStr "c0ffee");
                          ("email", PStr "customer@example.com")]])).
  reflexivity.
Defined.

(** ** Sample payloads *)

(** X15. What [generate_sample_payload] does when the table it samples is
    empty depends on the event: for a product event and for the order events
    it returns [None]; for a checkout or page event no branch assigns
    [payload] and reading it fails; for the fulfillment event it reads
    [.order] off [None].  An event it does not know returns [None] without
    any query, and [ORDER_UPDATED] samples as [ORDER_CANCELLED] does. *)
Theorem sample_payload_without_rows (env : Env) (db : SampleSource) :
  (sample_product db = None ->
   generate_sample_payload env db PRODUCT_CREATED = Returned None) /\
  (sample_checkout db = None ->
   generate_sample_payload env db CHECKOUT_CREATED = UnboundLocalError "payload" /\
   generate_sample_payload env db CHECKOUT_UPDATED = UnboundLocalError "payload") /\
  (sample_page db = None ->
   generate_sample_payload env db PAGE_CREATED = UnboundLocalError "payload" /\
   generate_sample_payload env db PAGE_UPDATED = UnboundLocalError "payload" /\
   generate_sample_payload env db PAGE_DELETED = UnboundLocalError "payload") /\
  (sample_fulfillment db = None ->
   generate_sample_payload env db FULFILLMENT_CREATED = Raised (AttributeError "order")) /\
  (forall event f,
     sample_order_filter event = Some f -> sample_order db f = None ->
     generate_sample_payload env db event = Returned None) /\
  (forall name, generate_sample_payload env db (OtherEvent name) = Returned None) /\
  generate_sample_payload env db ORDER_UPDATED
    = generate_sample_payload env db ORDER_CANCELLED.
Proof.
  split; [|split; [|split; [|split; [|split; [|split]]]]].
  - intros H. simpl. now rewrite H.
  - intros H. simpl. rewrite H. split; reflexivity.
  - intros H. simpl. rewrite H. split; [|split]; reflexivity.
  - intros H. simpl. now rewrite H.
  - intros event f Hf Hnone.
    destruct event; simpl in Hf; try discriminate; injection Hf as <-;
      simpl; unfold _generate_sample_order_payload; simpl; now rewrite Hnone.
  - reflexivity.
  - reflexivity.
Qed.

Lemma sample_payload_without_rows_witness :
  generate_sample_payload Sample.env SampleData.empty_db CHECKOUT_CREATED
    = UnboundLocalError "payload" /\
  generate_sample_payload Sample.env SampleData.empty_db ORDER_CREATED = Returned None /\
  generate_sample_payload Sample.env SampleData.empty_db FULFILLMENT_CREATED
    = Raised (AttributeError "order").
Proof.
  pose proof (sample_payload_without_rows Sample.env SampleData.empty_db)
    as (_ & Hc & _ & Hf & Ho & _).
  split; [exact (proj1 (Hc eq_refl))|].
  split; [exact (Ho ORDER_CREATED StatusUnfulfilled eq_refl eq_refl) | exact (Hf eq_refl)].
Defined.

(** X16. A sample checkout payload never shows the token of the sampled
    checkout: whenever the generator returns a document for a checkout event,
    its first element carries the fixed UUID as token, and an envelope that
    names the null principal. *)
Theorem sample_checkout_payload_masks_token (env : Env) (db : SampleSource)
    (event : EventName) (document : option pyval) :
  event = CHECKOUT_CREATED \/ event = CHECKOUT_UPDATED ->
  generate_sample_payload env db event = Returned document ->
  exists first rest,
    document = Some (PList (first :: rest)) /\
    get_field "token" first = Some (PStr "00000000-0000-0000-0000-000000000001") /\
    get_field "meta" first = Some (meta_for env None).
Proof.
  intros Hevent H.
  assert (Hgen : match sample_checkout db with
                 | Some checkout =>
                     outcome_of
                       (let* checkout_payload :=
                          generate_checkout_payload env (anonymize_checkout db checkout)
                            None in
                        let* payload := _remove_token_from_checkout checkout_payload in
                        Ok (Some payload))
                 | None => UnboundLocalError "payload"
                 end = Returned document).
  { destruct Hevent as [-> | ->]; exact H. }
  clear H Hevent.
  destruct (sample_checkout db) as [checkout|]; [|discriminate].
  destruct (generate_checkout_payload env (anonymize_checkout db checkout) None)
    as [p|e] eqn:E; [|discriminate].
  destruct (checkout_payload_singleton _ _ _ _ E) as [doc ->].
  pose proof E as Hmeta. unfold generate_checkout_payload in Hmeta. binds Hmeta.
  eapply serialize_const_extra with (k := "meta") in Hmeta; [|reflexivity].
  inversion Hmeta as [|? ? Hdoc _]; subst.
  pose proof E as Hd. unfold generate_checkout_payload in Hd. binds Hd.
  apply serialize_ok in Hd as (docs & Heq & Hd). injection Heq as <-.
  inversion Hd as [|o d qs ds Hdump _]; subst.
  destruct doc as [| | | | | |fields];
    try (unfold get_dump_object in Hdump; binds Hdump; discriminate).
  simpl in Hgen. injection Hgen as <-.
  eexists _, _. split; [reflexivity|]. cbn [get_field] in *. split.
  - apply dict_get_set_eq.
  - rewrite dict_get_set_ne by reflexivity. exact Hdoc.
Qed.

Lemma sample_checkout_payload_masks_token_witness :
  exists document first rest,
    generate_sample_payload Sample.env SampleData.db CHECKOUT_UPDATED
      = Returned document /\
    document = Some (PList (first :: rest)) /\
    get_field "token" first = Some (PStr "00000000-0000-0000-0000-000000000001").
Proof.
  eexists.
  destruct (sample_checkout_payload_masks_token Sample.env SampleData.db
              CHECKOUT_UPDATED _ (or_intror eq_refl) eq_refl)
    as (first & rest & Hdoc & Htoken & _).
  exists first, rest. split; [reflexivity|]. split; [exact Hdoc | exact Htoken].
Defined.

(** X17. For the customer events the sample generator needs no row: it
    always returns one customer document, built from the fake user for no
    requestor, the same for [CUSTOMER_CREATED] and [CUSTOMER_UPDATED]. *)
Theorem sample_customer_payload_total (env : Env) (db : SampleSource) :
  exists doc,
    generate_sample_payload env db CUSTOMER_CREATED = Returned (Some (PList [doc])) /\
    generate_sample_payload env db CUSTOMER_UPDATED = Returned (Some (PList [doc])) /\
    get_field "meta" doc = Some (meta_for env None) /\
    get_field "email" doc = dict_get "email" (columns (user_row (generate_fake_user db))) /\
    get_field "addresses" doc =
      Some (PList (map (fun a => dump_related env ADDRESS_FIELDS (address_row a))
                     (user_addresses (generate_fake_user db)))).
Proof.
  unfold generate_sample_payload, generate_customer_payload, serialize. simpl.
  eexists. split; [reflexivity|]. split; [reflexivity|]. cbn [get_field].
  split; [apply dict_get_set_eq|]. split.
  - repeat (rewrite dict_get_set_ne by reflexivity). now rewrite project_get.
  - rewrite dict_get_set_ne by reflexivity. rewrite dict_get_set_eq.
    now rewrite map_map.
Qed.

Lemma product_listing_payload_total (env : Env)
    (listings : list ProductChannelListing) :
  exists docs,
    serialize_product_channel_listing_payload env listings = Ok (PList docs).
Proof.
  unfold serialize_product_channel_listing_payload, serialize.
  match goal with
  | |- context [mapM ?f listings] => destruct (mapM_is_ok f listings) as [docs Hdocs]
  end.
  { intros pch. eexists. reflexivity. }
  rewrite Hdocs. simpl. eauto.
Qed.

(** X18. [generate_product_payload] fails on every product: its ["variants"]
    callable hands the product, not its variants, to the variant generator,
    which iterates over its argument.  So the sample generator fails too
    whenever it finds a product, while the deleted-product payload, which
    takes the variant ids as they are, always returns its document. *)
Theorem product_payload_fails_on_variants (env : Env) (product : Product)
    (requestor : option Requestor) :
  generate_product_payload env product requestor
    = Raise (TypeError "'Product' object is not iterable") /\
  (forall db, sample_product db = Some product ->
     generate_sample_payload env db PRODUCT_CREATED
       = Raised (TypeError "'Product' object is not iterable")) /\
  (forall variants_id,
     exists doc,
       generate_product_deleted_payload env product variants_id requestor
         = Ok (PList [doc]) /\
       get_field "variants" doc
         = Some (PList (map (fun id => PStr (to_global_id env "ProductVariant" id))
                          variants_id)) /\
       get_field "meta" doc = Some (meta_for env requestor)).
Proof.
  assert (Hraise : forall r,
            generate_product_payload env product r
              = Raise (TypeError "'Product' object is not iterable")).
  { intros r. unfold generate_product_payload.
    destruct (product_listing_payload_total env (product_channel_listings product))
      as [docs ->].
    reflexivity. }
  split; [apply Hraise|]. split.
  - intros db Hdb. simpl. now rewrite Hdb, Hraise.
  - intros variants_id. unfold generate_product_deleted_payload, serialize. simpl.
    eexists. split; [reflexivity|]. cbn [get_field].
    split; [apply dict_get_set_eq|].
    rewrite dict_get_set_ne by reflexivity. apply dict_get_set_eq.
Qed.

Lemma product_payload_fails_on_variants_witness :
  let product :=
    {| product_row := mkModel "Product" (PInt 6) [("name", PStr "Shirt")];
       product_category := None;
       product_collections := [];
       product_attributes := PList [];
       product_media := [];
       product_channel_listings := [Sample.product_listing];
       product_variants := [Sample.variant] |} in
  let db :=
    {| sample_order := fun _ => None;
       sample_product := Some product;
       sample_checkout := None;
       sample_page := None;
       sample_fulfillment := None;
       generate_fake_user := Sample.customer;
       anonymize_checkout := fun c => c;
       anonymize_order := fun o => o |} in
  generate_sample_payload Sample.env db PRODUCT_CREATED
    = Raised (TypeError "'Product' object is not iterable").
Proof.
  intros product db.
  exact (proj1 (proj2 (product_payload_fails_on_variants Sample.env product None))
           db eq_refl).
Defined.

(** * Further properties of the App resolvers *)



(** X20. The three metadata resolvers of the App type share one gate: each
    returns its value exactly when the access check answers yes, raises
    [PermissionDenied] naming [MANAGE_APPS] and [OWNER] exactly when it
    answers no, and lets an exception of the check itself through. *)
Theorem app_metadata_resolvers_gate (fw : Framework) (root : App)
    (context : ContextT fw) (key : string) (keys : option (list string)) :
  match has_access_to_app_public_meta fw root context with
  | Ok true =>
      resolve_metadata fw root context = Ok (object_metadata fw root) /\
      resolve_metafield fw root context key = Ok (object_metafield fw root key) /\
      resolve_metafields fw root context keys = Ok (object_metafields fw root keys)
  | Ok false =>
      resolve_metadata fw root context = Raise (PermissionDenied [MANAGE_APPS; OWNER]) /\
      resolve_metafield fw root context key
        = Raise (PermissionDenied [MANAGE_APPS; OWNER]) /\
      resolve_metafields fw root context keys
        = Raise (PermissionDenied [MANAGE_APPS; OWNER])
  | Raise e =>
      resolve_metadata fw root context = Raise e /\
      resolve_metafield fw root context key = Raise e /\
      resolve_metafields fw root context keys = Raise e
  end.
Proof.
  unfold resolve_metadata, resolve_metafield, resolve_metafields,
    check_permission_for_access_to_meta.
  destruct (has_access_to_app_public_meta fw root context) as [[|]|e];
    repeat split.
Qed.

(** X21. [AppExtension.resolve_app] only ever asks for the extension's own
    app: it returns [root.app_id] when the app of the request is that app or
    the requester holds [MANAGE_APPS], and raises [PermissionDenied] naming
    [MANAGE_APPS] and [OWNER] otherwise; a user who does not hold the
    permission is refused whoever they are. *)
Theorem extension_app_gate (fw : Framework) (root : AppExtension)
    (context : ContextT fw) :
  let is_own_app :=
    match context_app fw context with
    | Some app => pk_eqb (pk (app_row app)) (extension_app_id root)
    | None => false
    end in
  let allowed := is_own_app || has_perm (requester_of_context fw context) MANAGE_APPS in
  resolve_app fw root context =
    (if allowed && truthy (extension_app_id root)
     then Ok (extension_app_id root)
     else Raise (PermissionDenied [MANAGE_APPS; OWNER])) /\
  (forall id, resolve_app fw root context = Ok id -> id = extension_app_id root) /\
  (context_app fw context = None ->
   has_perm (requester_of_context fw context) MANAGE_APPS = false ->
   resolve_app fw root context = Raise (PermissionDenied [MANAGE_APPS; OWNER])).
Proof.
  intros is_own_app allowed.
  assert (Heq : resolve_app fw root context =
                  (if allowed && truthy (extension_app_id root)
                   then Ok (extension_app_id root)
                   else Raise (PermissionDenied [MANAGE_APPS; OWNER]))).
  { unfold resolve_app, allowed, is_own_app.
    destruct (context_app fw context) as [app|];
      [destruct (pk_eqb (pk (app_row app)) (extension_app_id root))|];
      destruct (has_perm (requester_of_context fw context) MANAGE_APPS);
      cbn [orb andb negb truthy]; try reflexivity;
      now destruct (truthy (extension_app_id root)). }
  split; [exact Heq|]. split.
  - intros id. rewrite Heq.
    destruct (allowed && truthy (extension_app_id root)); [|discriminate].
    intros H. now injection H as <-.
  - intros Happ Hperm. rewrite Heq. unfold allowed, is_own_app.
    now rewrite Happ, Hperm.
Qed.

Lemma extension_app_gate_witness :
  let extension :=
    {| extension_row := mkModel "AppExtension" (PInt 44) [];
       extension_app_id := PInt 1;
       extension_target := PStr "popup" |} in
  resolve_app SampleData.fw extension
    {| SampleData.request_token := None;
       SampleData.request_app := None;
       SampleData.request_user := Some Sample.customer |}
    = Raise (PermissionDenied [MANAGE_APPS; OWNER]) /\
  resolve_app SampleData.fw extension
    {| SampleData.request_token := None;
       SampleData.request_app := Some Sample.app;
       SampleData.request_user := None |}
    = Ok (PInt 1).
Proof.
  intros extension. split.
  - exact (proj2 (proj2 (extension_app_gate SampleData.fw extension
                           {| SampleData.request_token := None;
                              SampleData.request_app := None;
                              SampleData.request_user := Some Sample.customer |}))
             eq_refl eq_refl).
  - exact (proj1 (extension_app_gate SampleData.fw extension
                    {| SampleData.request_token := None;
                       SampleData.request_app := Some Sample.app;
                       SampleData.request_user := None |})).
Defined.

(** X22. [Manifest.resolve_extensions] returns as many extensions as the
    manifest lists, in order; each carries the manifest's app url under
    ["app_url"] and all its other entries unchanged; resolving a resolved
    manifest changes nothing. *)
Theorem manifest_extensions_get_app_url (root : Manifest) :
  length (resolve_extensions root) = length (manifest_extensions root) /\
  Forall2
    (fun extension resolved =>
       forall k,
         dict_get k resolved =
           if String.eqb k "app_url" then Some (manifest_app_url root)
           else dict_get k extension)
    (manifest_extensions root) (resolve_extensions root) /\
  resolve_extensions
    {| manifest_app_url := manifest_app_url root;
       manifest_extensions := resolve_extensions root |}
    = resolve_extensions root.
Proof.
  unfold resolve_extensions. split; [apply length_map|]. split.
  - induction (manifest_extensions root) as [|e es IH]; constructor; [|exact IH].
    intros k. apply dict_get_set.
  - cbn [manifest_app_url manifest_extensions]. rewrite map_map.
    apply map_ext. intros e. apply dict_set_twice.
Qed.

(** * Fulfillment, checkout and variant payloads *)

(** X23. When a warehouse is found for a fulfillment and the nested order and
    lines serialize, the fulfillment payload is one document: it nests that
    order, which has no envelope of its own, and those lines, carries the
    envelope for the requestor, and reports the address of the warehouse, or
    null when the warehouse has none.  The warehouse is that of the first
    line's stock; lines after the first play no role. *)
Theorem fulfillment_payload_with_warehouse (env : Env) (fulfillment : Fulfillment)
    (order : Order) (requestor : option Requestor) (warehouse : Warehouse)
    (order_data lines_data : pyval) :
  fulfillment_warehouse env fulfillment order = Some warehouse ->
  (let* p := generate_order_payload env order None false in first_item p)
    = Ok order_data ->
  generate_fulfillment_lines_payload env
    (quantize_fulfillment env fulfillment (order_currency order)) = Ok lines_data ->
  (exists doc,
     generate_fulfillment_payload env fulfillment order requestor = Ok (PList [doc]) /\
     get_field "order" doc = Some order_data /\
     get_field "meta" order_data = None /\
     get_field "lines" doc = Some lines_data /\
     get_field "meta" doc = Some (meta_for env requestor) /\
     get_field "warehouse_address" doc =
       Some match warehouse_address warehouse with
            | Some address => dump_related env ADDRESS_FIELDS (address_row address)
            | None => PNone
            end) /\
  (forall line rest stock,
     fulfillment_lines fulfillment = line :: rest ->
     fulfillment_line_stock line = Some stock ->
     warehouse = stock_warehouse stock).
Proof.
  intros Hw Horder Hlines. split.
  - unfold generate_fulfillment_payload. rewrite Hw.
    apply bind_ok in Horder as (p & Hp & Hfirst).
    rewrite Hp. simpl. rewrite Hfirst. simpl. rewrite Hlines. simpl.
    unfold serialize. simpl. eexists. split; [reflexivity|]. cbn [get_field].
    split; [|split; [|split; [|split]]].
    + repeat (rewrite dict_get_set_ne by reflexivity). apply dict_get_set_eq.
    + pose proof Hp as Hnone. unfold generate_order_payload in Hnone. binds Hnone.
      eapply serialize_absent_key with (k := "meta") in Hnone; try reflexivity.
      destruct (order_payload_singleton _ _ _ _ _ Hp) as [doc ->].
      simpl in Hfirst. injection Hfirst as <-.
      now inversion Hnone.
    + rewrite dict_get_set_ne by reflexivity. apply dict_get_set_eq.
    + apply dict_get_set_eq.
    + repeat (rewrite dict_get_set_ne by reflexivity). rewrite dict_get_set_eq.
      now destruct (warehouse_address warehouse).
  - intros line rest stock Hl Hs. unfold fulfillment_warehouse in Hw.
    rewrite Hl in Hw. simpl in Hw. rewrite Hs in Hw. now injection Hw as <-.
Qed.

Lemma fulfillment_payload_with_warehouse_witness :
  let warehouse :=
    {| warehouse_row := mkModel "Warehouse" (PInt 3) [("name", PStr "Main")];
       warehouse_address := Some Sample.address |} in
  let env :=
    {| now_isoformat := now_isoformat Sample.env;
       saleor_version := saleor_version Sample.env;
       to_global_id := to_global_id Sample.env;
       to_camel_case := to_camel_case Sample.env;
       get_currency_precision := get_currency_precision Sample.env;
       build_absolute_uri := build_absolute_uri Sample.env;
       from_payment_app_id := from_payment_app_id Sample.env;
       warehouses_for_country := fun _ => [warehouse];
       get_order_country := get_order_country Sample.env;
       serialize_checkout_lines := serialize_checkout_lines Sample.env;
       py_str := py_str Sample.env |} in
  exists doc,
    generate_fulfillment_payload env Sample.fulfillment Sample.order None
      = Ok (PList [doc]) /\
    get_field "warehouse_address" doc =
      Some (PDict [("city", PStr "Wroclaw"); ("country", PStr "PL");
                   ("id", PStr "Address:5")]).
Proof.
  intros warehouse env.
  destruct (proj1 (fulfillment_payload_with_warehouse env Sample.fulfillment
                     Sample.order None warehouse _ _ eq_refl eq_refl eq_refl))
    as (doc & Hdoc & _ & _ & _ & _ & Haddress).
  exists doc. split; [exact Hdoc | exact Haddress].
Defined.

(** X24. Every checkout document carries the currency of the checkout, a
    quantized discount amount, the lines as [serialize_checkout_lines]
    returns them for the quantized checkout, and as warehouse address the
    address of the first warehouse that serves the country of the shipping
    address - null when there is no shipping address or no such warehouse,
    whatever the billing address. *)
Theorem checkout_payload_fields (env : Env) (checkout : Checkout)
    (requestor : option Requestor) (payload : pyval) :
  generate_checkout_payload env checkout requestor = Ok payload ->
  Forall
    (fun doc =>
       get_field "currency" doc = Some (PStr (checkout_currency checkout)) /\
       (forall d, get_field "discount_amount" doc = Some (PDec d) ->
          is_quantized env (checkout_currency checkout) d = true) /\
       get_field "lines" doc =
         Some (PList (serialize_checkout_lines env (quantize_checkout env checkout))) /\
       get_field "warehouse_address" doc =
         Some match checkout_shipping_address checkout with
              | Some shipping =>
                  match warehouses_for_country env (address_country_code shipping) with
                  | warehouse :: _ =>
                      match warehouse_address warehouse with
                      | Some address =>
                          dump_related env ADDRESS_FIELDS (address_row address)
                      | None => PNone
                      end
                  | [] => PNone
                  end
              | None => PNone
              end)
    (top_objects payload).
Proof.
  unfold generate_checkout_payload. intros H.
  bind_inv H. bind_inv H.
  apply serialize_ok in H as (docs & -> & H). simpl.
  inversion H as [|o doc qs docs' Hd Hrest]; subst. inversion Hrest; subst.
  constructor; [|constructor].
  split; [|split; [|split]].
  - rewrite (get_dump_object_projected env _ _ _ _ _ _ _ "currency" Hd eq_refl eq_refl).
    unfold checkout_model, with_column, with_columns. cbn [columns].
    simpl. apply dict_get_set_eq.
  - intros d Hget.
    rewrite (get_dump_object_projected env _ _ _ _ _ _ _ "discount_amount" Hd
               eq_refl eq_refl) in Hget.
    unfold checkout_model, quantize_checkout, with_column, with_columns in Hget.
    cbn [checkout_row checkout_currency columns String.eqb Ascii.eqb Bool.eqb
         existsb orb] in Hget.
    rewrite dict_get_set_ne in Hget by reflexivity.
    apply (quantized_column env (checkout_row checkout) ["discount_amount"]
             (checkout_currency checkout) "discount_amount" d);
      [simpl; auto | exact Hget].
  - destruct (get_dump_object_extra env _ _ _ _ _ _ _ "lines" _ Hd eq_refl)
      as (v & Hv & ->). cbn [eval_extra] in Hv. now injection Hv as <-.
  - destruct (get_dump_object_additional env _ _ _ _ _ _ _ "warehouse_address" _ _ Hd
                eq_refl eq_refl) as (r & Hr & ->).
    injection Hr as <-. unfold checkout_warehouse.
    cbn [quantize_checkout checkout_shipping_address].
    destruct (checkout_shipping_address checkout) as [shipping|]; [|reflexivity].
    destruct (warehouses_for_country env (address_country_code shipping))
      as [|warehouse ws]; [reflexivity|].
    simpl. now destruct (warehouse_address warehouse).
Qed.

Lemma checkout_payload_fields_witness :
  exists payload,
    generate_checkout_payload Sample.env Sample.checkout None = Ok payload /\
    Forall (fun doc => get_field "warehouse_address" doc = Some PNone)
      (top_objects payload).
Proof.
  eexists. split; [reflexivity|].
  eapply List.Forall_impl;
    [|exact (checkout_payload_fields Sample.env Sample.checkout None _ eq_refl)].
  intros doc H. exact (proj2 (proj2 (proj2 H))).
Defined.

Lemma variant_listings_payload_total (env : Env)
    (listings : list ProductVariantChannelListing) :
  exists docs,
    generate_product_variant_listings_payload env listings = Ok (PList docs).
Proof.
  unfold generate_product_variant_listings_payload, serialize.
  match goal with
  | |- context [mapM ?f listings] => destruct (mapM_is_ok f listings) as [docs Hdocs]
  end.
  { intros l. eexists. reflexivity. }
  rewrite Hdocs. simpl. eauto.
Qed.

(** X25. The variant payload never fails: it has one document per variant,
    in order, each with the variant's own global id, the global id of its
    product, one media entry per medium and the listing payload of its
    channel listings; the envelope is there exactly when [with_meta] is
    set. *)
Theorem variant_payload_total (env : Env) (product_variants : list ProductVariant)
    (requestor : option Requestor) (with_meta : bool) :
  exists docs,
    generate_product_variant_payload env product_variants requestor with_meta
      = Ok (PList docs) /\
    Forall2
      (fun variant doc =>
         get_field "id" doc = Some (PStr (variant_global_id variant)) /\
         get_field "product_id" doc =
           Some (PStr (to_global_id env "Product" (variant_product_id variant))) /\
         get_field "media" doc =
           Some (PList (map (media_payload env) (variant_media variant))) /\
         Ok (get_field "channel_listings" doc) =
           (let* listings :=
              generate_product_variant_listings_payload env
                (variant_channel_listings variant) in
            Ok (Some listings)) /\
         get_field "meta" doc =
           if with_meta then Some (meta_for env requestor) else None)
      product_variants docs.
Proof.
  unfold generate_product_variant_payload, serialize.
  match goal with
  | |- context [mapM ?f product_variants] =>
      destruct (mapM_is_ok f product_variants) as [docs Hdocs]
  end.
  { intros v. unfold get_dump_object.
    destruct (variant_listings_payload_total env (variant_channel_listings v))
      as [ls Hls].
    destruct with_meta; simpl; rewrite Hls; simpl; eauto. }
  rewrite Hdocs. simpl. exists docs. split; [reflexivity|].
  apply mapM_ok in Hdocs.
  induction Hdocs as [|v doc vs docs' Hd _ IH]; constructor; [|exact IH].
  destruct (variant_listings_payload_total env (variant_channel_listings v))
    as [ls Hls].
  rewrite Hls. cbn [bind].
  destruct with_meta.
  - destruct (get_dump_object_extra env _ _ _ _ _ _ _ "id" _ Hd eq_refl)
      as (v1 & Hv1 & ->).
    destruct (get_dump_object_extra env _ _ _ _ _ _ _ "product_id" _ Hd eq_refl)
      as (v2 & Hv2 & ->).
    destruct (get_dump_object_extra env _ _ _ _ _ _ _ "media" _ Hd eq_refl)
      as (v3 & Hv3 & ->).
    destruct (get_dump_object_extra env _ _ _ _ _ _ _ "channel_listings" _ Hd eq_refl)
      as (v4 & Hv4 & ->).
    destruct (get_dump_object_extra env _ _ _ _ _ _ _ "meta" _ Hd eq_refl)
      as (v5 & Hv5 & ->).
    cbn [eval_extra] in *. rewrite Hls in Hv4.
    injection Hv1 as <-. injection Hv2 as <-. injection Hv3 as <-.
    injection Hv4 as <-. injection Hv5 as <-. repeat split.
  - destruct (get_dump_object_extra env _ _ _ _ _ _ _ "id" _ Hd eq_refl)
      as (v1 & Hv1 & ->).
    destruct (get_dump_object_extra env _ _ _ _ _ _ _ "product_id" _ Hd eq_refl)
      as (v2 & Hv2 & ->).
    destruct (get_dump_object_extra env _ _ _ _ _ _ _ "media" _ Hd eq_refl)
      as (v3 & Hv3 & ->).
    destruct (get_dump_object_extra env _ _ _ _ _ _ _ "channel_listings" _ Hd eq_refl)
      as (v4 & Hv4 & ->).
    cbn [eval_extra] in *. rewrite Hls in Hv4.
    injection Hv1 as <-. injection Hv2 as <-. injection Hv3 as <-.
    injection Hv4 as <-.
    rewrite (get_dump_object_projected env _ _ _ _ _ _ _ "meta" Hd eq_refl eq_refl).
    repeat split.
Qed.
